(** * Real-time collaboration session manager

    A shallow embedding of [backend/src/app/api/v1/websocket.py]
    (the [ConnectionManager] class, [get_websocket_user],
    [project_websocket] and [handle_edit_message]), of [verify_token]
    from [app/core/security.py] and of the [EditHistory] row of
    [app/models/project.py], followed by the properties of the
    specification that concern them.

    Conventions of the embedding:
    - a Python [dict] is an insertion-ordered association list
      ([PyDict]); the order is observable (it is the order of the sends of
      a broadcast and of the [active_users] listing);
    - JSON / Python values are the inductive [json] ([JNull] is [None]);
    - a coroutine is a function in the monad [M]: it threads the [world]
      (registry, pending asyncio tasks, database rows, clock, the number
      of rollbacks database sessions went through, and a log of the
      externally visible effects in program order) and ends by
      returning, by raising, or suspended on a [receive_text] for which no
      input is left;
    - what the code cannot decide by itself (whether a send on a socket
      succeeds, what the clock reads, what [json.loads], [jwt.decode] and
      [uuid.UUID] answer, which exception a failing [json.loads] raises,
      whether the database accepts a commit) is an oracle of the
      environment [Env];
    - each coroutine runs without interleaving of other tasks between
      its suspension points; [websocket.accept] and [websocket.close] are
      taken to succeed; a [logger] call writes nothing that is modelled,
      but its arguments are evaluated, and [str(user.id)] among them can
      raise. *)

From Stdlib Require Import String List Bool ZArith Arith Lia.
Import ListNotations.
Set Warnings "-register-all".
Local Open Scope string_scope.
Local Open Scope list_scope.

(* ===================================================================== *)
(** * Python dictionaries *)
(* ===================================================================== *)

Module PyDict.

Definition t (V : Type) : Type := list (string * V).

Section Ops.
Context {V : Type}.

(** [d.get(k)] *)
Fixpoint get (k : string) (d : t V) : option V :=
  match d with
  | [] => None
  | (k', v) :: r => if String.eqb k k' then Some v else get k r
  end.

(** [k in d] *)
Definition contains (k : string) (d : t V) : bool :=
  match get k d with Some _ => true | None => false end.

(** [d[k] = v]: an existing key keeps its position, a new key goes
    last. *)
Fixpoint set (k : string) (v : V) (d : t V) : t V :=
  match d with
  | [] => [(k, v)]
  | (k', v') :: r =>
      if String.eqb k k' then (k, v) :: r else (k', v') :: set k v r
  end.

(** [d.pop(k, default)], the dictionary that is left. *)
Fixpoint pop (k : string) (d : t V) : t V :=
  match d with
  | [] => []
  | (k', v') :: r =>
      if String.eqb k k' then r else (k', v') :: pop k r
  end.

Definition keys (d : t V) : list string := map fst d.

(** [not d] *)
Definition is_empty (d : t V) : bool :=
  match d with [] => true | _ :: _ => false end.

(** Number of entries stored under key [k]. *)
Definition count (k : string) (d : t V) : nat :=
  length (filter (fun kv => String.eqb k (fst kv)) d).

End Ops.

(** The same keys in the same order, every value through [f]. *)
Definition map_values {V W : Type} (f : V -> W) (d : t V) : t W :=
  map (fun kv => (fst kv, f (snd kv))) d.

(** [{**d, k1: v1, ..., kn: vn}] *)
Definition update {V : Type} (d : t V) (kvs : list (string * V)) : t V :=
  fold_left (fun acc kv => set (fst kv) (snd kv) acc) kvs d.

End PyDict.

Abbreviation dict := PyDict.t.

(* ===================================================================== *)
(** * Values, rows and events *)
(* ===================================================================== *)

(** JSON values as [json.loads] builds them; numbers are kept integral. *)
Inductive json : Type :=
| JNull
| JBool (b : bool)
| JNum (n : Z)
| JStr (s : string)
| JList (l : list json)
| JDict (d : list (string * json)).

Definition json_is_str (s : string) (j : json) : bool :=
  match j with JStr s' => String.eqb s s' | _ => false end.

(** A transport connection, identified by its handle. *)
Definition websocket := nat.

(** An entry of [user_sessions[project_id][user_id]]. *)
Record session : Type := mkSession {
  s_user_info : dict json;
  s_connected_at : string;
  s_last_activity : string }.

(** A row of the table [edit_history]. *)
Record EditHistory : Type := mkEditHistory {
  eh_project_id : string;
  eh_user_id : string;
  action : json;
  object_type : json;
  object_id : json;
  changes : json;
  previous_data : json;
  new_data : json;
  session_id : json }.

(** The columns of [users] and [projects] read by the endpoint. *)
Record User : Type := mkUser {
  u_id : string;
  username : string;
  full_name : json;
  email : string;
  is_active : bool }.

Record Project : Type := mkProject {
  owner_id : string;
  is_public : bool }.

(** A coroutine handed to [asyncio.create_task]: always a call of
    [broadcast_to_project]. *)
Record task : Type := mkTask {
  t_project : string;
  t_message : dict json;
  t_exclude : option string }.

(** Externally visible effects. [Sent ws m ok]: [ws.send_text(json.dumps(m))]
    was called and returned ([ok = true]) or raised ([ok = false]). *)
Inductive event : Type :=
| Accepted (ws : websocket)
| Sent (ws : websocket) (message : dict json) (delivered : bool)
| Closed (ws : websocket) (code : Z) (reason : string)
| Committed (row : EditHistory)
| RolledBack.

Inductive exn : Type :=
| KeyError
| AttributeError
| JSONDecodeError
| WebSocketDisconnect
| HTTPException (status_code : Z) (detail : string)
| SendFailure
| DatabaseError
| ValueError
| MissingGreenlet
| OtherError.

Definition is_JSONDecodeError (e : exn) : bool :=
  match e with JSONDecodeError => true | _ => false end.

Definition is_WebSocketDisconnect (e : exn) : bool :=
  match e with WebSocketDisconnect => true | _ => false end.

(** What [receive_text] does on one call. *)
Inductive inbound : Type :=
| Frame (data : string)
| RecvRaises (e : exn).

(** The value a Python call evaluates to, for the functions whose result
    the specification speaks about. *)
Inductive pyval : Type :=
| PyNone
| PyStrList (l : list string).

(* ===================================================================== *)
(** * World and environment *)
(* ===================================================================== *)

Record world : Type := mkWorld {
  active_connections : dict (dict websocket);
  user_sessions : dict (dict session);
  tasks : list task;
  trace : list event;
  edit_history : list EditHistory;
  clock : nat;
  rollbacks : nat }.

Definition init_world : world := mkWorld [] [] [] [] [] 0 0.

Record Env : Type := mkEnv {
  send_ok : websocket -> bool;
  utcnow : nat -> string;
  json_loads : string -> option json;
  json_error : string -> exn;
  jwt_decode : string -> option (dict json);
  uuid_parse : string -> option string;
  find_user : string -> option User;
  find_project : string -> option Project;
  commit_ok : EditHistory -> bool;
  rollback_ok : bool }.

(* ===================================================================== *)
(** * The coroutine monad *)
(* ===================================================================== *)

Inductive outcome (A : Type) : Type :=
| Ret (a : A)
| Raise (e : exn)
| Suspended.
Arguments Ret {A} a.
Arguments Raise {A} e.
Arguments Suspended {A}.

Definition M (A : Type) : Type := world -> outcome A * world.

Definition ret {A} (a : A) : M A := fun w => (Ret a, w).
Definition raise {A} (e : exn) : M A := fun w => (Raise e, w).
Definition suspend {A} : M A := fun w => (Suspended, w).

Definition bind {A B} (m : M A) (k : A -> M B) : M B :=
  fun w =>
    match m w with
    | (Ret a, w') => k a w'
    | (Raise e, w') => (Raise e, w')
    | (Suspended, w') => (Suspended, w')
    end.

Declare Scope coro_scope.
Delimit Scope coro_scope with coro.
Notation "x <- m ;; k" := (bind m (fun x => k))
  (at level 100, m at next level, right associativity) : coro_scope.
Notation "m ;; k" := (bind m (fun _ => k))
  (at level 100, right associativity) : coro_scope.
Local Open Scope coro_scope.

(** [try: m  except Exception: h] *)
Definition try_except {A} (m : M A) (h : exn -> M A) : M A :=
  fun w =>
    match m w with
    | (Raise e, w') => h e w'
    | r => r
    end.

(** [try: m  except C: h] for the exception class recognised by [c]. *)
Definition try_except_only {A} (c : exn -> bool) (m : M A) (h : M A) : M A :=
  fun w =>
    match m w with
    | (Raise e, w') => if c e then h w' else (Raise e, w')
    | r => r
    end.

(** [try: m  finally: c]; a suspended body has not left the [try]. *)
Definition try_finally {A} (m : M A) (c : M unit) : M A :=
  fun w =>
    match m w with
    | (Ret a, w') => (_ <- c ;; ret a) w'
    | (Raise e, w') => (_ <- c ;; raise e) w'
    | (Suspended, w') => (Suspended, w')
    end.

Definition when (b : bool) (m : M unit) : M unit :=
  if b then m else ret tt.

Definition gets {A} (f : world -> A) : M A := fun w => (Ret (f w), w).

Definition put_connections (ac : dict (dict websocket)) : M unit :=
  fun w => (Ret tt, mkWorld ac (user_sessions w) (tasks w) (trace w)
                            (edit_history w) (clock w) (rollbacks w)).

Definition put_sessions (us : dict (dict session)) : M unit :=
  fun w => (Ret tt, mkWorld (active_connections w) us (tasks w) (trace w)
                            (edit_history w) (clock w) (rollbacks w)).

Definition put_tasks (ts : list task) : M unit :=
  fun w => (Ret tt, mkWorld (active_connections w) (user_sessions w) ts
                            (trace w) (edit_history w) (clock w)
                            (rollbacks w)).

Definition emit (e : event) : M unit :=
  fun w => (Ret tt, mkWorld (active_connections w) (user_sessions w) (tasks w)
                            (trace w ++ [e]) (edit_history w) (clock w)
                            (rollbacks w)).

Definition insert_row (r : EditHistory) : M unit :=
  fun w => (Ret tt, mkWorld (active_connections w) (user_sessions w) (tasks w)
                            (trace w) (edit_history w ++ [r]) (clock w)
                            (rollbacks w)).

(** [d[k]] and [del d[k]] raise [KeyError] on a missing key. *)
Definition getitem {V} (k : string) (d : dict V) : M V :=
  match PyDict.get k d with
  | Some v => ret v
  | None => raise KeyError
  end.

Definition delitem {V} (k : string) (d : dict V) : M (dict V) :=
  if PyDict.contains k d then ret (PyDict.pop k d) else raise KeyError.

(** [asyncio.create_task(...)] *)
Definition create_task (t : task) : M unit :=
  ts <- gets tasks ;; put_tasks (ts ++ [t]).

(* ===================================================================== *)
(** * ConnectionManager *)
(* ===================================================================== *)

Section Manager.
Variable E : Env.

(** [datetime.utcnow().isoformat()] *)
Definition utcnow_isoformat : M string :=
  fun w => (Ret (utcnow E (clock w)),
            mkWorld (active_connections w) (user_sessions w) (tasks w)
                    (trace w) (edit_history w) (S (clock w))
                    (rollbacks w)).

(** [await websocket.send_text(json.dumps(message))] *)
Definition send_text (ws : websocket) (message : dict json) : M unit :=
  if send_ok E ws
  then emit (Sent ws message true)
  else (emit (Sent ws message false) ;; raise SendFailure).

Definition send_personal_message (ws : websocket) (message : dict json)
  : M unit :=
  try_except (send_text ws message) (fun _ => ret tt).

(** [exclude_user_id and user_id == exclude_user_id] *)
Definition excluded (exclude_user_id : option string) (user_id : string)
  : bool :=
  match exclude_user_id with
  | Some x => negb (String.eqb x "") && String.eqb user_id x
  | None => false
  end.

Definition disconnect (project_id user_id : string) : M unit :=
  ac <- gets active_connections ;;
  when (PyDict.contains project_id ac)
    (members <- getitem project_id ac ;;
     let members := PyDict.pop user_id members in
     put_connections (PyDict.set project_id members ac) ;;
     when (PyDict.is_empty members)
       (ac <- gets active_connections ;;
        ac <- delitem project_id ac ;;
        put_connections ac)) ;;
  us <- gets user_sessions ;;
  when (PyDict.contains project_id us)
    (sessions <- getitem project_id us ;;
     let user_info := option_map s_user_info (PyDict.get user_id sessions) in
     let sessions := PyDict.pop user_id sessions in
     put_sessions (PyDict.set project_id sessions us) ;;
     when (PyDict.is_empty sessions)
       (us <- gets user_sessions ;;
        us <- delitem project_id us ;;
        put_sessions us) ;;
     (* [if user_info:] holds for a dictionary that is not empty *)
     match user_info with
     | Some ((_ :: _) as info) =>
         now <- utcnow_isoformat ;;
         create_task
           (mkTask project_id
              [("type", JStr "user_left");
               ("user_id", JStr user_id);
               ("user_info", JDict info);
               ("timestamp", JStr now)]
              (Some user_id))
     | _ => ret tt
     end).

(** The [for user_id, websocket in ...items()] loop of
    [broadcast_to_project]; its result is [failed_connections]. *)
Fixpoint send_loop (items : list (string * websocket))
    (message : dict json) (exclude_user_id : option string)
    (failed_connections : list string) : M (list string) :=
  match items with
  | [] => ret failed_connections
  | (user_id, ws) :: rest =>
      if excluded exclude_user_id user_id
      then send_loop rest message exclude_user_id failed_connections
      else
        failed_connections <-
          try_except
            (send_text ws message ;; ret failed_connections)
            (fun _ => ret (failed_connections ++ [user_id])) ;;
        send_loop rest message exclude_user_id failed_connections
  end.

(** The [for user_id in failed_connections] loop. *)
Fixpoint cleanup_loop (project_id : string) (failed : list string)
  : M unit :=
  match failed with
  | [] => ret tt
  | user_id :: rest =>
      disconnect project_id user_id ;; cleanup_loop project_id rest
  end.

Definition broadcast_to_project (project_id : string)
    (message : dict json) (exclude_user_id : option string) : M pyval :=
  ac <- gets active_connections ;;
  if negb (PyDict.contains project_id ac) then ret PyNone
  else
    members <- getitem project_id ac ;;
    failed_connections <- send_loop members message exclude_user_id [] ;;
    cleanup_loop project_id failed_connections ;;
    ret PyNone.

(** The list comprehension of [connect]. *)
Definition active_users_of (user_id : string) (sessions : dict session)
  : list json :=
  map (fun us =>
         JDict [("user_id", JStr (fst us));
                ("user_info", JDict (s_user_info (snd us)));
                ("connected_at", JStr (s_connected_at (snd us)))])
      (filter (fun us => negb (String.eqb (fst us) user_id)) sessions).

Definition dict_get_default {V} (k : string) (d : dict (dict V)) : dict V :=
  match PyDict.get k d with Some v => v | None => [] end.

Definition connect (ws : websocket) (project_id user_id : string)
    (user_info : dict json) : M unit :=
  emit (Accepted ws) ;;
  ac <- gets active_connections ;;
  when (negb (PyDict.contains project_id ac))
    (put_connections (PyDict.set project_id [] ac)) ;;
  ac <- gets active_connections ;;
  members <- getitem project_id ac ;;
  put_connections (PyDict.set project_id (PyDict.set user_id ws members) ac) ;;
  us <- gets user_sessions ;;
  when (negb (PyDict.contains project_id us))
    (put_sessions (PyDict.set project_id [] us)) ;;
  connected_at <- utcnow_isoformat ;;
  last_activity <- utcnow_isoformat ;;
  us <- gets user_sessions ;;
  sessions <- getitem project_id us ;;
  put_sessions
    (PyDict.set project_id
       (PyDict.set user_id (mkSession user_info connected_at last_activity)
          sessions) us) ;;
  now <- utcnow_isoformat ;;
  broadcast_to_project project_id
    [("type", JStr "user_joined");
     ("user_id", JStr user_id);
     ("user_info", JDict user_info);
     ("timestamp", JStr now)]
    (Some user_id) ;;
  us <- gets user_sessions ;;
  let active_users := active_users_of user_id (dict_get_default project_id us) in
  now <- utcnow_isoformat ;;
  send_personal_message ws
    [("type", JStr "active_users");
     ("users", JList active_users);
     ("timestamp", JStr now)].

Definition get_project_users (project_id : string) (w : world) : list json :=
  match PyDict.get project_id (user_sessions w) with
  | None => []
  | Some sessions =>
      map (fun us =>
             JDict [("user_id", JStr (fst us));
                    ("user_info", JDict (s_user_info (snd us)));
                    ("connected_at", JStr (s_connected_at (snd us)));
                    ("last_activity", JStr (s_last_activity (snd us)))])
          sessions
  end.

(** The event loop runs the oldest pending task. *)
Definition run_next_task : M unit :=
  ts <- gets tasks ;;
  match ts with
  | [] => ret tt
  | t :: rest =>
      put_tasks rest ;;
      broadcast_to_project (t_project t) (t_message t) (t_exclude t) ;;
      ret tt
  end.

End Manager.

(* ===================================================================== *)
(** * Authentication, edit persistence and the endpoint *)
(* ===================================================================== *)

Section Endpoint.
Variable E : Env.

(** [d.get(k)] and [d.get(k, default)] on a decoded JSON object. *)
Definition get_or (k : string) (default : json) (d : dict json) : json :=
  match PyDict.get k d with Some v => v | None => default end.

(** [app.core.security.verify_token] *)
Definition verify_token (token token_type : string) : M json :=
  match jwt_decode E token with
  | None => raise (HTTPException 401 "Invalid token")
  | Some payload =>
      let subject := get_or "sub" JNull payload in
      let token_type_claim := get_or "type" JNull payload in
      match subject with
      | JNull => raise (HTTPException 401 "Invalid token")
      | _ =>
          if negb (json_is_str token_type token_type_claim)
          then raise (HTTPException 401 "Invalid token")
          else ret subject
      end
  end.

(** [uuid.UUID(x)] *)
Definition uuid_UUID (x : json) : M string :=
  match x with
  | JStr s =>
      match uuid_parse E s with
      | Some u => ret u
      | None => raise OtherError
      end
  | _ => raise AttributeError
  end.

Definition get_websocket_user (token : string) : M User :=
  try_except
    (user_id_str <- verify_token token "access" ;;
     user_id <- uuid_UUID user_id_str ;;
     match find_user E user_id with
     | Some user =>
         if is_active user then ret user
         else raise (HTTPException 401 "Invalid or inactive user")
     | None => raise (HTTPException 401 "Invalid or inactive user")
     end)
    (fun _ => raise (HTTPException 401 "Authentication failed")).

(** The row built by [EditHistory(...)] in [handle_edit_message]. *)
Definition edit_row (project_id user_id : string) (message : dict json)
  : EditHistory :=
  mkEditHistory project_id user_id
    (get_or "action" (JStr "unknown") message)
    (get_or "object_type" (JStr "unknown") message)
    (get_or "object_id" JNull message)
    (get_or "changes" JNull message)
    (get_or "previous_data" JNull message)
    (get_or "new_data" JNull message)
    (get_or "session_id" JNull message).

(** A rollback of the connection's database session expires every
    instance the session holds ([db/session.py] switches that off for
    commits only, with [expire_on_commit=False]). Each connection has a
    session of its own and coroutines are not interleaved, so one counter
    serves: an instance is live as long as the count is the one it was
    loaded at. *)
Definition expire_all : M unit :=
  fun w => (Ret tt, mkWorld (active_connections w) (user_sessions w) (tasks w)
                            (trace w) (edit_history w) (clock w)
                            (S (rollbacks w))).

(** [str(user.id)] on the [User] instance whose attributes were loaded
    when the session had been rolled back [loaded] times.  Once the
    instance is expired the attribute has to be loaded again, which a
    plain attribute access on an [AsyncSession] cannot do: it raises
    [MissingGreenlet]. *)
Definition str_user_id (loaded : nat) (user_id : string) : M string :=
  n <- gets rollbacks ;;
  if Nat.eqb n loaded then ret user_id else raise MissingGreenlet.

(** [db.add(row); await db.commit()]; a flush that the database refuses
    rolls the transaction back before the exception is raised again. *)
Definition db_commit (row : EditHistory) : M unit :=
  if commit_ok E row
  then (insert_row row ;; emit (Committed row))
  else (expire_all ;; raise DatabaseError).

(** [await db.rollback()] *)
Definition db_rollback : M unit :=
  expire_all ;;
  if rollback_ok E then emit RolledBack else raise DatabaseError.

Definition handle_edit_message (project_id user_id : string)
    (message : dict json) : M unit :=
  try_except
    (let edit_history := edit_row project_id user_id message in
     db_commit edit_history)
    (fun _ => db_rollback).

(** The "update user activity" block of the receive loop. *)
Definition touch (project_id user_id : string) : M unit :=
  us <- gets user_sessions ;;
  when (PyDict.contains project_id us)
    (sessions <- getitem project_id us ;;
     when (PyDict.contains user_id sessions)
       (now <- utcnow_isoformat E ;;
        s <- getitem user_id sessions ;;
        put_sessions
          (PyDict.set project_id
             (PyDict.set user_id
                (mkSession (s_user_info s) (s_connected_at s) now)
                sessions) us))).

(** [{**message, "user_id": ..., "user_info": ..., "timestamp": ...}] *)
Definition stamped (message : dict json) (user_id : string)
    (user_info : dict json) (now : string) : dict json :=
  PyDict.update message
    [("user_id", JStr user_id);
     ("user_info", JDict user_info);
     ("timestamp", JStr now)].

(** [json.loads(data)]: the decoded value, or the exception it raises
    ([JSONDecodeError] on malformed text, but also a plain [ValueError],
    as on an integer literal beyond the digit limit). *)
Definition json_loads_or_raise (data : string) : M json :=
  match json_loads E data with
  | Some j => ret j
  | None => raise (json_error E data)
  end.

(** One turn of the [while True] loop after [receive_text] returned
    [data].  A turn starts with a live [user]: the only rollbacks are
    those of [handle_edit_message], and a turn in which one happened does
    not end normally (see [handle_frame_returns_live]); so [str(user.id)]
    in the activity update, which comes first, gives the id. From there
    on each evaluation of [user.id] is a [str_user_id]. *)
Definition handle_frame (ws : websocket) (project_id user_id : string)
    (user_info : dict json) (data : string) : M unit :=
  loaded <- gets rollbacks ;;
  try_except_only is_JSONDecodeError
    (message <- json_loads_or_raise data ;;
     message <- match message with
                | JDict d => ret d
                | _ => raise AttributeError
                end ;;
     let message_type := get_or "type" JNull message in
     touch project_id user_id ;;
     if json_is_str "edit" message_type then
       uid <- str_user_id loaded user_id ;;
       handle_edit_message project_id uid message ;;
       uid <- str_user_id loaded user_id ;;
       now <- utcnow_isoformat E ;;
       exclude_user_id <- str_user_id loaded user_id ;;
       broadcast_to_project E project_id
         (stamped message uid user_info now) (Some exclude_user_id) ;;
       ret tt
     else if json_is_str "cursor" message_type then
       uid <- str_user_id loaded user_id ;;
       now <- utcnow_isoformat E ;;
       exclude_user_id <- str_user_id loaded user_id ;;
       broadcast_to_project E project_id
         (stamped message uid user_info now) (Some exclude_user_id) ;;
       ret tt
     else if json_is_str "ping" message_type then
       now <- utcnow_isoformat E ;;
       send_personal_message E ws
         [("type", JStr "pong"); ("timestamp", JStr now)]
     else
       (* [logger.warning(..., user_id=str(user.id), ...)] *)
       str_user_id loaded user_id ;;
       ret tt)
    ((* [logger.error(..., user_id=str(user.id))] *)
     str_user_id loaded user_id ;;
     now <- utcnow_isoformat E ;;
     send_personal_message E ws
       [("type", JStr "error");
        ("message", JStr "Invalid JSON format");
        ("timestamp", JStr now)]).

Definition receive_text (i : inbound) : M string :=
  match i with
  | Frame data => ret data
  | RecvRaises e => raise e
  end.

(** The [while True] loop, fed with what the successive calls of
    [receive_text] do; with no input left the coroutine stays suspended
    in [receive_text]. *)
Fixpoint receive_loop (ws : websocket) (project_id user_id : string)
    (user_info : dict json) (script : list inbound) : M unit :=
  match script with
  | [] => suspend
  | i :: rest =>
      data <- receive_text i ;;
      handle_frame ws project_id user_id user_info data ;;
      receive_loop ws project_id user_id user_info rest
  end.

Definition user_info_of (user : User) : dict json :=
  [("id", JStr (u_id user));
   ("username", JStr (username user));
   ("full_name", full_name user);
   ("email", JStr (email user))].

(** The inner [try ... except WebSocketDisconnect ... finally], entered
    with the [user] that [get_websocket_user] has just loaded.  Both the
    handler and the [finally] clause evaluate [str(user.id)] first:
    [logger.info(..., user_id=str(user.id), ...)] and
    [manager.disconnect(str(project_id), str(user.id))]. *)
Definition joined (ws : websocket) (project_id user_id : string)
    (user_info : dict json) (script : list inbound) : M unit :=
  loaded <- gets rollbacks ;;
  try_finally
    (try_except_only is_WebSocketDisconnect
       (receive_loop ws project_id user_id user_info script)
       (str_user_id loaded user_id ;; ret tt))
    (uid <- str_user_id loaded user_id ;;
     disconnect E project_id uid).

Definition project_websocket (ws : websocket) (project_id token : string)
    (script : list inbound) : M unit :=
  try_except
    (user <- get_websocket_user token ;;
     match find_project E project_id with
     | None => emit (Closed ws 4404 "Project not found")
     | Some project =>
         if negb (is_public project)
            && negb (String.eqb (owner_id project) (u_id user))
         then emit (Closed ws 4403 "Project access denied")
         else
           (* no rollback so far: [user] is as [get_websocket_user]
              loaded it *)
           let user_info := user_info_of user in
           connect E ws project_id (u_id user) user_info ;;
           joined ws project_id (u_id user) user_info script
     end)
    (fun _ =>
       try_except
         (emit (Closed ws 4500 "Internal server error"))
         (fun _ => ret tt)).

End Endpoint.

(* ===================================================================== *)
(** * The registry: transformations, invariant, observations *)
(* ===================================================================== *)

Section Registry.
Context {V : Type}.

(** The effect of [disconnect] on one of the two tables. *)
Definition drop (p u : string) (reg : dict (dict V)) : dict (dict V) :=
  match PyDict.get p reg with
  | None => reg
  | Some members =>
      if PyDict.is_empty (PyDict.pop u members)
      then PyDict.pop p reg
      else PyDict.set p (PyDict.pop u members) reg
  end.

(** The effect of [connect] on one of the two tables. *)
Definition add (p u : string) (v : V) (reg : dict (dict V))
  : dict (dict V) :=
  PyDict.set p (PyDict.set u v (dict_get_default p reg)) reg.

Definition members_ok (pm : string * dict V) : Prop :=
  snd pm <> [] /\ NoDup (PyDict.keys (snd pm)).

(** No key twice, at either level, and no project left empty. *)
Definition registry_ok (reg : dict (dict V)) : Prop :=
  NoDup (PyDict.keys reg) /\ Forall members_ok reg.

(** The table with its values forgotten. *)
Definition erase (reg : dict (dict V)) : dict (dict unit) :=
  PyDict.map_values (PyDict.map_values (fun _ => tt)) reg.

(** [len(reg.get(p, {}))] *)
Definition member_count (p : string) (reg : dict (dict V)) : nat :=
  length (dict_get_default p reg).

(** Number of slots the table holds for the key [(p, u)]. *)
Definition entry_count (p u : string) (reg : dict (dict V)) : nat :=
  list_sum
    (map (fun pm =>
            if String.eqb p (fst pm) then PyDict.count u (snd pm) else 0)
         reg).

End Registry.

(** The two tables are well formed and hold the same keys in the same
    order. *)
Definition world_ok (w : world) : Prop :=
  registry_ok (active_connections w)
  /\ erase (active_connections w) = erase (user_sessions w).

(** A coroutine that keeps the invariant, however it ends. *)
Definition preserves {A} (m : M A) : Prop :=
  forall w, world_ok w -> world_ok (snd (m w)).

(** Member ids of a project, in iteration order. *)
Definition members_of (p : string) (w : world) : list string :=
  PyDict.keys (dict_get_default p (active_connections w)).

Definition add_trace (evs : list event) (w : world) : world :=
  mkWorld (active_connections w) (user_sessions w) (tasks w)
          (trace w ++ evs) (edit_history w) (clock w) (rollbacks w).

Section Effects.
Variable E : Env.

Definition user_left_message (u : string) (info : dict json) (now : string)
  : dict json :=
  [("type", JStr "user_left");
   ("user_id", JStr u);
   ("user_info", JDict info);
   ("timestamp", JStr now)].

(** The task [disconnect p u] creates in [w], if any. *)
Definition leave_task (p u : string) (w : world) : list task :=
  match PyDict.get u (dict_get_default p (user_sessions w)) with
  | Some s =>
      match s_user_info s with
      | [] => []
      | info => [mkTask p (user_left_message u info (utcnow E (clock w)))
                        (Some u)]
      end
  | None => []
  end.

(** The world [disconnect p u] leaves. *)
Definition disconnect_world (p u : string) (w : world) : world :=
  mkWorld (drop p u (active_connections w))
          (drop p u (user_sessions w))
          (tasks w ++ leave_task p u w)
          (trace w)
          (edit_history w)
          (length (leave_task p u w) + clock w)
          (rollbacks w).

(** Whom a broadcast writes to, what it writes, and whom it fails to
    reach. *)
Definition recipients (ex : option string) (members : dict websocket)
  : dict websocket :=
  filter (fun m => negb (excluded ex (fst m))) members.

Definition sends_of (message : dict json) (ex : option string)
    (members : dict websocket) : list event :=
  map (fun m => Sent (snd m) message (send_ok E (snd m)))
      (recipients ex members).

Definition failed_of (ex : option string) (members : dict websocket)
  : list string :=
  map fst (filter (fun m => negb (send_ok E (snd m)))
                  (recipients ex members)).

(** The world [broadcast_to_project p message ex] leaves. *)
Definition broadcast_world (p : string) (message : dict json)
    (ex : option string) (w : world) : world :=
  match PyDict.get p (active_connections w) with
  | None => w
  | Some members =>
      fold_left (fun w u => disconnect_world p u w)
                (failed_of ex members)
                (add_trace (sends_of message ex members) w)
  end.

Definition user_joined_message (u : string) (info : dict json)
    (now : string) : dict json :=
  [("type", JStr "user_joined");
   ("user_id", JStr u);
   ("user_info", JDict info);
   ("timestamp", JStr now)].

Definition active_users_message (users : list json) (now : string)
  : dict json :=
  [("type", JStr "active_users");
   ("users", JList users);
   ("timestamp", JStr now)].

Definition tick (w : world) : world :=
  mkWorld (active_connections w) (user_sessions w) (tasks w) (trace w)
          (edit_history w) (S (clock w)) (rollbacks w).

(** The world after the registration half of [connect]. *)
Definition register_world (ws : websocket) (p u : string)
    (info : dict json) (w : world) : world :=
  mkWorld (add p u ws (active_connections w))
          (add p u (mkSession info (utcnow E (clock w))
                                   (utcnow E (S (clock w))))
               (user_sessions w))
          (tasks w)
          (trace w ++ [Accepted ws])
          (edit_history w)
          (S (S (clock w)))
          (rollbacks w).

(** The world after the join announcement of [connect]. *)
Definition announced_world (ws : websocket) (p u : string)
    (info : dict json) (w : world) : world :=
  let w1 := register_world ws p u info w in
  broadcast_world p (user_joined_message u info (utcnow E (clock w1)))
                  (Some u) (tick w1).

(** The [active_users] envelope [connect] writes to the new member. *)
Definition snapshot_message (ws : websocket) (p u : string)
    (info : dict json) (w : world) : dict json :=
  let w2 := announced_world ws p u info w in
  active_users_message
    (active_users_of u (dict_get_default p (user_sessions w2)))
    (utcnow E (clock w2)).

(** The world [connect ws p u info] leaves. *)
Definition connect_world (ws : websocket) (p u : string)
    (info : dict json) (w : world) : world :=
  let w2 := announced_world ws p u info w in
  add_trace [Sent ws (snapshot_message ws p u info w) (send_ok E ws)]
            (tick w2).

(** The world the "update user activity" block leaves. *)
Definition touch_world (p u : string) (w : world) : world :=
  match PyDict.get p (user_sessions w) with
  | Some sessions =>
      match PyDict.get u sessions with
      | Some s =>
          mkWorld (active_connections w)
                  (PyDict.set p
                     (PyDict.set u
                        (mkSession (s_user_info s) (s_connected_at s)
                                   (utcnow E (clock w)))
                        sessions)
                     (user_sessions w))
                  (tasks w) (trace w) (edit_history w) (S (clock w))
                  (rollbacks w)
      | None => w
      end
  | None => w
  end.

(** The world a successful [db.commit()] of [row] leaves. *)
Definition committed_world (row : EditHistory) (w : world) : world :=
  mkWorld (active_connections w) (user_sessions w) (tasks w)
          (trace w ++ [Committed row]) (edit_history w ++ [row]) (clock w)
          (rollbacks w).

(** The world a refused [db.commit()] followed by [db.rollback()]
    leaves, before the rollback reports. *)
Definition refused_world (w : world) : world :=
  mkWorld (active_connections w) (user_sessions w) (tasks w)
          (trace w) (edit_history w) (clock w) (S (S (rollbacks w))).

(** The fan-out of a member-originated envelope, as the [edit] and
    [cursor] branches issue it from the world [w]. *)
Definition fan_out (p u : string) (info : dict json) (message : dict json)
    (w : world) : world :=
  broadcast_world p (stamped message u info (utcnow E (clock w))) (Some u)
                  (tick w).

End Effects.

(** The events a coroutine added to the log, going from [w] to [w']. *)
Definition new_events (w w' : world) : list event :=
  skipn (length (trace w)) (trace w').

(** The envelopes written to socket [ws] among [evs], delivered or not. *)
Definition sends_to (ws : websocket) (evs : list event) : list (dict json) :=
  flat_map (fun e => match e with
                     | Sent ws' message _ =>
                         if Nat.eqb ws ws' then [message] else []
                     | _ => []
                     end) evs.

(** The close events of a log. *)
Definition closes (evs : list event) : list (Z * string) :=
  flat_map (fun e => match e with
                     | Closed _ code reason => [(code, reason)]
                     | _ => []
                     end) evs.

(** The [nullable=False] columns of [EditHistory] that the handler fills
    from the envelope. *)
Definition not_null_ok (row : EditHistory) : bool :=
  match action row, object_type row with
  | JNull, _ | _, JNull => false
  | _, _ => true
  end.

(** The [user_id] fields of a list of member descriptions. *)
Definition user_ids (users : list json) : list json :=
  map (fun j => match j with
                | JDict d => get_or "user_id" JNull d
                | _ => JNull
                end) users.

(** The member ids an [active_users] envelope lists. *)
Definition listed_ids (message : dict json) : list json :=
  match PyDict.get "users" message with
  | Some (JList users) => user_ids users
  | _ => []
  end.

(** A coroutine that never stays suspended. *)
Definition completes {A} (m : M A) : Prop :=
  forall w, fst (m w) <> Suspended.

(** ** Runs of the manager *)

Inductive op : Type :=
| OpConnect (ws : websocket) (p u : string) (info : dict json)
| OpDisconnect (p u : string)
| OpBroadcast (p : string) (message : dict json) (ex : option string)
| OpRunTask
| OpEndpoint (ws : websocket) (p token : string) (script : list inbound).

Definition step (E : Env) (o : op) (w : world) : world :=
  match o with
  | OpConnect ws p u info => snd (connect E ws p u info w)
  | OpDisconnect p u => snd (disconnect E p u w)
  | OpBroadcast p message ex => snd (broadcast_to_project E p message ex w)
  | OpRunTask => snd (run_next_task E w)
  | OpEndpoint ws p token script => snd (project_websocket E ws p token script w)
  end.

(** Each step comes with the environment it runs in. *)
Fixpoint run (steps : list (Env * op)) (w : world) : world :=
  match steps with
  | [] => w
  | (E, o) :: rest => run rest (step E o w)
  end.

(** ** A concrete deployment, for the examples *)

Module Scenario.

(** Frames a client may send, with what [json.loads] makes of them:
    an edit that also tries to forge the stamped fields, an edit with
    only its [type], a cursor move, a ping, and a JSON array. *)
Definition forged_edit : dict json :=
  [("type", JStr "edit");
   ("action", JStr "update");
   ("object_type", JStr "layer");
   ("user_id", JStr "mallory");
   ("timestamp", JStr "1999-01-01T00:00:00")].

Definition bare_edit : dict json := [("type", JStr "edit")].

Definition cursor_move : dict json :=
  [("type", JStr "cursor"); ("x", JNum 10); ("y", JNum 20)].

Definition loads (data : string) : option json :=
  if String.eqb data "forged-edit" then Some (JDict forged_edit)
  else if String.eqb data "bare-edit" then Some (JDict bare_edit)
  else if String.eqb data "cursor" then Some (JDict cursor_move)
  else if String.eqb data "ping" then Some (JDict [("type", JStr "ping")])
  else if String.eqb data "[1]" then Some (JList [JNum 1])
  else None.

(** Tokens: ["token-" ++ id] is an access token of user [id]. *)
Definition decode (token : string) : option (dict json) :=
  if String.prefix "token-" token
  then Some [("sub", JStr (String.substring 6 (String.length token - 6)
                                            token));
             ("type", JStr "access")]
  else None.

(** Every id is a user; ["ghost"] is deactivated. *)
Definition user (uid : string) : User :=
  mkUser uid uid JNull (uid ++ "@example.org")
         (negb (String.eqb uid "ghost")).

Definition clock_reading (n : nat) : string :=
  "T" ++ String (Ascii.ascii_of_nat (48 + n)) "".

(** Sockets in [broken] fail every send; the database accepts commits
    iff [db_up]; rollbacks succeed. Project ["p1"] is public, project
    ["p2"] is private and owned by ["u1"]; there is no other. *)
Definition env (broken : list websocket) (db_up : bool) : Env :=
  mkEnv (fun ws => negb (existsb (Nat.eqb ws) broken))
        clock_reading
        loads
        (fun _ => JSONDecodeError)
        decode
        (fun s => Some s)
        (fun uid => Some (user uid))
        (fun p => if String.eqb p "p1" then Some (mkProject "u1" true)
                  else if String.eqb p "p2" then Some (mkProject "u1" false)
                  else None)
        (fun _ => db_up)
        true.

Definition info (uid : string) : dict json := user_info_of (user uid).

(** [u1], [u2] and then [u3] join ["p1"] on sockets 1, 2, 3, all sends
    succeeding. *)
Definition two_joined : world :=
  run [(env [] true, OpConnect 1 "p1" "u1" (info "u1"));
       (env [] true, OpConnect 2 "p1" "u2" (info "u2"))]
      init_world.

Definition three_joined : world :=
  run [(env [] true, OpConnect 3 "p1" "u3" (info "u3"))] two_joined.

(** The same registries, with the log, the tasks and the table cleared. *)
Definition two_members : world :=
  mkWorld (active_connections two_joined) (user_sessions two_joined)
          [] [] [] (clock two_joined) 0.

Definition three_members : world :=
  mkWorld (active_connections three_joined) (user_sessions three_joined)
          [] [] [] (clock three_joined) 0.

End Scenario.

(* ===================================================================== *)
(** * Further code: the members query, token issuing, the event loop *)
(* ===================================================================== *)

(** [GET /projects/{project_id}/users] *)
Definition get_project_active_users (E : Env) (project_id : string)
  : M (dict json) :=
  users <- gets (get_project_users project_id) ;;
  now <- utcnow_isoformat E ;;
  ret [("project_id", JStr project_id);
       ("active_users", JList users);
       ("total", JNum (Z.of_nat (length users)));
       ("timestamp", JStr now)].

(** [app.core.security.create_access_token] and [create_refresh_token].
    Instants and durations are counted in microseconds ([timedelta]'s
    resolution); [jwt_encode] is [jose.jwt.encode] under the configured
    key and algorithm, and the two lifetimes are the settings
    [ACCESS_TOKEN_EXPIRE_MINUTES] and [REFRESH_TOKEN_EXPIRE_MINUTES]. *)
Section Tokens.
Variable jwt_encode : dict json -> string.
Variable ACCESS_TOKEN_EXPIRE_MINUTES : Z.
Variable REFRESH_TOKEN_EXPIRE_MINUTES : Z.

(** [timedelta(minutes=m)] *)
Definition minutes (m : Z) : Z := (m * 60 * 1000000)%Z.




End Tokens.

(** The event loop runs [n] pending tasks, oldest first. *)
Fixpoint run_tasks (E : Env) (n : nat) (w : world) : world :=
  match n with
  | O => w
  | S n' => run_tasks E n' (snd (run_next_task E w))
  end.

(** Number of entries of a table, over all projects. *)
Definition total {V} (reg : dict (dict V)) : nat :=
  list_sum (map (fun pm => length (snd pm)) reg).

(** Number of sessions over all projects. *)
Definition total_sessions (w : world) : nat :=
  list_sum (map (fun pm => length (snd pm)) (user_sessions w)).

(** Pending tasks plus registered sessions. *)
Definition backlog (w : world) : nat :=
  length (tasks w) + total_sessions w.

(** A decoded frame that is a JSON object. *)
Definition is_object (j : json) : bool :=
  match j with JDict _ => true | _ => false end.

(** The envelopes of the receive loop that go to the sender alone. *)
Definition error_message (now : string) : dict json :=
  [("type", JStr "error");
   ("message", JStr "Invalid JSON format");
   ("timestamp", JStr now)].

Definition pong_message (now : string) : dict json :=
  [("type", JStr "pong"); ("timestamp", JStr now)].

(** ** Relations between the world before and after a coroutine *)

(** Every coroutine step relates the world it starts in to the one it
    leaves. *)
Definition respects {A} (R : world -> world -> Prop) (m : M A) : Prop :=
  forall w, R w (snd (m w)).

(** The entries of every project other than [p] are the same. *)
Definition same_elsewhere (p : string) (w w' : world) : Prop :=
  forall q, q <> p ->
    PyDict.get q (active_connections w') = PyDict.get q (active_connections w)
    /\ PyDict.get q (user_sessions w') = PyDict.get q (user_sessions w).

(** The log grew by events that all satisfy [P]. *)
Definition logged (P : event -> Prop) (w w' : world) : Prop :=
  exists evs, trace w' = trace w ++ evs /\ Forall P evs.

(** Events a joined session may cause: writes to sockets and database
    commits and rollbacks, never an accept or a close. *)
Definition session_event (e : event) : Prop :=
  match e with
  | Sent _ _ _ | Committed _ | RolledBack => True
  | Accepted _ | Closed _ _ _ => False
  end.

(** The row a frame puts in the table: the row of an [edit] envelope
    that the database accepts, and nothing otherwise. *)
Definition accepted_edit (E : Env) (p u : string) (i : inbound)
  : list EditHistory :=
  match i with
  | Frame data =>
      match json_loads E data with
      | Some (JDict message) =>
          if json_is_str "edit" (get_or "type" JNull message)
             && commit_ok E (edit_row p u message)
          then [edit_row p u message]
          else []
      | _ => []
      end
  | RecvRaises _ => []
  end.

(** ** More frames, and a database that enforces its constraints and may
    refuse rollbacks *)

Module Deployment.

(** An edit whose [action] is an explicit [null]. *)
Definition null_action_edit : dict json :=
  [("type", JStr "edit"); ("action", JNull); ("object_type", JStr "layer")].

(** [Scenario.loads], an object without a [type], and that edit. *)
Definition loads (data : string) : option json :=
  if String.eqb data "untyped" then Some (JDict [("x", JNum 1)])
  else if String.eqb data "null-action-edit"
       then Some (JDict null_action_edit)
  else Scenario.loads data.

(** On ["huge-integer"], an integer literal of more digits than the
    interpreter converts, [json.loads] raises [ValueError]; on any other
    text it cannot decode, [JSONDecodeError]. *)
Definition error (data : string) : exn :=
  if String.eqb data "huge-integer" then ValueError else JSONDecodeError.

(** As [Scenario.env], but the database refuses a row that breaks a NOT
    NULL constraint even when it is up, and rollbacks succeed iff
    [rollback_up]. *)
Definition env (broken : list websocket) (db_up rollback_up : bool) : Env :=
  mkEnv (send_ok (Scenario.env broken db_up))
        Scenario.clock_reading
        loads
        error
        Scenario.decode
        (fun s => Some s)
        (fun uid => Some (Scenario.user uid))
        (find_project (Scenario.env broken db_up))
        (fun row => db_up && not_null_ok row)
        rollback_up.

End Deployment.

(** ** A toy token codec, for the examples: the token is the kind and the
    subject, separated by a colon; lifetimes are the settings' defaults. *)

Module Codec.


Definition access_minutes : Z := 60 * 24 * 8.
Definition refresh_minutes : Z := 60 * 24 * 30.

(** Decoding at instant 0 of tokens issued at instant 0 with the default
    lifetimes; [exp] comes back as a number of seconds. *)
Definition decode (token : string) : option (dict json) :=
  if String.prefix "access:" token then
    Some [("exp", JNum (minutes access_minutes / 1000000));
          ("sub", JStr (String.substring 7 (String.length token - 7) token));
          ("type", JStr "access")]
  else if String.prefix "refresh:" token then
    Some [("exp", JNum (minutes refresh_minutes / 1000000));
          ("sub", JStr (String.substring 8 (String.length token - 8) token));
          ("type", JStr "refresh")]
  else None.

Definition env : Env :=
  mkEnv (fun _ => true) Scenario.clock_reading Scenario.loads
        (fun _ => JSONDecodeError) decode
        (fun s => Some s) (fun uid => Some (Scenario.user uid))
        (find_project (Scenario.env [] true)) (fun _ => true) true.

End Codec.

(** [u1] and [u2] in the public project ["p1"] (sockets 1 and 2), [u1]
    also in its private project ["p2"] (socket 5). *)
Definition two_projects : world :=
  run [(Scenario.env [] true, OpConnect 5 "p2" "u1" (Scenario.info "u1"))]
      Scenario.two_joined.

(* ===================================================================== *)
(** * Facts about dictionaries *)
(* ===================================================================== *)

Module PyDictFacts.
Import PyDict.

Section Facts.
Context {V : Type}.
Implicit Types (d : t V) (k : string) (v : V).

Lemma contains_get k d :
  contains k d = true <-> exists v, get k d = Some v.
Proof.
  unfold contains. destruct (get k d) as [v|].
  - split; [intros _; now exists v | reflexivity].
  - split; [discriminate | intros [v H]; discriminate].
Qed.

Lemma get_in_keys k d v : get k d = Some v -> In k (keys d).
Proof.
  induction d as [|[k' v'] r IH]; simpl; [discriminate|].
  destruct (String.eqb_spec k k') as [->|Hne]; intros H.
  - now left.
  - right. now apply IH.
Qed.

Lemma get_none_not_in k d : get k d = None <-> ~ In k (keys d).
Proof.
  induction d as [|[k' v'] r IH]; simpl.
  - split; [intros _ [] | reflexivity].
  - destruct (String.eqb_spec k k') as [->|Hne].
    + split; [discriminate | intros H; exfalso; apply H; now left].
    + rewrite IH. split.
      * intros H [Heq|Hin]; [congruence | now apply H].
      * intros H Hin. apply H. now right.
Qed.

Lemma contains_in_keys k d : contains k d = true <-> In k (keys d).
Proof.
  unfold contains. destruct (get k d) as [v|] eqn:G.
  - split; [intros _; eapply get_in_keys; eauto | reflexivity].
  - split; [discriminate|]. intros H. apply get_none_not_in in G. tauto.
Qed.

Lemma get_set_eq k v d : get k (set k v d) = Some v.
Proof.
  induction d as [|[k' v'] r IH]; simpl.
  - now rewrite String.eqb_refl.
  - destruct (String.eqb_spec k k') as [->|Hne]; simpl.
    + now rewrite String.eqb_refl.
    + destruct (String.eqb_spec k k'); [contradiction | exact IH].
Qed.

Lemma get_set_neq k k' v d :
  k <> k' -> get k' (set k v d) = get k' d.
Proof.
  intros Hne. induction d as [|[k0 v0] r IH]; simpl.
  - destruct (String.eqb_spec k' k); [congruence | reflexivity].
  - destruct (String.eqb_spec k k0) as [->|Hk]; simpl.
    + destruct (String.eqb_spec k' k0); [congruence | reflexivity].
    + destruct (String.eqb_spec k' k0); [reflexivity | exact IH].
Qed.

Lemma keys_set k v d :
  keys (set k v d) = if contains k d then keys d else keys d ++ [k].
Proof.
  unfold contains.
  induction d as [|[k' v'] r IH]; simpl; [reflexivity|].
  destruct (String.eqb_spec k k') as [->|Hne]; simpl; [reflexivity|].
  rewrite IH. now destruct (get k r).
Qed.

Lemma keys_pop_incl k d x : In x (keys (pop k d)) -> In x (keys d).
Proof.
  induction d as [|[k' v'] r IH]; simpl; [tauto|].
  destruct (String.eqb k k'); simpl; intuition.
Qed.

Lemma NoDup_keys_pop k d : NoDup (keys d) -> NoDup (keys (pop k d)).
Proof.
  induction d as [|[k' v'] r IH]; simpl; intros H; [constructor|].
  inversion H as [|? ? Hnin Hnd]; subst.
  destruct (String.eqb k k'); simpl; [assumption|].
  constructor; [|now apply IH].
  intros Hin. apply Hnin. eapply keys_pop_incl; eauto.
Qed.

Lemma NoDup_keys_set k v d : NoDup (keys d) -> NoDup (keys (set k v d)).
Proof.
  intros H. rewrite keys_set.
  destruct (contains k d) eqn:C; [assumption|].
  apply NoDup_app; [assumption | repeat constructor; intros [] |].
  intros x Hx [<-|[]].
  apply contains_in_keys in Hx. congruence.
Qed.

Lemma get_pop_eq k d : NoDup (keys d) -> get k (pop k d) = None.
Proof.
  induction d as [|[k' v'] r IH]; simpl; intros H; [reflexivity|].
  inversion H as [|? ? Hnin Hnd]; subst.
  destruct (String.eqb_spec k k') as [->|Hne]; simpl.
  - now apply get_none_not_in.
  - destruct (String.eqb_spec k k'); [contradiction | now apply IH].
Qed.

Lemma get_pop_neq k k' d : k <> k' -> get k' (pop k d) = get k' d.
Proof.
  intros Hne. induction d as [|[k0 v0] r IH]; simpl; [reflexivity|].
  destruct (String.eqb_spec k k0) as [->|Hk]; simpl.
  - destruct (String.eqb_spec k' k0); [congruence | reflexivity].
  - destruct (String.eqb_spec k' k0); [reflexivity | exact IH].
Qed.

Lemma pop_set k v d : pop k (set k v d) = pop k d.
Proof.
  induction d as [|[k' v'] r IH]; simpl.
  - now rewrite String.eqb_refl.
  - destruct (String.eqb_spec k k') as [->|Hne]; simpl.
    + now rewrite String.eqb_refl.
    + destruct (String.eqb_spec k k'); [contradiction | now rewrite IH].
Qed.

Lemma set_set k v v' d : set k v (set k v' d) = set k v d.
Proof.
  induction d as [|[k' v0] r IH]; simpl.
  - now rewrite String.eqb_refl.
  - destruct (String.eqb_spec k k') as [->|Hne]; simpl.
    + now rewrite String.eqb_refl.
    + destruct (String.eqb_spec k k'); [contradiction | now rewrite IH].
Qed.

Lemma pop_absent k d : get k d = None -> pop k d = d.
Proof.
  induction d as [|[k' v'] r IH]; simpl; [reflexivity|].
  destruct (String.eqb k k'); [discriminate|].
  intros H. now rewrite IH.
Qed.

Lemma contains_set k v d : contains k (set k v d) = true.
Proof. unfold contains. now rewrite get_set_eq. Qed.

Lemma count_le_1 k d : NoDup (keys d) -> count k d <= 1.
Proof.
  unfold count.
  induction d as [|[k' v'] r IH]; simpl; intros H; [lia|].
  inversion H as [|? ? Hnin Hnd]; subst.
  destruct (String.eqb_spec k k') as [->|Hne]; simpl; [|now apply IH].
  assert (filter (fun kv => String.eqb k' (fst kv)) r = []) as ->; [|simpl; lia].
  destruct (filter _ r) as [|[k0 v0] l] eqn:F; [reflexivity|].
  exfalso. apply Hnin.
  assert (In (k0, v0) (filter (fun kv => String.eqb k' (fst kv)) r)) as Hin
    by (rewrite F; now left).
  apply filter_In in Hin as [Hin Hk]. simpl in Hk.
  apply String.eqb_eq in Hk. subst.
  change k0 with (fst (k0, v0)). now apply in_map.
Qed.

Lemma in_get k v d : NoDup (keys d) -> In (k, v) d -> get k d = Some v.
Proof.
  induction d as [|[k' v'] r IH]; simpl; intros H Hin; [contradiction|].
  inversion H as [|? ? Hnin Hnd]; subst.
  destruct Hin as [Heq|Hin].
  - inversion Heq; subst. now rewrite String.eqb_refl.
  - destruct (String.eqb_spec k k') as [->|Hne]; [|now apply IH].
    exfalso. apply Hnin. change k' with (fst (k', v)). now apply in_map.
Qed.

Lemma get_in k v d : get k d = Some v -> In (k, v) d.
Proof.
  induction d as [|[k' v'] r IH]; simpl; [discriminate|].
  destruct (String.eqb_spec k k') as [->|Hne]; intros H.
  - left. congruence.
  - right. now apply IH.
Qed.

End Facts.
End PyDictFacts.

(* ===================================================================== *)
(** * The manager's operations computed *)
(* ===================================================================== *)

Ltac coro_unfold :=
  unfold bind, gets, when, getitem, delitem, put_connections, put_sessions,
    create_task, put_tasks, emit, insert_row, ret, raise, suspend,
    try_except, try_except_only, try_finally, PyDict.contains in *.

Ltac coro_simpl :=
  repeat (progress (coro_unfold; simpl;
                    rewrite ?PyDictFacts.get_set_eq, ?PyDictFacts.pop_set;
                    simpl)).

Section ManagerFacts.
Variable E : Env.
Import PyDictFacts.
Local Arguments broadcast_to_project : simpl never.
Local Arguments send_personal_message : simpl never.

Lemma disconnect_eq p u w :
  disconnect E p u w = (Ret tt, disconnect_world E p u w).
Proof.
  unfold disconnect, disconnect_world, leave_task, drop, dict_get_default.
  destruct w as [ac us ts tr eh ck rb]; simpl.
  unfold utcnow_isoformat. coro_simpl.
  destruct (PyDict.get p ac) as [m|] eqn:Gac; simpl;
    [destruct (PyDict.is_empty (PyDict.pop u m)) eqn:Em; coro_simpl|];
    (destruct (PyDict.get p us) as [ss|] eqn:Gus; simpl;
     [|rewrite app_nil_r; reflexivity]);
    (destruct (PyDict.is_empty (PyDict.pop u ss)) eqn:Es; coro_simpl);
    (destruct (PyDict.get u ss) as [s|] eqn:Gs; simpl;
     [destruct (s_user_info s) as [|i0 il] eqn:Hi; simpl|];
     rewrite ?app_nil_r; reflexivity).
Qed.

Lemma add_trace_nil w : add_trace [] w = w.
Proof. destruct w; unfold add_trace; simpl. now rewrite app_nil_r. Qed.

Lemma add_trace_app evs evs' w :
  add_trace evs' (add_trace evs w) = add_trace (evs ++ evs') w.
Proof. unfold add_trace; simpl. now rewrite app_assoc. Qed.

Lemma send_loop_eq message ex items :
  forall acc w,
    send_loop E items message ex acc w
    = (Ret (acc ++ failed_of E ex items),
       add_trace (sends_of E message ex items) w).
Proof.
  unfold failed_of, sends_of, recipients.
  induction items as [|[u ws] rest IH]; intros acc w; simpl.
  - now rewrite app_nil_r, add_trace_nil.
  - destruct (excluded ex u); simpl; [apply IH|].
    unfold bind at 1, try_except, send_text.
    destruct (send_ok E ws) eqn:S; coro_simpl.
    + fold (add_trace [Sent ws message true] w).
      rewrite IH, add_trace_app. reflexivity.
    + fold (add_trace [Sent ws message false] w).
      rewrite IH, add_trace_app, <- app_assoc. reflexivity.
Qed.

Lemma cleanup_loop_eq p failed :
  forall w,
    cleanup_loop E p failed w
    = (Ret tt, fold_left (fun w u => disconnect_world E p u w) failed w).
Proof.
  induction failed as [|u rest IH]; intros w; simpl; [reflexivity|].
  unfold bind. rewrite disconnect_eq. apply IH.
Qed.

Lemma broadcast_eq p message ex w :
  broadcast_to_project E p message ex w
  = (Ret PyNone, broadcast_world E p message ex w).
Proof.
  unfold broadcast_to_project, broadcast_world.
  unfold bind at 1, gets, PyDict.contains.
  destruct (PyDict.get p (active_connections w)) as [m|] eqn:G; simpl;
    [|reflexivity].
  unfold bind at 1, getitem. rewrite G. unfold ret at 1.
  unfold bind at 1. rewrite send_loop_eq. simpl.
  unfold bind at 1. rewrite cleanup_loop_eq. reflexivity.
Qed.

Lemma send_personal_message_eq ws message w :
  send_personal_message E ws message w
  = (Ret tt, add_trace [Sent ws message (send_ok E ws)] w).
Proof.
  unfold send_personal_message, send_text, try_except.
  destruct (send_ok E ws); coro_simpl; reflexivity.
Qed.

Lemma connect_eq ws p u info w :
  connect E ws p u info w = (Ret tt, connect_world E ws p u info w).
Proof.
  unfold connect, connect_world, snapshot_message, announced_world,
    register_world, add, dict_get_default, tick.
  destruct w as [ac us ts tr eh ck rb].
  unfold utcnow_isoformat.
  destruct (PyDict.get p ac) as [m|] eqn:Gac;
    destruct (PyDict.get p us) as [ss|] eqn:Gus;
    repeat (progress (coro_simpl;
                      rewrite ?Gac, ?Gus, ?set_set, ?broadcast_eq,
                        ?send_personal_message_eq));
    reflexivity.
Qed.

End ManagerFacts.

(* ===================================================================== *)
(** * The registry invariant *)
(* ===================================================================== *)

Section MapValues.
Context {V W : Type} (f : V -> W).
Import PyDict.

Lemma get_map_values k (d : dict V) :
  get k (map_values f d) = option_map f (get k d).
Proof.
  induction d as [|[k' v'] r IH]; simpl; [reflexivity|].
  now destruct (String.eqb k k').
Qed.

Lemma pop_map_values k (d : dict V) :
  pop k (map_values f d) = map_values f (pop k d).
Proof.
  induction d as [|[k' v'] r IH]; simpl; [reflexivity|].
  destruct (String.eqb k k'); simpl; [reflexivity | now rewrite IH].
Qed.

Lemma set_map_values k v (d : dict V) :
  set k (f v) (map_values f d) = map_values f (set k v d).
Proof.
  induction d as [|[k' v'] r IH]; simpl; [reflexivity|].
  destruct (String.eqb k k'); simpl; [reflexivity | now rewrite IH].
Qed.

Lemma is_empty_map_values (d : dict V) :
  is_empty (map_values f d) = is_empty d.
Proof. now destruct d. Qed.

Lemma keys_map_values (d : dict V) : keys (map_values f d) = keys d.
Proof.
  unfold keys, map_values. rewrite map_map. now apply map_ext.
Qed.

Lemma map_values_set_same k v v0 (d : dict V) :
  get k d = Some v0 -> f v = f v0 ->
  map_values f (set k v d) = map_values f d.
Proof.
  intros G Hf. induction d as [|[k' v'] r IH]; simpl in *; [discriminate|].
  destruct (String.eqb_spec k k') as [->|Hne]; simpl.
  - inversion G; subst. now rewrite Hf.
  - now rewrite IH.
Qed.

End MapValues.

Section RegistryFacts.
Context {V : Type}.
Implicit Types (reg : dict (dict V)).
Import PyDictFacts.

Lemma Forall_pop {A} (P : string * A -> Prop) k (d : dict A) :
  Forall P d -> Forall P (PyDict.pop k d).
Proof.
  induction 1 as [|[k' v'] r Hx Hr IH]; simpl; [constructor|].
  destruct (String.eqb k k'); [assumption | now constructor].
Qed.

Lemma Forall_set {A} (P : string * A -> Prop) k v (d : dict A) :
  Forall P d -> P (k, v) -> Forall P (PyDict.set k v d).
Proof.
  intros H Hkv. induction H as [|[k' v'] r Hx Hr IH]; simpl.
  - now constructor.
  - destruct (String.eqb k k'); now constructor.
Qed.

Lemma registry_ok_members p reg (m : dict V) :
  registry_ok reg -> PyDict.get p reg = Some m ->
  m <> [] /\ NoDup (PyDict.keys m).
Proof.
  intros [_ HF] G. apply get_in in G.
  rewrite Forall_forall in HF. exact (HF _ G).
Qed.

Lemma registry_ok_drop p u reg :
  registry_ok reg -> registry_ok (drop p u reg).
Proof.
  intros Hok. unfold drop.
  destruct (PyDict.get p reg) as [m|] eqn:G; [|assumption].
  destruct (registry_ok_members _ _ _ Hok G) as [_ Hnd].
  destruct Hok as [Hk HF].
  destruct (PyDict.is_empty (PyDict.pop u m)) eqn:Em; split.
  - now apply NoDup_keys_pop.
  - now apply Forall_pop.
  - now apply NoDup_keys_set.
  - apply Forall_set; [assumption|]. split; simpl.
    + intros Heq. rewrite Heq in Em. discriminate.
    + now apply NoDup_keys_pop.
Qed.

Lemma registry_ok_add p u (v : V) reg :
  registry_ok reg -> registry_ok (add p u v reg).
Proof.
  intros Hok. unfold add, dict_get_default. split.
  - apply NoDup_keys_set, Hok.
  - apply Forall_set; [apply Hok|]. split; simpl.
    + destruct (PyDict.get p reg) as [[|[k0 v0] m]|]; simpl;
        try discriminate.
      destruct (String.eqb u k0); discriminate.
    + apply NoDup_keys_set.
      destruct (PyDict.get p reg) as [m|] eqn:G; [|constructor].
      now destruct (registry_ok_members _ _ _ Hok G).
Qed.

Lemma erase_drop p u reg : erase (drop p u reg) = drop p u (erase reg).
Proof.
  unfold erase, drop. rewrite get_map_values.
  destruct (PyDict.get p reg) as [m|]; simpl; [|reflexivity].
  rewrite pop_map_values, is_empty_map_values.
  destruct (PyDict.is_empty (PyDict.pop u m)).
  - now rewrite pop_map_values.
  - now rewrite set_map_values.
Qed.

Lemma erase_add p u (v : V) reg :
  erase (add p u v reg) = add p u tt (erase reg).
Proof.
  unfold erase, add, dict_get_default. rewrite get_map_values.
  rewrite <- set_map_values. f_equal.
  destruct (PyDict.get p reg) as [m|]; simpl; [|reflexivity].
  now rewrite <- set_map_values.
Qed.

Lemma members_ok_erase (pm : string * dict V) :
  members_ok (fst pm, PyDict.map_values (fun _ => tt) (snd pm))
  <-> members_ok pm.
Proof.
  unfold members_ok; simpl. rewrite keys_map_values.
  destruct (snd pm); simpl; split; intros [H1 H2]; split;
    (assumption || discriminate || congruence).
Qed.

Lemma registry_ok_erase reg : registry_ok (erase reg) <-> registry_ok reg.
Proof.
  unfold registry_ok, erase. rewrite keys_map_values.
  enough (Forall members_ok
            (PyDict.map_values (PyDict.map_values (fun _ : V => tt)) reg)
          <-> Forall members_ok reg) by tauto.
  induction reg as [|pm r IH]; simpl.
  - split; constructor.
  - split; intros H; inversion H; subst; constructor;
      try (now apply IH); now apply members_ok_erase.
Qed.

Lemma contains_member_count p reg :
  registry_ok reg ->
  (PyDict.contains p reg = true <-> 1 <= member_count p reg).
Proof.
  intros Hok. unfold member_count, dict_get_default, PyDict.contains.
  destruct (PyDict.get p reg) as [m|] eqn:G.
  - destruct (registry_ok_members _ _ _ Hok G) as [Hne _].
    destruct m; [congruence|]. simpl. split; [lia | reflexivity].
  - simpl. split; [discriminate | lia].
Qed.

Lemma entry_count_le_1 p u reg :
  registry_ok reg -> entry_count p u reg <= 1.
Proof.
  intros [Hk HF]. unfold entry_count.
  induction reg as [|[k m] r IH]; simpl; [lia|].
  inversion Hk as [|? ? Hnin Hnd]; subst.
  inversion HF as [|? ? [_ Hm] HFr]; subst. simpl in Hm.
  specialize (IH Hnd HFr).
  destruct (String.eqb_spec p k) as [->|Hne]; [|exact IH].
  assert (list_sum
            (map (fun pm : string * dict V =>
                    if String.eqb k (fst pm)
                    then PyDict.count u (snd pm) else 0) r) = 0) as ->.
  { clear IH HFr HF Hk Hnd. induction r as [|[k' m'] r IHr]; simpl;
      [reflexivity|].
    simpl in Hnin.
    destruct (String.eqb_spec k k') as [->|Hk']; [tauto|].
    apply IHr. tauto. }
  pose proof (count_le_1 u m Hm). lia.
Qed.

End RegistryFacts.

Section WorldInvariant.
Variable E : Env.
Import PyDictFacts.

Lemma world_ok_init : world_ok init_world.
Proof. repeat split; constructor. Qed.

Lemma world_ok_tables w w' :
  active_connections w' = active_connections w ->
  user_sessions w' = user_sessions w ->
  world_ok w -> world_ok w'.
Proof. unfold world_ok. intros -> ->. trivial. Qed.

Lemma world_ok_disconnect_world p u w :
  world_ok w -> world_ok (disconnect_world E p u w).
Proof.
  intros [Hok Her]. split; simpl.
  - now apply registry_ok_drop.
  - now rewrite !erase_drop, Her.
Qed.

Lemma world_ok_cleanup p failed :
  forall w, world_ok w ->
    world_ok (fold_left (fun w u => disconnect_world E p u w) failed w).
Proof.
  induction failed as [|u rest IH]; intros w Hw; simpl; [assumption|].
  apply IH. now apply world_ok_disconnect_world.
Qed.

Lemma world_ok_broadcast_world p message ex w :
  world_ok w -> world_ok (broadcast_world E p message ex w).
Proof.
  intros Hw. unfold broadcast_world.
  destruct (PyDict.get p (active_connections w)); [|assumption].
  apply world_ok_cleanup. eapply world_ok_tables; eauto; reflexivity.
Qed.

Lemma world_ok_register_world ws p u info w :
  world_ok w -> world_ok (register_world E ws p u info w).
Proof.
  intros [Hok Her]. split; simpl.
  - now apply registry_ok_add.
  - now rewrite !erase_add, Her.
Qed.

Lemma world_ok_connect_world ws p u info w :
  world_ok w -> world_ok (connect_world E ws p u info w).
Proof.
  intros Hw. unfold connect_world, announced_world.
  eapply world_ok_tables; [reflexivity | reflexivity |].
  apply world_ok_broadcast_world.
  eapply world_ok_tables; [reflexivity | reflexivity |].
  now apply world_ok_register_world.
Qed.

(** ** Coroutines that keep the invariant *)

Lemma preserves_ret {A} (a : A) : preserves (ret a).
Proof. intros w Hw. exact Hw. Qed.

Lemma preserves_raise {A} e : preserves (@raise A e).
Proof. intros w Hw. exact Hw. Qed.

Lemma preserves_suspend {A} : preserves (@suspend A).
Proof. intros w Hw. exact Hw. Qed.

Lemma preserves_gets {A} (f : world -> A) : preserves (gets f).
Proof. intros w Hw. exact Hw. Qed.

Lemma preserves_bind {A B} (m : M A) (k : A -> M B) :
  preserves m -> (forall a, preserves (k a)) -> preserves (bind m k).
Proof.
  intros Hm Hk w Hw. unfold bind. specialize (Hm w Hw).
  destruct (m w) as [[a|e|] w']; simpl in *; try assumption.
  now apply Hk.
Qed.

Lemma preserves_try_except {A} (m : M A) h :
  preserves m -> (forall e, preserves (h e)) -> preserves (try_except m h).
Proof.
  intros Hm Hh w Hw. unfold try_except. specialize (Hm w Hw).
  destruct (m w) as [[a|e|] w']; simpl in *; try assumption.
  now apply Hh.
Qed.

Lemma preserves_try_except_only {A} c (m h : M A) :
  preserves m -> preserves h -> preserves (try_except_only c m h).
Proof.
  intros Hm Hh w Hw. unfold try_except_only. specialize (Hm w Hw).
  destruct (m w) as [[a|e|] w']; simpl in *; try assumption.
  destruct (c e); simpl; [now apply Hh | assumption].
Qed.

Lemma preserves_try_finally {A} (m : M A) c :
  preserves m -> preserves c -> preserves (try_finally m c).
Proof.
  intros Hm Hc w Hw. unfold try_finally. specialize (Hm w Hw).
  destruct (m w) as [[a|e|] w']; simpl in *; try assumption;
    apply preserves_bind; auto using preserves_ret, preserves_raise.
Qed.

Lemma preserves_when b m : preserves m -> preserves (when b m).
Proof. destruct b; simpl; auto using preserves_ret. Qed.

Lemma preserves_emit e : preserves (emit e).
Proof. intros w Hw. exact Hw. Qed.

Lemma preserves_insert_row r : preserves (insert_row r).
Proof. intros w Hw. exact Hw. Qed.

Lemma preserves_put_tasks ts : preserves (put_tasks ts).
Proof. intros w Hw. exact Hw. Qed.

Lemma preserves_utcnow : preserves (utcnow_isoformat E).
Proof. intros w Hw. exact Hw. Qed.

Lemma preserves_getitem {V} k (d : dict V) : preserves (getitem k d).
Proof. unfold getitem. destruct (PyDict.get k d); intros w Hw; exact Hw. Qed.

Lemma preserves_disconnect p u : preserves (disconnect E p u).
Proof.
  intros w Hw. rewrite disconnect_eq. now apply world_ok_disconnect_world.
Qed.

Lemma preserves_broadcast p message ex :
  preserves (broadcast_to_project E p message ex).
Proof.
  intros w Hw. rewrite broadcast_eq. now apply world_ok_broadcast_world.
Qed.

Lemma preserves_connect ws p u info : preserves (connect E ws p u info).
Proof.
  intros w Hw. rewrite connect_eq. now apply world_ok_connect_world.
Qed.

Lemma preserves_send_personal_message ws message :
  preserves (send_personal_message E ws message).
Proof. intros w Hw. rewrite send_personal_message_eq. exact Hw. Qed.

Lemma preserves_run_next_task : preserves (run_next_task E).
Proof.
  unfold run_next_task. apply preserves_bind; [apply preserves_gets|].
  intros [|t rest]; [apply preserves_ret|].
  apply preserves_bind; [apply preserves_put_tasks|]. intros _.
  apply preserves_bind; [apply preserves_broadcast|]. intros _.
  apply preserves_ret.
Qed.

Lemma erase_touch p u (s' : session) us ss s :
  PyDict.get p us = Some ss -> PyDict.get u ss = Some s ->
  erase (PyDict.set p (PyDict.set u s' ss) us) = erase us.
Proof.
  intros Gp Gu. unfold erase.
  eapply map_values_set_same; [exact Gp|].
  eapply map_values_set_same; [exact Gu | reflexivity].
Qed.

Lemma preserves_touch p u : preserves (touch E p u).
Proof.
  intros w [Hok Her]. unfold touch, utcnow_isoformat. coro_simpl.
  destruct (PyDict.get p (user_sessions w)) as [ss|] eqn:Gp; simpl;
    [|now split].
  destruct (PyDict.get u ss) as [s|] eqn:Gu; simpl; [|now split].
  split; simpl; [assumption|].
  erewrite erase_touch; eauto.
Qed.

Lemma preserves_expire_all : preserves expire_all.
Proof. intros w Hw. exact Hw. Qed.

Lemma preserves_str_user_id loaded u : preserves (str_user_id loaded u).
Proof.
  unfold str_user_id. apply preserves_bind; [apply preserves_gets|].
  intros n. destruct (Nat.eqb n loaded);
    auto using preserves_ret, preserves_raise.
Qed.

Lemma preserves_handle_edit_message p u message :
  preserves (handle_edit_message E p u message).
Proof.
  unfold handle_edit_message, db_commit, db_rollback.
  apply preserves_try_except.
  - destruct (commit_ok E _); apply preserves_bind; intros;
      auto using preserves_insert_row, preserves_emit, preserves_raise,
                 preserves_expire_all.
  - intros _. apply preserves_bind; [apply preserves_expire_all|].
    intros _. destruct (rollback_ok E);
      auto using preserves_emit, preserves_raise.
Qed.

Lemma preserves_handle_frame ws p u info data :
  preserves (handle_frame E ws p u info data).
Proof.
  unfold handle_frame. apply preserves_bind; [apply preserves_gets|].
  intros loaded. apply preserves_try_except_only.
  - apply preserves_bind.
    { unfold json_loads_or_raise.
      destruct (json_loads E data); auto using preserves_ret, preserves_raise. }
    intros message. apply preserves_bind.
    { destruct message; auto using preserves_ret, preserves_raise. }
    intros fields. apply preserves_bind; [apply preserves_touch|].
    intros _.
    repeat match goal with
           | |- preserves (if ?b then _ else _) => destruct b
           | |- preserves (bind _ _) => apply preserves_bind; intros
           end;
      auto using preserves_handle_edit_message, preserves_utcnow,
                 preserves_broadcast, preserves_ret,
                 preserves_send_personal_message, preserves_str_user_id.
  - repeat match goal with
           | |- preserves (bind _ _) => apply preserves_bind; intros
           end;
      auto using preserves_utcnow, preserves_send_personal_message,
                 preserves_str_user_id.
Qed.

Lemma preserves_receive_loop ws p u info script :
  preserves (receive_loop E ws p u info script).
Proof.
  induction script as [|i rest IH]; simpl; [apply preserves_suspend|].
  apply preserves_bind.
  { destruct i; simpl; auto using preserves_ret, preserves_raise. }
  intros data. apply preserves_bind; [apply preserves_handle_frame|].
  intros _. exact IH.
Qed.

Lemma preserves_joined ws p u info script :
  preserves (joined E ws p u info script).
Proof.
  unfold joined. apply preserves_bind; [apply preserves_gets|].
  intros loaded. apply preserves_try_finally.
  - apply preserves_try_except_only; [apply preserves_receive_loop|].
    apply preserves_bind; intros;
      auto using preserves_str_user_id, preserves_ret.
  - apply preserves_bind; intros;
      auto using preserves_str_user_id, preserves_disconnect.
Qed.

Lemma preserves_get_websocket_user token :
  preserves (get_websocket_user E token).
Proof. intros w Hw.
  assert (H : snd (get_websocket_user E token w) = w); [|now rewrite H].
  unfold get_websocket_user, verify_token, uuid_UUID. coro_simpl.
  destruct (jwt_decode E token) as [payload|]; simpl; [|reflexivity].
  destruct (get_or "sub" JNull payload) as [| | |s| |]; simpl;
    try reflexivity;
    destruct (json_is_str "access" (get_or "type" JNull payload));
    simpl; try reflexivity.
  destruct (uuid_parse E s) as [uid|]; simpl; [|reflexivity].
  destruct (find_user E uid) as [user|]; simpl; [|reflexivity].
  destruct (is_active user); reflexivity.
Qed.

Lemma preserves_project_websocket ws p token script :
  preserves (project_websocket E ws p token script).
Proof.
  unfold project_websocket. apply preserves_try_except.
  - apply preserves_bind; [apply preserves_get_websocket_user|].
    intros user. destruct (find_project E p) as [project|];
      [|apply preserves_emit].
    destruct (_ && _); [apply preserves_emit|].
    apply preserves_bind; [apply preserves_connect|].
    intros _. apply preserves_joined.
  - intros _. apply preserves_try_except;
      auto using preserves_emit, preserves_ret.
Qed.

End WorldInvariant.

Lemma world_ok_step E o w : world_ok w -> world_ok (step E o w).
Proof.
  destruct o; simpl.
  - apply preserves_connect.
  - apply preserves_disconnect.
  - apply preserves_broadcast.
  - apply preserves_run_next_task.
  - apply preserves_project_websocket.
Qed.

Lemma world_ok_run steps : forall w, world_ok w -> world_ok (run steps w).
Proof.
  induction steps as [|[E o] rest IH]; intros w Hw; simpl; [assumption|].
  apply IH. now apply world_ok_step.
Qed.

(* ===================================================================== *)
(** * Membership after removals *)
(* ===================================================================== *)

Section Membership.
Import PyDictFacts.

Lemma filter_all {A} (f : A -> bool) (l : list A) :
  (forall x, In x l -> f x = true) -> filter f l = l.
Proof.
  induction l as [|a l IH]; simpl; intros H; [reflexivity|].
  rewrite (H a) by now left. f_equal. apply IH. intros x Hx. apply H.
  now right.
Qed.

Lemma filter_none {A} (f : A -> bool) (l : list A) :
  (forall x, In x l -> f x = false) -> filter f l = [].
Proof.
  induction l as [|a l IH]; simpl; intros H; [reflexivity|].
  rewrite (H a) by now left. apply IH. intros x Hx. apply H. now right.
Qed.

Lemma filter_filter {A} (f g : A -> bool) (l : list A) :
  filter f (filter g l) = filter (fun x => g x && f x) l.
Proof.
  induction l as [|a l IH]; simpl; [reflexivity|].
  destruct (g a); simpl; [destruct (f a)|]; now rewrite IH.
Qed.

Lemma keys_pop {V} k (d : dict V) :
  NoDup (PyDict.keys d) ->
  PyDict.keys (PyDict.pop k d)
  = filter (fun x => negb (String.eqb x k)) (PyDict.keys d).
Proof.
  induction d as [|[k' v'] r IH]; simpl; intros H; [reflexivity|].
  inversion H as [|? ? Hnin Hnd]; subst.
  rewrite (String.eqb_sym k' k).
  destruct (String.eqb_spec k k') as [->|Hne]; simpl.
  - symmetry. apply filter_all. intros x Hx.
    destruct (String.eqb_spec x k'); [subst; contradiction | reflexivity].
  - f_equal. now apply IH.
Qed.

Lemma keys_fold_pop {V} (l : list string) :
  forall d : dict V,
    NoDup (PyDict.keys d) ->
    PyDict.keys (fold_left (fun m u => PyDict.pop u m) l d)
    = filter (fun x => negb (existsb (String.eqb x) l)) (PyDict.keys d).
Proof.
  induction l as [|k l IH]; intros d Hd; simpl.
  - symmetry. now apply filter_all.
  - rewrite IH by now apply NoDup_keys_pop.
    rewrite keys_pop by assumption. rewrite filter_filter.
    apply filter_ext. intros x. now rewrite negb_orb.
Qed.

Lemma default_drop {V} p u (reg : dict (dict V)) :
  NoDup (PyDict.keys reg) ->
  dict_get_default p (drop p u reg)
  = PyDict.pop u (dict_get_default p reg).
Proof.
  intros Hk. unfold drop, dict_get_default.
  destruct (PyDict.get p reg) as [m|] eqn:G; [|now rewrite G].
  destruct (PyDict.pop u m) as [|x l] eqn:Hp; simpl.
  - now rewrite get_pop_eq.
  - now rewrite get_set_eq.
Qed.

Lemma default_drop_other {V} p q u (reg : dict (dict V)) :
  p <> q ->
  dict_get_default q (drop p u reg) = dict_get_default q reg.
Proof.
  intros Hne. unfold drop, dict_get_default.
  destruct (PyDict.get p reg) as [m|] eqn:G; [|reflexivity].
  destruct (PyDict.is_empty (PyDict.pop u m)).
  - now rewrite get_pop_neq.
  - now rewrite get_set_neq.
Qed.

Lemma registry_ok_fold_drop {V} p l :
  forall reg : dict (dict V),
    registry_ok reg ->
    registry_ok (fold_left (fun r u => drop p u r) l reg).
Proof.
  induction l as [|u l IH]; intros reg H; simpl; [assumption|].
  apply IH. now apply registry_ok_drop.
Qed.

Lemma default_fold_drop {V} p l :
  forall reg : dict (dict V),
    registry_ok reg ->
    dict_get_default p (fold_left (fun r u => drop p u r) l reg)
    = fold_left (fun m u => PyDict.pop u m) l (dict_get_default p reg).
Proof.
  induction l as [|u l IH]; intros reg H; simpl; [reflexivity|].
  rewrite IH by now apply registry_ok_drop.
  rewrite default_drop by apply H. reflexivity.
Qed.

Lemma default_add {V} p u (v : V) reg :
  dict_get_default p (add p u v reg)
  = PyDict.set u v (dict_get_default p reg).
Proof. unfold add, dict_get_default at 1. now rewrite get_set_eq. Qed.

Lemma default_ok {V} p (reg : dict (dict V)) :
  registry_ok reg -> NoDup (PyDict.keys (dict_get_default p reg)).
Proof.
  intros H. unfold dict_get_default.
  destruct (PyDict.get p reg) as [m|] eqn:G; [|constructor].
  now destruct (registry_ok_members _ _ _ H G).
Qed.

Lemma default_erase {V} p (reg : dict (dict V)) :
  dict_get_default p (erase reg)
  = PyDict.map_values (fun _ => tt) (dict_get_default p reg).
Proof.
  unfold erase, dict_get_default. rewrite get_map_values.
  now destruct (PyDict.get p reg).
Qed.

Lemma world_ok_sessions w : world_ok w -> registry_ok (user_sessions w).
Proof.
  intros [Hok Her]. apply registry_ok_erase. rewrite <- Her.
  now apply registry_ok_erase.
Qed.

Lemma world_ok_same_keys p w :
  world_ok w ->
  PyDict.keys (dict_get_default p (user_sessions w)) = members_of p w.
Proof.
  intros [_ Her]. unfold members_of.
  rewrite <- (keys_map_values (fun _ => tt) (dict_get_default p (user_sessions w))).
  rewrite <- (keys_map_values (fun _ => tt)
                (dict_get_default p (active_connections w))).
  now rewrite <- !default_erase, Her.
Qed.

Variable E : Env.

Lemma cleanup_connections p l :
  forall w,
    active_connections
      (fold_left (fun w u => disconnect_world E p u w) l w)
    = fold_left (fun r u => drop p u r) l (active_connections w).
Proof. induction l as [|u l IH]; intros w; simpl; [reflexivity|]. now rewrite IH. Qed.

Lemma cleanup_sessions p l :
  forall w,
    user_sessions (fold_left (fun w u => disconnect_world E p u w) l w)
    = fold_left (fun r u => drop p u r) l (user_sessions w).
Proof. induction l as [|u l IH]; intros w; simpl; [reflexivity|]. now rewrite IH. Qed.

(** Who is left in project [p] after a broadcast in it. *)
Lemma broadcast_world_members p message ex w :
  world_ok w ->
  members_of p (broadcast_world E p message ex w)
  = filter (fun x =>
              negb (existsb (String.eqb x)
                      (failed_of E ex
                         (dict_get_default p (active_connections w)))))
           (members_of p w).
Proof.
  intros Hw. unfold members_of, broadcast_world.
  destruct (PyDict.get p (active_connections w)) as [m|] eqn:G.
  - rewrite cleanup_connections. simpl.
    rewrite default_fold_drop by apply Hw.
    rewrite keys_fold_pop by (apply default_ok, Hw).
    unfold dict_get_default. now rewrite G.
  - unfold dict_get_default. now rewrite G.
Qed.

Lemma broadcast_world_sessions p message ex w :
  world_ok w ->
  dict_get_default p (user_sessions (broadcast_world E p message ex w))
  = fold_left (fun m u => PyDict.pop u m)
      (failed_of E ex (dict_get_default p (active_connections w)))
      (dict_get_default p (user_sessions w)).
Proof.
  intros Hw. unfold broadcast_world.
  destruct (PyDict.get p (active_connections w)) as [m|] eqn:G.
  - rewrite cleanup_sessions. simpl.
    rewrite default_fold_drop by now apply world_ok_sessions.
    unfold dict_get_default at 2. now rewrite G.
  - unfold dict_get_default at 2. now rewrite G.
Qed.

End Membership.

(* ===================================================================== *)
(** * The receive loop computed *)
(* ===================================================================== *)

Section FrameFacts.
Variable E : Env.
Import PyDictFacts.
Local Arguments broadcast_to_project : simpl never.
Local Arguments send_personal_message : simpl never.

Lemma touch_eq p u w : touch E p u w = (Ret tt, touch_world E p u w).
Proof.
  unfold touch, touch_world, utcnow_isoformat. coro_simpl.
  destruct (PyDict.get p (user_sessions w)) as [ss|]; simpl;
    [|reflexivity].
  destruct (PyDict.get u ss) as [s|]; reflexivity.
Qed.

Lemma touch_world_connections p u w :
  active_connections (touch_world E p u w) = active_connections w.
Proof.
  unfold touch_world. destruct (PyDict.get p _) as [ss|]; [|reflexivity].
  destruct (PyDict.get u ss); reflexivity.
Qed.

Lemma touch_world_trace p u w : trace (touch_world E p u w) = trace w.
Proof.
  unfold touch_world. destruct (PyDict.get p _) as [ss|]; [|reflexivity].
  destruct (PyDict.get u ss); reflexivity.
Qed.

Lemma touch_world_edit_history p u w :
  edit_history (touch_world E p u w) = edit_history w.
Proof.
  unfold touch_world. destruct (PyDict.get p _) as [ss|]; [|reflexivity].
  destruct (PyDict.get u ss); reflexivity.
Qed.

Lemma touch_world_clock p u w :
  clock w <= clock (touch_world E p u w) <= S (clock w).
Proof.
  unfold touch_world. destruct (PyDict.get p _) as [ss|]; [|simpl; lia].
  destruct (PyDict.get u ss); simpl; lia.
Qed.

Lemma cleanup_trace p failed :
  forall w,
    trace (fold_left (fun w u => disconnect_world E p u w) failed w)
    = trace w.
Proof.
  induction failed as [|u rest IH]; intros w; simpl; [reflexivity|].
  now rewrite IH.
Qed.

Lemma cleanup_edit_history p failed :
  forall w,
    edit_history (fold_left (fun w u => disconnect_world E p u w) failed w)
    = edit_history w.
Proof.
  induction failed as [|u rest IH]; intros w; simpl; [reflexivity|].
  now rewrite IH.
Qed.

Lemma cleanup_clock p failed :
  forall w,
    clock w
    <= clock (fold_left (fun w u => disconnect_world E p u w) failed w).
Proof.
  induction failed as [|u rest IH]; intros w; simpl; [lia|].
  etransitivity; [|apply IH]. simpl. lia.
Qed.

Lemma broadcast_world_trace p message ex w :
  trace (broadcast_world E p message ex w)
  = trace w
    ++ sends_of E message ex (dict_get_default p (active_connections w)).
Proof.
  unfold broadcast_world, dict_get_default.
  destruct (PyDict.get p (active_connections w)) as [m|].
  - now rewrite cleanup_trace.
  - unfold sends_of; simpl. now rewrite app_nil_r.
Qed.

Lemma broadcast_world_edit_history p message ex w :
  edit_history (broadcast_world E p message ex w) = edit_history w.
Proof.
  unfold broadcast_world.
  destruct (PyDict.get p (active_connections w)) as [m|]; [|reflexivity].
  now rewrite cleanup_edit_history.
Qed.

Lemma broadcast_world_clock p message ex w :
  clock w <= clock (broadcast_world E p message ex w).
Proof.
  unfold broadcast_world.
  destruct (PyDict.get p (active_connections w)) as [m|]; [|lia].
  etransitivity; [|apply cleanup_clock]. simpl. lia.
Qed.

Lemma touch_world_rollbacks p u w :
  rollbacks (touch_world E p u w) = rollbacks w.
Proof.
  unfold touch_world. destruct (PyDict.get p _) as [ss|]; [|reflexivity].
  destruct (PyDict.get u ss); reflexivity.
Qed.

Lemma cleanup_rollbacks p failed :
  forall w,
    rollbacks (fold_left (fun w u => disconnect_world E p u w) failed w)
    = rollbacks w.
Proof.
  induction failed as [|u rest IH]; intros w; simpl; [reflexivity|].
  now rewrite IH.
Qed.

Lemma broadcast_world_rollbacks p message ex w :
  rollbacks (broadcast_world E p message ex w) = rollbacks w.
Proof.
  unfold broadcast_world.
  destruct (PyDict.get p (active_connections w)) as [m|]; [|reflexivity].
  now rewrite cleanup_rollbacks.
Qed.

(** [str(user.id)] on a live and on an expired instance. *)
Lemma str_user_id_live loaded u w :
  rollbacks w = loaded -> str_user_id loaded u w = (Ret u, w).
Proof.
  intros H. unfold str_user_id, bind, gets.
  now rewrite H, Nat.eqb_refl.
Qed.

Lemma str_user_id_expired loaded u w :
  rollbacks w <> loaded ->
  str_user_id loaded u w = (Raise MissingGreenlet, w).
Proof.
  intros H. unfold str_user_id, bind, gets.
  apply Nat.eqb_neq in H. now rewrite H.
Qed.

Lemma handle_edit_message_eq p u message w :
  handle_edit_message E p u message w
  = if commit_ok E (edit_row p u message)
    then (Ret tt, committed_world (edit_row p u message) w)
    else if rollback_ok E
         then (Ret tt, add_trace [RolledBack] (refused_world w))
         else (Raise DatabaseError, refused_world w).
Proof.
  unfold handle_edit_message, db_commit, db_rollback, try_except.
  destruct (commit_ok E _); [reflexivity|]. simpl.
  unfold bind, expire_all. simpl.
  destruct (rollback_ok E); reflexivity.
Qed.

(** The turn up to the dispatch on the message type. *)
Ltac frame_enter HL :=
  unfold handle_frame; unfold bind at 1, gets at 1;
  unfold try_except_only, json_loads_or_raise; rewrite HL;
  unfold bind at 1, ret at 1; unfold bind at 1, ret at 1;
  unfold bind at 1; rewrite touch_eq.

Ltac user_id_live :=
  unfold bind at 1;
  rewrite str_user_id_live
    by (simpl; rewrite ?broadcast_world_rollbacks; simpl;
        now rewrite ?touch_world_rollbacks).

(** An [edit] frame the database accepts. *)
Lemma handle_frame_edit_committed ws p u info data message w :
  json_loads E data = Some (JDict message) ->
  json_is_str "edit" (get_or "type" JNull message) = true ->
  commit_ok E (edit_row p u message) = true ->
  handle_frame E ws p u info data w
  = (Ret tt,
     fan_out E p u info message
       (committed_world (edit_row p u message) (touch_world E p u w))).
Proof.
  intros HL HT HC. frame_enter HL. rewrite HT.
  user_id_live.
  unfold bind at 1. rewrite handle_edit_message_eq, HC.
  user_id_live.
  unfold bind at 1, utcnow_isoformat.
  user_id_live.
  unfold bind at 1.
  rewrite broadcast_eq. reflexivity.
Qed.

(** An [edit] frame the database refuses, the rollback going through:
    the rollback has expired [user], and the broadcast is not reached. *)
Lemma handle_frame_edit_rolled_back ws p u info data message w :
  json_loads E data = Some (JDict message) ->
  json_is_str "edit" (get_or "type" JNull message) = true ->
  commit_ok E (edit_row p u message) = false ->
  rollback_ok E = true ->
  handle_frame E ws p u info data w
  = (Raise MissingGreenlet,
     add_trace [RolledBack] (refused_world (touch_world E p u w))).
Proof.
  intros HL HT HC HR. frame_enter HL. rewrite HT.
  user_id_live.
  unfold bind at 1. rewrite handle_edit_message_eq, HC, HR.
  unfold bind at 1.
  rewrite str_user_id_expired
    by (simpl; rewrite touch_world_rollbacks; lia).
  reflexivity.
Qed.

(** An [edit] frame the database refuses, the rollback failing too. *)
Lemma handle_frame_edit_fault ws p u info data message w :
  json_loads E data = Some (JDict message) ->
  json_is_str "edit" (get_or "type" JNull message) = true ->
  commit_ok E (edit_row p u message) = false ->
  rollback_ok E = false ->
  handle_frame E ws p u info data w
  = (Raise DatabaseError, refused_world (touch_world E p u w)).
Proof.
  intros HL HT HC HR. frame_enter HL. rewrite HT.
  user_id_live.
  unfold bind at 1. rewrite handle_edit_message_eq, HC, HR.
  reflexivity.
Qed.

(** An [edit] frame the database refuses, whatever the rollback does:
    nothing is written to any socket. *)
Lemma handle_frame_edit_refused ws p u info data message w :
  json_loads E data = Some (JDict message) ->
  json_is_str "edit" (get_or "type" JNull message) = true ->
  commit_ok E (edit_row p u message) = false ->
  handle_frame E ws p u info data w
  = (Raise (if rollback_ok E then MissingGreenlet else DatabaseError),
     add_trace (if rollback_ok E then [RolledBack] else [])
               (refused_world (touch_world E p u w))).
Proof.
  intros HL HT HC. destruct (rollback_ok E) eqn:HR.
  - now apply handle_frame_edit_rolled_back with message.
  - rewrite add_trace_nil. now apply handle_frame_edit_fault with message.
Qed.

Lemma handle_frame_cursor ws p u info data message w :
  json_loads E data = Some (JDict message) ->
  json_is_str "edit" (get_or "type" JNull message) = false ->
  json_is_str "cursor" (get_or "type" JNull message) = true ->
  handle_frame E ws p u info data w
  = (Ret tt, fan_out E p u info message (touch_world E p u w)).
Proof.
  intros HL HT HC. frame_enter HL. rewrite HT, HC.
  user_id_live.
  unfold bind at 1, utcnow_isoformat.
  user_id_live.
  unfold bind at 1.
  rewrite broadcast_eq. reflexivity.
Qed.

(** A frame that is not JSON: [json.loads] raises [JSONDecodeError]. *)
Lemma handle_frame_malformed ws p u info data w :
  json_loads E data = None ->
  json_error E data = JSONDecodeError ->
  handle_frame E ws p u info data w
  = (Ret tt,
     add_trace [Sent ws (error_message (utcnow E (clock w))) (send_ok E ws)]
               (tick w)).
Proof.
  intros HL HE. unfold handle_frame. unfold bind at 1, gets at 1.
  unfold try_except_only, json_loads_or_raise.
  rewrite HL, HE. unfold bind at 1, raise at 1. simpl.
  unfold bind at 1. rewrite str_user_id_live by reflexivity.
  unfold bind at 1, utcnow_isoformat.
  rewrite send_personal_message_eq. reflexivity.
Qed.

(** A frame on which [json.loads] raises something else. *)
Lemma handle_frame_undecodable ws p u info data w :
  json_loads E data = None ->
  is_JSONDecodeError (json_error E data) = false ->
  handle_frame E ws p u info data w = (Raise (json_error E data), w).
Proof.
  intros HL HE. unfold handle_frame. unfold bind at 1, gets at 1.
  unfold try_except_only, json_loads_or_raise.
  rewrite HL. unfold bind at 1, raise at 1. now rewrite HE.
Qed.

Lemma handle_frame_not_object ws p u info data j w :
  json_loads E data = Some j -> is_object j = false ->
  handle_frame E ws p u info data w = (Raise AttributeError, w).
Proof.
  intros HL HO. unfold handle_frame. unfold bind at 1, gets at 1.
  unfold try_except_only, json_loads_or_raise.
  rewrite HL. unfold bind at 1, ret at 1.
  destruct j; try discriminate; reflexivity.
Qed.

Lemma handle_frame_ping ws p u info data message w :
  json_loads E data = Some (JDict message) ->
  json_is_str "edit" (get_or "type" JNull message) = false ->
  json_is_str "cursor" (get_or "type" JNull message) = false ->
  json_is_str "ping" (get_or "type" JNull message) = true ->
  handle_frame E ws p u info data w
  = (Ret tt,
     add_trace [Sent ws (pong_message (utcnow E (clock (touch_world E p u w))))
                     (send_ok E ws)]
               (tick (touch_world E p u w))).
Proof.
  intros HL H1 H2 H3. frame_enter HL. rewrite H1, H2, H3.
  unfold bind at 1, utcnow_isoformat.
  rewrite send_personal_message_eq. reflexivity.
Qed.

Lemma handle_frame_other ws p u info data message w :
  json_loads E data = Some (JDict message) ->
  json_is_str "edit" (get_or "type" JNull message) = false ->
  json_is_str "cursor" (get_or "type" JNull message) = false ->
  json_is_str "ping" (get_or "type" JNull message) = false ->
  handle_frame E ws p u info data w = (Ret tt, touch_world E p u w).
Proof.
  intros HL H1 H2 H3. frame_enter HL. rewrite H1, H2, H3.
  user_id_live. reflexivity.
Qed.

(** A turn that ends normally has not rolled the session back, so the
    next turn starts with a live [user] too; a turn that has rolled it
    back ends by an exception of the database layer. *)
Lemma handle_frame_returns_live ws p u info data w :
  let r := handle_frame E ws p u info data w in
  match fst r with
  | Ret _ => rollbacks (snd r) = rollbacks w
  | Raise e =>
      rollbacks (snd r) = rollbacks w
      \/ (rollbacks (snd r) <> rollbacks w
          /\ (e = MissingGreenlet \/ e = DatabaseError))
  | Suspended => False
  end.
Proof.
  cbv zeta.
  destruct (json_loads E data) as [j|] eqn:HL.
  2: { destruct (is_JSONDecodeError (json_error E data)) eqn:HE.
       - assert (HE' : json_error E data = JSONDecodeError)
           by (destruct (json_error E data); try discriminate; reflexivity).
         rewrite handle_frame_malformed by assumption. reflexivity.
       - rewrite handle_frame_undecodable by assumption. now left. }
  destruct (is_object j) eqn:HO.
  2: { rewrite (handle_frame_not_object ws p u info data j w HL HO).
       now left. }
  destruct j as [| | | | |message]; try discriminate.
  destruct (json_is_str "edit" (get_or "type" JNull message)) eqn:H1.
  - destruct (commit_ok E (edit_row p u message)) eqn:HC.
    + rewrite (handle_frame_edit_committed ws p u info data message w
                 HL H1 HC). simpl.
      unfold fan_out. rewrite broadcast_world_rollbacks. simpl.
      apply touch_world_rollbacks.
    + destruct (rollback_ok E) eqn:HR.
      * rewrite (handle_frame_edit_rolled_back ws p u info data message w
                   HL H1 HC HR). simpl.
        rewrite touch_world_rollbacks. right. split; [lia | now left].
      * rewrite (handle_frame_edit_fault ws p u info data message w
                   HL H1 HC HR). simpl.
        rewrite touch_world_rollbacks. right. split; [lia | now right].
  - destruct (json_is_str "cursor" (get_or "type" JNull message)) eqn:H2.
    + rewrite (handle_frame_cursor ws p u info data message w HL H1 H2).
      simpl. unfold fan_out. rewrite broadcast_world_rollbacks. simpl.
      apply touch_world_rollbacks.
    + destruct (json_is_str "ping" (get_or "type" JNull message)) eqn:H3.
      * rewrite (handle_frame_ping ws p u info data message w HL H1 H2 H3).
        simpl. apply touch_world_rollbacks.
      * rewrite (handle_frame_other ws p u info data message w HL H1 H2 H3).
        simpl. apply touch_world_rollbacks.
Qed.

Lemma receive_loop_step ws p u info data rest w :
  fst (handle_frame E ws p u info data w) = Ret tt ->
  receive_loop E ws p u info (Frame data :: rest) w
  = receive_loop E ws p u info rest (snd (handle_frame E ws p u info data w)).
Proof.
  intros H. simpl. unfold bind at 1. simpl. unfold bind at 1.
  destruct (handle_frame E ws p u info data w) as [[[]|e|] w'];
    simpl in *; try discriminate. reflexivity.
Qed.

Lemma receive_loop_raise ws p u info data rest w e :
  fst (handle_frame E ws p u info data w) = Raise e ->
  receive_loop E ws p u info (Frame data :: rest) w
  = (Raise e, snd (handle_frame E ws p u info data w)).
Proof.
  intros H. simpl. unfold bind at 1. simpl. unfold bind at 1.
  destruct (handle_frame E ws p u info data w) as [[[]|e'|] w'];
    simpl in *; try discriminate. congruence.
Qed.

(** The loop is left with a live [user], or by an exception of the
    database layer. *)
Lemma receive_loop_exit_live ws p u info script :
  forall w e,
    fst (receive_loop E ws p u info script w) = Raise e ->
    rollbacks (snd (receive_loop E ws p u info script w)) = rollbacks w
    \/ (rollbacks (snd (receive_loop E ws p u info script w)) <> rollbacks w
        /\ (e = MissingGreenlet \/ e = DatabaseError)).
Proof.
  induction script as [|i rest IH]; intros w e; [discriminate|].
  destruct i as [data|e0]; [|intros _; now left].
  pose proof (handle_frame_returns_live ws p u info data w) as Hf.
  cbv zeta in Hf.
  destruct (fst (handle_frame E ws p u info data w)) as [[]|e'|] eqn:Hr;
    [| |contradiction].
  - rewrite (receive_loop_step ws p u info data rest w Hr). intros He.
    rewrite <- Hf. now apply IH.
  - rewrite (receive_loop_raise ws p u info data rest w e' Hr). simpl.
    intros [= <-]. exact Hf.
Qed.

Lemma touch_world_tasks p u w : tasks (touch_world E p u w) = tasks w.
Proof.
  unfold touch_world. destruct (PyDict.get p _) as [ss|]; [|reflexivity].
  destruct (PyDict.get u ss); reflexivity.
Qed.

(** How the inner [try] ends once the loop is left: with a live [user]
    the cleanup runs, with an expired one the [finally] clause raises
    before it calls [disconnect]. *)
Lemma joined_exit_live ws p u info script w e :
  fst (receive_loop E ws p u info script w) = Raise e ->
  rollbacks (snd (receive_loop E ws p u info script w)) = rollbacks w ->
  joined E ws p u info script w
  = (if is_WebSocketDisconnect e then Ret tt else Raise e,
     disconnect_world E p u (snd (receive_loop E ws p u info script w))).
Proof.
  intros H Hlive. unfold joined. unfold bind at 1, gets at 1.
  unfold try_finally, try_except_only.
  destruct (receive_loop E ws p u info script w) as [[a|e'|] w'];
    simpl in H; try discriminate. inversion H; subst. simpl in Hlive.
  destruct (is_WebSocketDisconnect e); simpl.
  - unfold bind at 1. rewrite str_user_id_live by assumption.
    unfold ret at 1. unfold bind at 1, bind at 1.
    rewrite str_user_id_live by assumption.
    rewrite disconnect_eq. reflexivity.
  - unfold bind at 1, bind at 1.
    rewrite str_user_id_live by assumption.
    rewrite disconnect_eq. reflexivity.
Qed.

Lemma joined_exit_expired ws p u info script w e :
  fst (receive_loop E ws p u info script w) = Raise e ->
  rollbacks (snd (receive_loop E ws p u info script w)) <> rollbacks w ->
  joined E ws p u info script w
  = (Raise MissingGreenlet, snd (receive_loop E ws p u info script w)).
Proof.
  intros H Hexp. unfold joined. unfold bind at 1, gets at 1.
  unfold try_finally, try_except_only.
  destruct (receive_loop E ws p u info script w) as [[a|e'|] w'];
    simpl in H; try discriminate. inversion H; subst. simpl in Hexp.
  destruct (is_WebSocketDisconnect e); simpl.
  - unfold bind at 1. rewrite str_user_id_expired by assumption.
    unfold bind at 1, bind at 1.
    rewrite str_user_id_expired by assumption. reflexivity.
  - unfold bind at 1, bind at 1.
    rewrite str_user_id_expired by assumption. reflexivity.
Qed.

Lemma new_events_app w w' evs :
  trace w' = trace w ++ evs -> new_events w w' = evs.
Proof.
  intros H. unfold new_events. rewrite H.
  rewrite skipn_app, skipn_all, Nat.sub_diag. reflexivity.
Qed.

Lemma fan_out_trace p u info message w :
  trace (fan_out E p u info message w)
  = trace w
    ++ sends_of E (stamped message u info (utcnow E (clock w))) (Some u)
         (dict_get_default p (active_connections w)).
Proof. unfold fan_out. now rewrite broadcast_world_trace. Qed.

End FrameFacts.

(* ===================================================================== *)
(** * Properties of the specification *)
(* ===================================================================== *)

Section Stamping.
Import PyDictFacts.

Lemma stamped_user_id message u info now :
  PyDict.get "user_id" (stamped message u info now) = Some (JStr u).
Proof.
  unfold stamped, PyDict.update; simpl.
  rewrite !get_set_neq by discriminate. apply get_set_eq.
Qed.

Lemma stamped_user_info message u info now :
  PyDict.get "user_info" (stamped message u info now) = Some (JDict info).
Proof.
  unfold stamped, PyDict.update; simpl.
  rewrite !get_set_neq by discriminate. apply get_set_eq.
Qed.

Lemma stamped_timestamp message u info now :
  PyDict.get "timestamp" (stamped message u info now) = Some (JStr now).
Proof. unfold stamped, PyDict.update; simpl. apply get_set_eq. Qed.

Lemma stamped_other message u info now k :
  k <> "user_id" -> k <> "user_info" -> k <> "timestamp" ->
  PyDict.get k (stamped message u info now) = PyDict.get k message.
Proof.
  intros H1 H2 H3. unfold stamped, PyDict.update; simpl.
  rewrite !get_set_neq by congruence. reflexivity.
Qed.

Lemma in_sends_of E message ex members ws copy delivered :
  In (Sent ws copy delivered) (sends_of E message ex members) ->
  copy = message.
Proof.
  unfold sends_of. rewrite in_map_iff. intros [m [H _]]. congruence.
Qed.

Lemma excluded_some u k :
  u <> "" -> excluded (Some u) k = String.eqb k u.
Proof.
  intros H. unfold excluded.
  destruct (String.eqb_spec u ""); [contradiction | reflexivity].
Qed.

Lemma recipients_some u members :
  u <> "" ->
  recipients (Some u) members
  = filter (fun m => negb (String.eqb (fst m) u)) members.
Proof.
  intros H. unfold recipients. apply filter_ext. intros m.
  now rewrite excluded_some.
Qed.

End Stamping.

(** The worlds of the examples are reachable, hence well formed. *)
Lemma Scenario_two_members_ok : world_ok Scenario.two_members.
Proof.
  apply world_ok_tables with (w := Scenario.two_joined);
    [vm_compute; reflexivity | vm_compute; reflexivity |].
  apply world_ok_run, world_ok_init.
Qed.

Lemma Scenario_three_members_ok : world_ok Scenario.three_members.
Proof.
  apply world_ok_tables with (w := Scenario.three_joined);
    [vm_compute; reflexivity | vm_compute; reflexivity |].
  unfold Scenario.three_joined, Scenario.two_joined.
  apply world_ok_run, world_ok_run, world_ok_init.
Qed.

(** C8. Every copy of a member-originated [edit] or [cursor] envelope
    that the handling of the frame writes to a socket carries the sender's
    id under [user_id], the sender's identity under [user_info] and, under
    [timestamp], a reading of the server clock taken while the frame was
    handled -- whatever the inbound envelope held under these keys. *)
Theorem C8_server_stamps_override
    (E : Env) (ws : websocket) (p u : string) (info : dict json)
    (data : string) (message : dict json) (w : world) :
  json_loads E data = Some (JDict message) ->
  json_is_str "edit" (get_or "type" JNull message) = true
  \/ json_is_str "cursor" (get_or "type" JNull message) = true ->
  let w' := snd (handle_frame E ws p u info data w) in
  forall ws' copy delivered,
    In (Sent ws' copy delivered) (new_events w w') ->
    PyDict.get "user_id" copy = Some (JStr u)
    /\ PyDict.get "user_info" copy = Some (JDict info)
    /\ exists n,
         clock w <= n < clock w'
         /\ PyDict.get "timestamp" copy = Some (JStr (utcnow E n)).
Proof.
  intros HL HT w' ws' copy delivered Hin. subst w'.
  pose proof (touch_world_clock E p u w) as Hck.
  pose proof (touch_world_trace E p u w) as Htr.
  assert (Hfan : forall w0 pre,
    trace w0 = trace w ++ pre ->
    (forall a b c, ~ In (Sent a b c) pre) ->
    clock w <= clock w0 ->
    In (Sent ws' copy delivered) (new_events w (fan_out E p u info message w0)) ->
    PyDict.get "user_id" copy = Some (JStr u)
    /\ PyDict.get "user_info" copy = Some (JDict info)
    /\ exists n, clock w <= n < clock (fan_out E p u info message w0)
         /\ PyDict.get "timestamp" copy = Some (JStr (utcnow E n))).
  { intros w0 pre Ht Hpre Hc Hi.
    rewrite (new_events_app w _ (pre ++ sends_of E
               (stamped message u info (utcnow E (clock w0))) (Some u)
               (dict_get_default p (active_connections w0)))) in Hi
      by (rewrite fan_out_trace, Ht, app_assoc; reflexivity).
    apply in_app_or in Hi as [Hi|Hi]; [now apply Hpre in Hi|].
    apply in_sends_of in Hi. subst copy.
    rewrite stamped_user_id, stamped_user_info, stamped_timestamp.
    repeat split. exists (clock w0). split; [|reflexivity].
    pose proof (broadcast_world_clock E p
      (stamped message u info (utcnow E (clock w0))) (Some u) (tick w0)).
    unfold fan_out. simpl in *. lia. }
  destruct (json_is_str "edit" (get_or "type" JNull message)) eqn:Hedit.
  - destruct (commit_ok E (edit_row p u message)) eqn:HC.
    + rewrite (handle_frame_edit_committed E ws p u info data message w HL Hedit HC) in *.
      simpl in *. eapply (Hfan _ [Committed (edit_row p u message)]); eauto.
      * simpl. now rewrite Htr.
      * intros a b c [H|[]]. discriminate.
      * simpl. lia.
    + rewrite (handle_frame_edit_refused E ws p u info data message w
                 HL Hedit HC) in Hin.
      simpl in Hin.
      rewrite (new_events_app w _ (if rollback_ok E then [RolledBack] else []))
        in Hin by (simpl; now rewrite Htr).
      destruct (rollback_ok E); simpl in Hin; [|contradiction].
      destruct Hin as [H|[]]. discriminate.
  - destruct HT as [HT|HT]; [discriminate|].
    rewrite (handle_frame_cursor E ws p u info data message w HL Hedit HT) in *.
    simpl in *. eapply (Hfan _ []); eauto.
    + now rewrite app_nil_r.
    + lia.
Qed.

(** A forged [user_id] and [timestamp] in an edit from [u1] do not reach
    [u2] and [u3]. *)
Lemma C8_server_stamps_override_witness :
  let E := Scenario.env [] true in
  let w := Scenario.three_members in
  let w' := snd (handle_frame E 1 "p1" "u1" (Scenario.info "u1")
                              "forged-edit" w) in
  PyDict.get "user_id" Scenario.forged_edit = Some (JStr "mallory")
  /\ forall ws' copy delivered,
       In (Sent ws' copy delivered) (new_events w w') ->
       PyDict.get "user_id" copy = Some (JStr "u1")
       /\ PyDict.get "user_info" copy = Some (JDict (Scenario.info "u1"))
       /\ exists n,
            clock w <= n < clock w'
            /\ PyDict.get "timestamp" copy
               = Some (JStr (utcnow E n)).
Proof.
  split; [reflexivity|].
  apply (C8_server_stamps_override (Scenario.env [] true) 1 "p1" "u1"
           (Scenario.info "u1") "forged-edit" Scenario.forged_edit
           Scenario.three_members).
  - reflexivity.
  - left. reflexivity.
Defined.

(** C2. An [edit] envelope whose commit succeeds appends exactly one row,
    the row built from the envelope; the append is logged before any send;
    the envelope is then written once to the socket of every member of
    the project other than the sender, in registry order, each copy being
    the inbound envelope with [user_id], [user_info] and [timestamp] set
    to the sender's id, the sender's identity and a clock reading taken
    while the frame was handled, every other field echoed. *)
Theorem C2_edit_persisted_then_broadcast
    (E : Env) (ws : websocket) (p u : string) (info : dict json)
    (data : string) (message : dict json) (w : world) :
  u <> "" ->
  json_loads E data = Some (JDict message) ->
  json_is_str "edit" (get_or "type" JNull message) = true ->
  commit_ok E (edit_row p u message) = true ->
  let r := handle_frame E ws p u info data w in
  let row := edit_row p u message in
  exists now,
    let copy := stamped message u info now in
    fst r = Ret tt
    /\ edit_history (snd r) = edit_history w ++ [row]
    /\ trace (snd r)
       = trace w
         ++ Committed row
            :: map (fun m => Sent (snd m) copy (send_ok E (snd m)))
                   (filter (fun m => negb (String.eqb (fst m) u))
                           (dict_get_default p (active_connections w)))
    /\ (exists n, clock w <= n < clock (snd r) /\ now = utcnow E n)
    /\ PyDict.get "user_id" copy = Some (JStr u)
    /\ PyDict.get "user_info" copy = Some (JDict info)
    /\ PyDict.get "timestamp" copy = Some (JStr now)
    /\ forall k, k <> "user_id" -> k <> "user_info" -> k <> "timestamp" ->
                 PyDict.get k copy = PyDict.get k message.
Proof.
  intros Hu HL HT HC r row. subst r row.
  rewrite (handle_frame_edit_committed E ws p u info data message w HL HT HC).
  set (w1 := committed_world (edit_row p u message) (touch_world E p u w)).
  exists (utcnow E (clock w1)). simpl.
  pose proof (touch_world_clock E p u w) as Hck.
  repeat split.
  - unfold fan_out. rewrite broadcast_world_edit_history. simpl.
    now rewrite touch_world_edit_history.
  - rewrite fan_out_trace. simpl. rewrite touch_world_trace, <- app_assoc.
    simpl. unfold sends_of. rewrite recipients_some by assumption.
    now rewrite touch_world_connections.
  - exists (clock w1). split; [|reflexivity].
    pose proof (broadcast_world_clock E p
      (stamped message u info (utcnow E (clock w1))) (Some u) (tick w1)).
    unfold fan_out. subst w1. simpl in *. lia.
  - apply stamped_user_id.
  - apply stamped_user_info.
  - apply stamped_timestamp.
  - intros. now apply stamped_other.
Qed.

Lemma C2_edit_persisted_then_broadcast_witness :
  let E := Scenario.env [] true in
  let w := Scenario.three_members in
  let r := handle_frame E 1 "p1" "u1" (Scenario.info "u1") "forged-edit" w in
  let row := edit_row "p1" "u1" Scenario.forged_edit in
  exists now,
    let copy := stamped Scenario.forged_edit "u1" (Scenario.info "u1") now in
    fst r = Ret tt
    /\ edit_history (snd r) = edit_history w ++ [row]
    /\ trace (snd r)
       = trace w
         ++ Committed row
            :: map (fun m => Sent (snd m) copy (send_ok E (snd m)))
                   (filter (fun m => negb (String.eqb (fst m) "u1"))
                           (dict_get_default "p1" (active_connections w)))
    /\ (exists n, clock w <= n < clock (snd r) /\ now = utcnow E n)
    /\ PyDict.get "user_id" copy = Some (JStr "u1")
    /\ PyDict.get "user_info" copy = Some (JDict (Scenario.info "u1"))
    /\ PyDict.get "timestamp" copy = Some (JStr now)
    /\ forall k, k <> "user_id" -> k <> "user_info" -> k <> "timestamp" ->
                 PyDict.get k copy = PyDict.get k Scenario.forged_edit.
Proof.
  apply (C2_edit_persisted_then_broadcast (Scenario.env [] true) 1 "p1" "u1"
           (Scenario.info "u1") "forged-edit" Scenario.forged_edit
           Scenario.three_members).
  - discriminate.
  - reflexivity.
  - reflexivity.
  - reflexivity.
Defined.




(** The membership query lists the registered members, in order. *)
Lemma user_ids_get_project_users p w :
  world_ok w ->
  user_ids (get_project_users p w) = map JStr (members_of p w).
Proof.
  intros Hw. rewrite <- world_ok_same_keys by assumption.
  unfold get_project_users, dict_get_default, user_ids, PyDict.keys.
  destruct (PyDict.get p (user_sessions w)) as [ss|]; [|reflexivity].
  rewrite !map_map. reflexivity.
Qed.

(** C4, as the code has it. A broadcast in a project writes the envelope
    once to the socket of each member other than the excluded one, in
    registry order, a failed send not stopping the later ones; the call
    evaluates to [None] (the list of failed members is not returned: the
    broadcast itself deregisters them before it ends); afterwards the
    project's members are those it had, less the ones whose send failed. *)
Theorem C4_broadcast_and_cleanup
    (E : Env) (p : string) (message : dict json) (ex : option string)
    (w : world) (members : dict websocket) :
  world_ok w ->
  PyDict.get p (active_connections w) = Some members ->
  let r := broadcast_to_project E p message ex w in
  fst r = Ret PyNone
  /\ trace (snd r)
     = trace w
       ++ map (fun m => Sent (snd m) message (send_ok E (snd m)))
              (filter (fun m => negb (excluded ex (fst m))) members)
  /\ (forall u ws,
        In (u, ws) members -> excluded ex u = false ->
        send_ok E ws = false ->
        ~ In u (members_of p (snd r)))
  /\ (forall u,
        In u (members_of p (snd r))
        <-> In u (PyDict.keys members) /\ ~ In u (failed_of E ex members))
  /\ user_ids (get_project_users p (snd r))
     = map JStr (members_of p (snd r)).
Proof.
  intros Hw G r. subst r.
  pose proof (preserves_broadcast E p message ex w Hw) as Hw'.
  rewrite broadcast_eq in *. simpl in *.
  assert (Hm : forall u,
    In u (members_of p (broadcast_world E p message ex w))
    <-> In u (PyDict.keys members) /\ ~ In u (failed_of E ex members)).
  { intros u. rewrite broadcast_world_members by assumption.
    unfold members_of, dict_get_default. rewrite G.
    rewrite filter_In, negb_true_iff.
    split; intros [H1 H2]; split; trivial.
    - intros Hin. assert (existsb (String.eqb u) (failed_of E ex members) = true);
        [|congruence].
      apply existsb_exists. exists u. split; [assumption | apply String.eqb_refl].
    - destruct (existsb _ _) eqn:Ex; [|reflexivity].
      apply existsb_exists in Ex as [x [Hx Heq]].
      apply String.eqb_eq in Heq. subst. contradiction. }
  split; [reflexivity|].
  split; [|split; [|split; [exact Hm | now apply user_ids_get_project_users]]].
  - rewrite broadcast_world_trace. unfold dict_get_default. now rewrite G.
  - intros u ws Hin Hex Hsend Hmem. apply Hm in Hmem as [_ Hnf].
    apply Hnf. unfold failed_of, recipients.
    change u with (fst (u, ws)). apply in_map.
    apply filter_In; simpl. split; [|now rewrite Hsend].
    apply filter_In; simpl. split; [assumption | now rewrite Hex].
Qed.

Lemma C4_broadcast_and_cleanup_witness :
  let E := Scenario.env [2] true in
  let w := Scenario.three_members in
  let members := [("u1", 1); ("u2", 2); ("u3", 3)] in
  let message := [("type", JStr "cursor")] in
  let r := broadcast_to_project E "p1" message (Some "u1") w in
  fst r = Ret PyNone
  /\ trace (snd r)
     = trace w
       ++ map (fun m => Sent (snd m) message (send_ok E (snd m)))
              (filter (fun m => negb (excluded (Some "u1") (fst m))) members)
  /\ (forall u ws,
        In (u, ws) members -> excluded (Some "u1") u = false ->
        send_ok E ws = false ->
        ~ In u (members_of "p1" (snd r)))
  /\ (forall u,
        In u (members_of "p1" (snd r))
        <-> In u (PyDict.keys members)
            /\ ~ In u (failed_of E (Some "u1") members))
  /\ user_ids (get_project_users "p1" (snd r))
     = map JStr (members_of "p1" (snd r)).
Proof.
  apply (C4_broadcast_and_cleanup (Scenario.env [2] true) "p1"
           [("type", JStr "cursor")] (Some "u1") Scenario.three_members
           [("u1", 1); ("u2", 2); ("u3", 3)]).
  - apply Scenario_three_members_ok.
  - reflexivity.
Defined.

(** C4 as stated fails: with members [u1], [u2], [u3], the send to [u2]
    failing and [u1] excluded, the sends go to [u2] and [u3] and [u2] is
    gone afterwards, but the call evaluates to [None], not to a list that
    reports [u2]. *)
Lemma C4_counterexample :
  let E := Scenario.env [2] true in
  let w := Scenario.three_members in
  let message := [("type", JStr "cursor")] in
  let r := broadcast_to_project E "p1" message (Some "u1") w in
  members_of "p1" w = ["u1"; "u2"; "u3"]
  /\ new_events w (snd r) = [Sent 2 message false; Sent 3 message true]
  /\ members_of "p1" (snd r) = ["u1"; "u3"]
  /\ user_ids (get_project_users "p1" (snd r)) = [JStr "u1"; JStr "u3"]
  /\ fst r = Ret PyNone
  /\ forall l, fst r <> Ret (PyStrList l).
Proof.
  vm_compute. repeat split. intros l H. discriminate.
Qed.

(** C5. In every world the manager can reach from the empty one -- by any
    sequence of connects, disconnects, broadcasts, task runs and whole
    endpoint sessions, on any keys -- each of the two tables holds at most
    one slot for a (project id, member id) key, and holds a project id
    exactly when its member count is at least one; and a disconnect leaves
    the project in the table exactly when a member other than the leaving
    one was registered in it. *)
Theorem C5_registry_invariant
    (steps : list (Env * op)) (p u : string) :
  let w := run steps init_world in
  entry_count p u (active_connections w) <= 1
  /\ entry_count p u (user_sessions w) <= 1
  /\ (PyDict.contains p (active_connections w) = true
      <-> 1 <= member_count p (active_connections w))
  /\ (PyDict.contains p (user_sessions w) = true
      <-> 1 <= member_count p (user_sessions w))
  /\ forall E,
       PyDict.contains p (active_connections (step E (OpDisconnect p u) w))
       = true
       <-> exists u', u' <> u /\ In u' (members_of p w).
Proof.
  intros w.
  assert (Hw : world_ok w) by (apply world_ok_run, world_ok_init).
  pose proof (world_ok_sessions w Hw) as Hs.
  destruct Hw as [Hok Her].
  split; [now apply entry_count_le_1|].
  split; [now apply entry_count_le_1|].
  split; [now apply contains_member_count|].
  split; [now apply contains_member_count|].
  intros E. simpl. rewrite disconnect_eq. simpl.
  rewrite contains_member_count by now apply registry_ok_drop.
  unfold member_count. rewrite default_drop by apply Hok.
  pose proof (default_ok p _ Hok) as Hnd.
  unfold members_of.
  set (m := dict_get_default p (active_connections w)) in *.
  rewrite <- (length_map fst). fold (PyDict.keys (PyDict.pop u m)).
  rewrite keys_pop by assumption.
  split.
  - intros Hlen.
    destruct (filter _ (PyDict.keys m)) as [|x l] eqn:F; [simpl in Hlen; lia|].
    assert (Hin : In x (filter (fun x => negb (String.eqb x u)) (PyDict.keys m)))
      by (rewrite F; now left).
    apply filter_In in Hin as [Hin Hx]. exists x. split; [|assumption].
    apply negb_true_iff, String.eqb_neq in Hx. assumption.
  - intros [u' [Hne Hin]].
    assert (Hf : In u' (filter (fun x => negb (String.eqb x u)) (PyDict.keys m))).
    { apply filter_In. split; [assumption|].
      apply negb_true_iff, String.eqb_neq. assumption. }
    destruct (filter _ (PyDict.keys m)); [contradiction | simpl; lia].
Qed.

(** C6. For a member registered in a well-formed registry, a first
    [disconnect] returns normally and removes the member from both
    tables; a second [disconnect] for the same key returns normally too
    and changes nothing: the registry, the pending tasks (so no second
    [user_left] broadcast is scheduled), the log and the clock are those
    the first call left. *)
Theorem C6_disconnect_idempotent
    (E : Env) (p u : string) (w : world) :
  world_ok w ->
  In u (members_of p w) ->
  let w1 := snd (disconnect E p u w) in
  fst (disconnect E p u w) = Ret tt
  /\ ~ In u (members_of p w1)
  /\ PyDict.get u (dict_get_default p (user_sessions w1)) = None
  /\ length (members_of p w1) + 1 = length (members_of p w)
  /\ disconnect E p u w1 = (Ret tt, w1).
Proof.
  intros Hw Hin w1. subst w1. rewrite !disconnect_eq. simpl.
  pose proof (world_ok_sessions w Hw) as Hs.
  pose proof (world_ok_disconnect_world E p u w Hw) as Hw1.
  pose proof (world_ok_sessions _ Hw1) as Hs1.
  assert (Hgone : PyDict.get u
            (dict_get_default p (user_sessions (disconnect_world E p u w)))
          = None).
  { simpl. rewrite default_drop by apply Hs.
    apply PyDictFacts.get_pop_eq. now apply default_ok. }
  assert (Hnot : ~ In u (members_of p (disconnect_world E p u w))).
  { rewrite <- world_ok_same_keys by assumption.
    now apply PyDictFacts.get_none_not_in. }
  repeat split; try assumption.
  - unfold members_of in *. simpl. rewrite default_drop by apply Hw.
    pose proof (default_ok p _ (proj1 Hw)) as Hnd.
    set (m := dict_get_default p (active_connections w)) in *.
    clearbody m. clear - Hin Hnd.
    induction m as [|[k v] r IH]; simpl in *; [contradiction|].
    inversion Hnd as [|? ? Hnin Hnd']; subst.
    destruct (String.eqb_spec u k) as [->|Hne]; simpl.
    + unfold PyDict.keys. lia.
    + destruct Hin as [Heq|Hin]; [congruence|].
      specialize (IH Hin Hnd'). unfold PyDict.keys in *. lia.
  - f_equal.
    assert (Hd : forall V (reg : dict (dict V)),
              registry_ok reg ->
              PyDict.get u (dict_get_default p reg) = None ->
              drop p u reg = reg).
    { intros V reg Hreg Hget. unfold drop, dict_get_default in *.
      destruct (PyDict.get p reg) as [m|] eqn:G; [|reflexivity].
      rewrite PyDictFacts.pop_absent by assumption.
      destruct (registry_ok_members _ _ _ Hreg G) as [Hne _].
      destruct m as [|x m]; [congruence|]. simpl.
      clear - G. induction reg as [|[k v] r IH]; simpl in *; [discriminate|].
      destruct (String.eqb_spec p k) as [->|Hk].
      - inversion G; subst. reflexivity.
      - now rewrite IH. }
    remember (disconnect_world E p u w) as w1 eqn:Hw1eq.
    assert (Ha : drop p u (active_connections w1) = active_connections w1).
    { apply Hd; [apply Hw1|]. now apply PyDictFacts.get_none_not_in. }
    assert (Hb : drop p u (user_sessions w1) = user_sessions w1)
      by (apply Hd; assumption).
    assert (Hl : leave_task E p u w1 = [])
      by (unfold leave_task; now rewrite Hgone).
    unfold disconnect_world. rewrite Ha, Hb, Hl, app_nil_r. simpl.
    destruct w1; reflexivity.
Qed.

Lemma C6_disconnect_idempotent_witness :
  let E := Scenario.env [] true in
  let w := Scenario.two_members in
  let w1 := snd (disconnect E "p1" "u2" w) in
  fst (disconnect E "p1" "u2" w) = Ret tt
  /\ ~ In "u2" (members_of "p1" w1)
  /\ PyDict.get "u2" (dict_get_default "p1" (user_sessions w1)) = None
  /\ length (members_of "p1" w1) + 1 = length (members_of "p1" w)
  /\ disconnect E "p1" "u2" w1 = (Ret tt, w1).
Proof.
  apply (C6_disconnect_idempotent (Scenario.env [] true) "p1" "u2").
  - apply Scenario_two_members_ok.
  - vm_compute. auto.
Defined.

Section Authentication.
Variable E : Env.

Lemma get_websocket_user_cases token w :
  (exists user, get_websocket_user E token w = (Ret user, w)
                /\ is_active user = true)
  \/ get_websocket_user E token w
     = (Raise (HTTPException 401 "Authentication failed"), w).
Proof.
  unfold get_websocket_user, verify_token, uuid_UUID. coro_simpl.
  destruct (jwt_decode E token) as [payload|]; simpl; [|now right].
  destruct (get_or "sub" JNull payload) as [| | |s| |]; simpl;
    try (now right);
    destruct (json_is_str "access" (get_or "type" JNull payload));
    simpl; try (now right).
  destruct (uuid_parse E s) as [uid|]; simpl; [|now right].
  destruct (find_user E uid) as [user|]; simpl; [|now right].
  destruct (is_active user) eqn:A; [left; now exists user | now right].
Qed.

(** Whatever makes authentication fail, the endpoint answers with the
    close code and reason of an internal error. *)
Lemma project_websocket_auth_failure ws p token script w e :
  fst (get_websocket_user E token w) = Raise e ->
  project_websocket E ws p token script w
  = (Ret tt, add_trace [Closed ws 4500 "Internal server error"] w).
Proof.
  intros H. unfold project_websocket, try_except at 1, bind at 1.
  destruct (get_websocket_user_cases token w) as [[user [Hu _]]|Hr].
  - rewrite Hu in H. discriminate.
  - rewrite Hr. reflexivity.
Qed.

End Authentication.

(** C3, evaluated. A connection attempt with an undecodable credential,
    and one by a deactivated identity, fail authentication
    ([HTTPException 401]) and are closed with code 4500, reason "Internal
    server error": the very close an internal fault of a joined session
    gets, where project-not-found and forbidden have codes of their own
    (4404, 4403). *)
Theorem C3_auth_failure_closes_as_internal_error :
  let E := Scenario.env [] true in
  let attempt p token script :=
    closes (trace (snd (project_websocket E 9 p token script init_world))) in
  fst (get_websocket_user E "garbage" init_world)
  = Raise (HTTPException 401 "Authentication failed")
  /\ attempt "p1" "garbage" [] = [(4500%Z, "Internal server error")]
  /\ fst (get_websocket_user E "token-ghost" init_world)
     = Raise (HTTPException 401 "Authentication failed")
  /\ attempt "p1" "token-ghost" [] = [(4500%Z, "Internal server error")]
  /\ attempt "p1" "token-u1" [RecvRaises OtherError]
     = [(4500%Z, "Internal server error")]
  /\ attempt "p0" "token-u1" [] = [(4404%Z, "Project not found")]
  /\ attempt "p2" "token-u2" [] = [(4403%Z, "Project access denied")].
Proof. vm_compute. repeat split. Qed.

(** C10. The row [handle_edit_message] builds takes ["unknown"] for a
    missing [action] or [object_type] and [None] for a missing
    [object_id], [changes], [previous_data], [new_data] or [session_id];
    with [action] and [object_type] missing the row meets the NOT NULL
    constraints; the handler raises only when both the commit and the
    rollback fail, never because a field is missing; and when the commit
    succeeds that row, and only it, is appended. *)
Theorem C10_missing_edit_fields_defaulted
    (E : Env) (p u : string) (message : dict json) (w : world) :
  let row := edit_row p u message in
  let r := handle_edit_message E p u message w in
  eh_project_id row = p /\ eh_user_id row = u
  /\ (PyDict.get "action" message = None -> action row = JStr "unknown")
  /\ (PyDict.get "object_type" message = None ->
      object_type row = JStr "unknown")
  /\ (PyDict.get "object_id" message = None -> object_id row = JNull)
  /\ (PyDict.get "changes" message = None -> changes row = JNull)
  /\ (PyDict.get "previous_data" message = None ->
      previous_data row = JNull)
  /\ (PyDict.get "new_data" message = None -> new_data row = JNull)
  /\ (PyDict.get "session_id" message = None -> session_id row = JNull)
  /\ (PyDict.get "action" message = None ->
      PyDict.get "object_type" message = None -> not_null_ok row = true)
  /\ fst r = (if commit_ok E row || rollback_ok E
              then Ret tt else Raise DatabaseError)
  /\ edit_history (snd r)
     = (if commit_ok E row then edit_history w ++ [row] else edit_history w).
Proof.
  intros row r. subst row r. rewrite handle_edit_message_eq.
  unfold edit_row, get_or, not_null_ok; simpl.
  repeat split; try (intros ->; reflexivity).
  - intros -> ->. reflexivity.
  - destruct (commit_ok E _); [reflexivity|].
    destruct (rollback_ok E); reflexivity.
  - destruct (commit_ok E _); [reflexivity|].
    destruct (rollback_ok E); reflexivity.
Qed.

(** An edit that carries nothing but its [type]. *)
Example bare_edit_row :
  edit_row "p1" "u1" Scenario.bare_edit
  = mkEditHistory "p1" "u1" (JStr "unknown") (JStr "unknown")
                  JNull JNull JNull JNull JNull
  /\ handle_edit_message (Scenario.env [] true) "p1" "u1" Scenario.bare_edit
       init_world
     = (Ret tt,
        committed_world (edit_row "p1" "u1" Scenario.bare_edit) init_world).
Proof. split; reflexivity. Qed.

Section Joining.
Import PyDictFacts.

Lemma set_new {V} u (v : V) (d : dict V) :
  ~ In u (PyDict.keys d) -> PyDict.set u v d = d ++ [(u, v)].
Proof.
  induction d as [|[k v'] r IH]; simpl; intros H; [reflexivity|].
  destruct (String.eqb_spec u k) as [->|Hne]; [tauto|].
  rewrite IH by tauto. reflexivity.
Qed.

Lemma recipients_new u (ws : websocket) members :
  u <> "" -> ~ In u (PyDict.keys members) ->
  recipients (Some u) (members ++ [(u, ws)]) = members.
Proof.
  intros Hu Hnin. rewrite recipients_some by assumption.
  rewrite filter_app. simpl. rewrite String.eqb_refl. simpl.
  rewrite app_nil_r. apply filter_all. intros [k v] Hin. simpl.
  apply negb_true_iff, String.eqb_neq. intros ->. apply Hnin.
  change u with (fst (u, v)). now apply in_map.
Qed.

Lemma map_fst_filter {V} (f : string -> bool) (d : dict V) :
  map fst (filter (fun kv => f (fst kv)) d) = filter f (PyDict.keys d).
Proof.
  induction d as [|[k v] r IH]; simpl; [reflexivity|].
  destruct (f k); simpl; now rewrite IH.
Qed.

Lemma listed_ids_active_users u sessions now :
  listed_ids (active_users_message (active_users_of u sessions) now)
  = map JStr (filter (fun x => negb (String.eqb x u))
                     (PyDict.keys sessions)).
Proof.
  unfold listed_ids, user_ids, active_users_message, active_users_of. simpl.
  rewrite map_map. simpl.
  rewrite <- (map_fst_filter (fun x => negb (String.eqb x u))).
  now rewrite map_map.
Qed.

End Joining.

(** What [connect] writes when a member not yet in the project joins it:
    [user_joined] once to the socket of each member already there, in
    registry order, then one [active_users] envelope to the new member's
    own socket, listing the earlier members whose [user_joined] send did
    not fail (the others have been deregistered by then). *)
Lemma connect_announcement
    (E : Env) (ws : websocket) (p u : string) (info : dict json)
    (w : world) :
  world_ok w -> u <> "" -> ~ In u (members_of p w) ->
  let members := dict_get_default p (active_connections w) in
  let failed :=
    map fst (filter (fun m => negb (send_ok E (snd m))) members) in
  let r := connect E ws p u info w in
  exists now snapshot,
    fst r = Ret tt
    /\ new_events w (snd r)
       = Accepted ws
         :: map (fun m => Sent (snd m) (user_joined_message u info now)
                               (send_ok E (snd m)))
                members
         ++ [Sent ws snapshot (send_ok E ws)]
    /\ PyDict.get "type" snapshot = Some (JStr "active_users")
    /\ listed_ids snapshot
       = map JStr (filter (fun x => negb (existsb (String.eqb x) failed))
                          (PyDict.keys members)).
Proof.
  intros Hw Hu Hnew members failed r. subst r.
  rewrite connect_eq. simpl.
  set (w1 := register_world E ws p u info w).
  exists (utcnow E (clock w1)), (snapshot_message E ws p u info w).
  assert (Hw1 : world_ok (tick w1)).
  { eapply world_ok_tables; [reflexivity | reflexivity |].
    now apply world_ok_register_world. }
  assert (Hset : dict_get_default p (active_connections (tick w1))
                 = members ++ [(u, ws)]).
  { simpl. rewrite default_add. now apply set_new. }
  assert (Hfailed : failed_of E (Some u)
                      (dict_get_default p (active_connections (tick w1)))
                    = failed).
  { rewrite Hset. unfold failed_of. now rewrite recipients_new. }
  split; [reflexivity|]. split; [|split; [reflexivity|]].
  - apply new_events_app. unfold connect_world, announced_world. simpl.
    fold w1. rewrite broadcast_world_trace, Hset. unfold sends_of.
    rewrite recipients_new by assumption. simpl.
    rewrite <- !app_assoc. reflexivity.
  - unfold snapshot_message. rewrite listed_ids_active_users.
    unfold announced_world. fold w1.
    rewrite broadcast_world_sessions by assumption.
    rewrite Hfailed.
    rewrite keys_fold_pop by (apply default_ok, world_ok_sessions, Hw1).
    simpl. rewrite default_add.
    pose proof (world_ok_same_keys p w Hw) as Hkeys.
    rewrite set_new by (rewrite Hkeys; assumption).
    unfold PyDict.keys at 1. rewrite map_app. simpl.
    fold (PyDict.keys (dict_get_default p (user_sessions w))).
    rewrite Hkeys. fold members. unfold members_of in Hnew. fold members in Hnew.
    rewrite filter_filter, filter_app. simpl.
    rewrite String.eqb_refl, andb_false_r, app_nil_r.
    f_equal. apply filter_ext_in. intros x Hx.
    destruct (String.eqb_spec x u) as [->|_]; [contradiction|].
    now rewrite andb_true_r.
Qed.

(** C7. When a member not yet in the project joins it, the sockets of
    the members already there and its own accepting what is written to
    them: every earlier member receives [user_joined] for the new member
    exactly once (the log holds one delivered send per earlier member, in
    registry order, and none to anybody else); the new member then
    receives exactly one [active_users] envelope, which lists exactly the
    earlier members and not the new one. In an empty project nobody is
    sent [user_joined] and the listing is empty. *)
Theorem C7_join_announcement_and_snapshot
    (E : Env) (ws : websocket) (p u : string) (info : dict json)
    (w : world) :
  world_ok w -> u <> "" -> ~ In u (members_of p w) ->
  let members := dict_get_default p (active_connections w) in
  (forall m, In m members -> send_ok E (snd m) = true) ->
  send_ok E ws = true ->
  let r := connect E ws p u info w in
  exists now snapshot,
    fst r = Ret tt
    /\ new_events w (snd r)
       = Accepted ws
         :: map (fun m => Sent (snd m) (user_joined_message u info now) true)
                members
         ++ [Sent ws snapshot true]
    /\ PyDict.get "type" (user_joined_message u info now)
       = Some (JStr "user_joined")
    /\ PyDict.get "user_id" (user_joined_message u info now) = Some (JStr u)
    /\ PyDict.get "type" snapshot = Some (JStr "active_users")
    /\ listed_ids snapshot = map JStr (members_of p w)
    /\ ~ In (JStr u) (listed_ids snapshot)
    /\ (members = [] ->
        new_events w (snd r) = [Accepted ws; Sent ws snapshot true]
        /\ listed_ids snapshot = []).
Proof.
  intros Hw Hu Hnew members Hsend Hws r.
  destruct (connect_announcement E ws p u info w Hw Hu Hnew)
    as [now [snapshot [Hret [Hev [Hty Hlist]]]]].
  fold members in Hev, Hlist. fold r in Hret, Hev.
  assert (Hfailed :
    map fst (filter (fun m => negb (send_ok E (snd m))) members) = []).
  { rewrite filter_none; [reflexivity|].
    intros m Hm. now rewrite (Hsend m Hm). }
  rewrite Hfailed in Hlist. simpl in Hlist.
  rewrite filter_all in Hlist by (intros; reflexivity).
  fold (members_of p w) in Hlist.
  assert (Hmap :
    map (fun m => Sent (snd m) (user_joined_message u info now)
                       (send_ok E (snd m))) members
    = map (fun m => Sent (snd m) (user_joined_message u info now) true)
          members).
  { apply map_ext_in. intros m Hm. now rewrite (Hsend m Hm). }
  rewrite Hmap, Hws in Hev.
  exists now, snapshot.
  split; [exact Hret|]. split; [exact Hev|].
  split; [reflexivity|]. split; [reflexivity|].
  split; [exact Hty|]. split; [exact Hlist|]. split.
  - rewrite Hlist, in_map_iff. intros [x [Hx Hin]].
    inversion Hx; subst. contradiction.
  - intros Hm. rewrite Hev, Hlist. unfold members_of. fold members.
    rewrite Hm. split; reflexivity.
Qed.

(** [u3] joins [u1] and [u2]. *)
Lemma C7_join_announcement_and_snapshot_witness :
  let E := Scenario.env [] true in
  let w := Scenario.two_members in
  let members := dict_get_default "p1" (active_connections w) in
  let info := Scenario.info "u3" in
  let r := connect E 3 "p1" "u3" info w in
  members = [("u1", 1); ("u2", 2)]
  /\ exists now snapshot,
       fst r = Ret tt
       /\ new_events w (snd r)
          = Accepted 3
            :: map (fun m => Sent (snd m) (user_joined_message "u3" info now)
                                  true)
                   members
            ++ [Sent 3 snapshot true]
       /\ PyDict.get "type" (user_joined_message "u3" info now)
          = Some (JStr "user_joined")
       /\ PyDict.get "user_id" (user_joined_message "u3" info now)
          = Some (JStr "u3")
       /\ PyDict.get "type" snapshot = Some (JStr "active_users")
       /\ listed_ids snapshot = map JStr (members_of "p1" w)
       /\ ~ In (JStr "u3") (listed_ids snapshot)
       /\ (members = [] ->
           new_events w (snd r) = [Accepted 3; Sent 3 snapshot true]
           /\ listed_ids snapshot = []).
Proof.
  split; [reflexivity|].
  apply (C7_join_announcement_and_snapshot (Scenario.env [] true) 3 "p1"
           "u3" (Scenario.info "u3") Scenario.two_members).
  - apply Scenario_two_members_ok.
  - discriminate.
  - vm_compute. intros [H|[H|[]]]; discriminate.
  - vm_compute. intros m [H|[H|[]]]; subst; reflexivity.
  - reflexivity.
Defined.

(** A send that fails changes the picture: with the socket of [u1]
    broken, [u1] is deregistered by the announcement and the snapshot
    that [u3] gets lists [u2] alone. *)
Example join_with_a_dead_socket :
  let E := Scenario.env [1] true in
  let w := Scenario.two_members in
  let evs := new_events w (snd (connect E 3 "p1" "u3" (Scenario.info "u3") w)) in
  members_of "p1" w = ["u1"; "u2"]
  /\ filter (fun e => match e with Sent 1 _ true => true | _ => false end) evs
     = []
  /\ map listed_ids (sends_to 3 evs) = [[JStr "u2"]].
Proof. vm_compute. repeat split. Qed.

Section LoopExit.
Variable E : Env.

Lemma completes_handle_frame ws p u info data :
  completes (handle_frame E ws p u info data).
Proof.
  intros w H.
  pose proof (handle_frame_returns_live E ws p u info data w) as Hf.
  cbv zeta in Hf. now rewrite H in Hf.
Qed.

(** The loop has no [break] and no [return]. *)
Lemma receive_loop_never_returns ws p u info script :
  forall w a, fst (receive_loop E ws p u info script w) <> Ret a.
Proof.
  induction script as [|i rest IH]; intros w a; simpl; [discriminate|].
  unfold bind at 1. destruct i as [data|e]; simpl; [|discriminate].
  unfold bind at 1.
  destruct (handle_frame E ws p u info data w) as [[[]|e|] w'];
    simpl; [apply IH | discriminate | discriminate].
Qed.

(** Once [receive_text] raises, at the latest, the loop is left. *)
Lemma receive_loop_exits ws p u info script :
  (exists e, In (RecvRaises e) script) ->
  forall w, exists e, fst (receive_loop E ws p u info script w) = Raise e.
Proof.
  induction script as [|i rest IH]; intros [e0 Hin] w; simpl in *;
    [contradiction|].
  unfold bind at 1. destruct i as [data|e]; simpl; [|now exists e].
  unfold bind at 1.
  pose proof (completes_handle_frame ws p u info data w) as Hc.
  destruct (handle_frame E ws p u info data w) as [[[]|e|] w'];
    simpl in *; [|now exists e | congruence].
  apply IH. exists e0. destruct Hin as [Hin|Hin]; [discriminate | assumption].
Qed.

(** After [disconnect] the member is in neither table. *)
Lemma disconnect_world_gone p u w :
  world_ok w ->
  ~ In u (members_of p (disconnect_world E p u w))
  /\ PyDict.get u (dict_get_default p (user_sessions (disconnect_world E p u w)))
     = None.
Proof.
  intros Hw.
  pose proof (world_ok_disconnect_world E p u w Hw) as Hd.
  assert (Hgone : PyDict.get u
            (dict_get_default p (user_sessions (disconnect_world E p u w)))
          = None).
  { simpl. rewrite default_drop by apply (world_ok_sessions w Hw).
    apply PyDictFacts.get_pop_eq. apply default_ok.
    now apply world_ok_sessions. }
  split; [|exact Hgone].
  rewrite <- world_ok_same_keys by assumption.
  now apply PyDictFacts.get_none_not_in.
Qed.

End LoopExit.

(** C9, evaluated. [u1] and [u2] are in the project. When the loop of
    [u1] is left by a fault of the frame handling that involves no
    rollback (a frame that is a JSON array), the [finally] clause
    deregisters [u1] and schedules the [user_left] broadcast, which, once
    run, writes [user_left] to [u2]. When the loop is left because the
    database refused an edit (its [action] is [null]), the rollback has
    expired [user]: [str(user.id)] raises in the broadcast arguments, and
    raises again in the [finally] clause before [disconnect] is called,
    so [u1] stays in both tables, no [user_left] is scheduled and [u2] is
    never told; the endpoint closes the socket with 4500. *)
Theorem C9_cleanup_skipped_after_refused_edit :
  let E := Deployment.env [] true true in
  let w := Scenario.two_members in
  let info := Scenario.info "u1" in
  let faulty := joined E 1 "p1" "u1" info [Frame "[1]"] w in
  let script := [Frame "null-action-edit"; RecvRaises WebSocketDisconnect] in
  let l := receive_loop E 1 "p1" "u1" info script w in
  let r := joined E 1 "p1" "u1" info script w in
  members_of "p1" w = ["u1"; "u2"]
  /\ fst faulty = Raise AttributeError
  /\ members_of "p1" (snd faulty) = ["u2"]
  /\ map t_exclude (tasks (snd faulty)) = [Some "u1"]
  /\ map (PyDict.get "type")
         (sends_to 2 (trace (snd (run_next_task E (snd faulty)))))
     = [Some (JStr "user_left")]
  /\ commit_ok E (edit_row "p1" "u1" Deployment.null_action_edit) = false
  /\ fst l = Raise MissingGreenlet
  /\ fst r = Raise MissingGreenlet
  /\ members_of "p1" (snd r) = ["u1"; "u2"]
  /\ PyDict.keys (dict_get_default "p1" (user_sessions (snd r)))
     = ["u1"; "u2"]
  /\ tasks (snd r) = []
  /\ sends_to 2 (trace (snd (run_next_task E (snd r)))) = []
  /\ closes (trace (snd (project_websocket E 1 "p1" "token-u1" script
                           init_world)))
     = [(4500%Z, "Internal server error")].
Proof. vm_compute. repeat split. Qed.

(* ===================================================================== *)
(** * Further properties of the receive loop *)
(* ===================================================================== *)


(** X1. A frame on which [json.loads] raises [JSONDecodeError] is
    answered with one [error] envelope ("Invalid JSON format") written to
    the sender's socket and nothing else: no table changes (the sender's
    last activity is not refreshed either), no row, no task; the loop
    goes on with the next frame. A frame on which [json.loads] raises
    anything else is not answered at all: the exception leaves the turn
    with the world untouched, the remaining frames are not read, and the
    member is deregistered as by [disconnect]. *)
Theorem X1_malformed_frame_answered_to_sender
    (E : Env) (ws : websocket) (p u : string) (info : dict json)
    (data : string) (rest : list inbound) (w : world) :
  json_loads E data = None ->
  let r := handle_frame E ws p u info data w in
  (json_error E data = JSONDecodeError ->
   fst r = Ret tt
   /\ new_events w (snd r)
      = [Sent ws (error_message (utcnow E (clock w))) (send_ok E ws)]
   /\ active_connections (snd r) = active_connections w
   /\ user_sessions (snd r) = user_sessions w
   /\ edit_history (snd r) = edit_history w
   /\ tasks (snd r) = tasks w
   /\ receive_loop E ws p u info (Frame data :: rest) w
      = receive_loop E ws p u info rest (snd r))
  /\ (is_JSONDecodeError (json_error E data) = false ->
      r = (Raise (json_error E data), w)
      /\ joined E ws p u info (Frame data :: rest) w
         = (if is_WebSocketDisconnect (json_error E data) then Ret tt
            else Raise (json_error E data),
            snd (disconnect E p u w))).
Proof.
  intros HL r. subst r. split.
  - intros HE.
    rewrite receive_loop_step by (now rewrite handle_frame_malformed).
    rewrite handle_frame_malformed by assumption. simpl.
    repeat split. now apply new_events_app.
  - intros HE.
    assert (Hf := handle_frame_undecodable E ws p u info data w HL HE).
    split; [exact Hf|].
    assert (Hl : receive_loop E ws p u info (Frame data :: rest) w
                 = (Raise (json_error E data), w)).
    { rewrite (receive_loop_raise E ws p u info data rest w
                 (json_error E data)) by (now rewrite Hf).
      now rewrite Hf. }
    rewrite (joined_exit_live E ws p u info _ w (json_error E data))
      by (now rewrite Hl).
    rewrite Hl, disconnect_eq. reflexivity.
Qed.

(** Text that is not JSON, and an integer literal of too many digits. *)
Lemma X1_malformed_frame_answered_to_sender_witness :
  let E := Deployment.env [] true true in
  let w := Scenario.two_members in
  let info := Scenario.info "u1" in
  let r := handle_frame E 1 "p1" "u1" info "{oops" w in
  (fst r = Ret tt
   /\ new_events w (snd r)
      = [Sent 1 (error_message (utcnow E (clock w))) (send_ok E 1)]
   /\ active_connections (snd r) = active_connections w
   /\ user_sessions (snd r) = user_sessions w
   /\ edit_history (snd r) = edit_history w
   /\ tasks (snd r) = tasks w
   /\ receive_loop E 1 "p1" "u1" info [Frame "{oops"; Frame "ping"] w
      = receive_loop E 1 "p1" "u1" info [Frame "ping"] (snd r))
  /\ (handle_frame E 1 "p1" "u1" info "huge-integer" w = (Raise ValueError, w)
      /\ joined E 1 "p1" "u1" info [Frame "huge-integer"; Frame "ping"] w
         = (if is_WebSocketDisconnect ValueError then Ret tt
            else Raise ValueError,
            snd (disconnect E "p1" "u1" w))).
Proof.
  split.
  - apply (X1_malformed_frame_answered_to_sender
             (Deployment.env [] true true) 1 "p1" "u1" (Scenario.info "u1")
             "{oops" [Frame "ping"] Scenario.two_members);
      reflexivity.
  - apply (X1_malformed_frame_answered_to_sender
             (Deployment.env [] true true) 1 "p1" "u1" (Scenario.info "u1")
             "huge-integer" [Frame "ping"] Scenario.two_members);
      reflexivity.
Defined.

(** X2. A [ping] is answered with one [pong] written to the requester's
    socket only; nobody else is written to, nobody is deregistered, no
    row is appended and no task is scheduled; the loop goes on. *)
Theorem X2_ping_answered_with_pong
    (E : Env) (ws : websocket) (p u : string) (info : dict json)
    (data : string) (message : dict json) (rest : list inbound) (w : world) :
  json_loads E data = Some (JDict message) ->
  get_or "type" JNull message = JStr "ping" ->
  let r := handle_frame E ws p u info data w in
  fst r = Ret tt
  /\ (exists n, clock w <= n < clock (snd r)
        /\ new_events w (snd r)
           = [Sent ws (pong_message (utcnow E n)) (send_ok E ws)])
  /\ active_connections (snd r) = active_connections w
  /\ erase (user_sessions (snd r)) = erase (user_sessions w)
  /\ edit_history (snd r) = edit_history w
  /\ tasks (snd r) = tasks w
  /\ receive_loop E ws p u info (Frame data :: rest) w
     = receive_loop E ws p u info rest (snd r).
Proof.
  intros HL HT r. subst r.
  assert (Hf := handle_frame_ping E ws p u info data message w HL).
  rewrite HT in Hf. specialize (Hf eq_refl eq_refl eq_refl).
  rewrite receive_loop_step by (now rewrite Hf).
  rewrite Hf. simpl.
  pose proof (touch_world_clock E p u w) as Hck.
  split; [reflexivity|]. split.
  { exists (clock (touch_world E p u w)). split; [lia|].
    apply new_events_app. simpl. now rewrite touch_world_trace. }
  split; [apply touch_world_connections|]. split.
  { unfold touch_world.
    destruct (PyDict.get p (user_sessions w)) as [ss|] eqn:Gp; [|reflexivity].
    destruct (PyDict.get u ss) as [s|] eqn:Gu; [|reflexivity].
    simpl. eapply erase_touch; eauto. }
  split; [apply touch_world_edit_history|].
  split; [apply touch_world_tasks | reflexivity].
Qed.

Lemma X2_ping_answered_with_pong_witness :
  let E := Scenario.env [] true in
  let w := Scenario.two_members in
  let r := handle_frame E 1 "p1" "u1" (Scenario.info "u1") "ping" w in
  fst r = Ret tt
  /\ (exists n, clock w <= n < clock (snd r)
        /\ new_events w (snd r)
           = [Sent 1 (pong_message (utcnow E n)) (send_ok E 1)])
  /\ active_connections (snd r) = active_connections w
  /\ erase (user_sessions (snd r)) = erase (user_sessions w)
  /\ edit_history (snd r) = edit_history w
  /\ tasks (snd r) = tasks w
  /\ receive_loop E 1 "p1" "u1" (Scenario.info "u1")
       [Frame "ping"; Frame "cursor"] w
     = receive_loop E 1 "p1" "u1" (Scenario.info "u1") [Frame "cursor"] (snd r).
Proof.
  apply (X2_ping_answered_with_pong (Scenario.env [] true) 1 "p1" "u1"
           (Scenario.info "u1") "ping" [("type", JStr "ping")]
           [Frame "cursor"] Scenario.two_members).
  - reflexivity.
  - reflexivity.
Defined.

(** X3. A JSON object whose [type] is none of [edit], [cursor], [ping]
    (or is missing) causes no write to any socket, no row and no task,
    and deregisters nobody; the loop goes on. *)
Theorem X3_unrecognised_type_is_ignored
    (E : Env) (ws : websocket) (p u : string) (info : dict json)
    (data : string) (message : dict json) (rest : list inbound) (w : world) :
  json_loads E data = Some (JDict message) ->
  json_is_str "edit" (get_or "type" JNull message) = false ->
  json_is_str "cursor" (get_or "type" JNull message) = false ->
  json_is_str "ping" (get_or "type" JNull message) = false ->
  let r := handle_frame E ws p u info data w in
  fst r = Ret tt
  /\ new_events w (snd r) = []
  /\ active_connections (snd r) = active_connections w
  /\ erase (user_sessions (snd r)) = erase (user_sessions w)
  /\ edit_history (snd r) = edit_history w
  /\ tasks (snd r) = tasks w
  /\ receive_loop E ws p u info (Frame data :: rest) w
     = receive_loop E ws p u info rest (snd r).
Proof.
  intros HL H1 H2 H3 r. subst r.
  assert (Hf := handle_frame_other E ws p u info data message w HL H1 H2 H3).
  rewrite receive_loop_step by (now rewrite Hf).
  rewrite Hf. simpl.
  split; [reflexivity|]. split.
  { apply new_events_app. now rewrite touch_world_trace, app_nil_r. }
  split; [apply touch_world_connections|]. split.
  { unfold touch_world.
    destruct (PyDict.get p (user_sessions w)) as [ss|] eqn:Gp; [|reflexivity].
    destruct (PyDict.get u ss) as [s|] eqn:Gu; [|reflexivity].
    simpl. eapply erase_touch; eauto. }
  split; [apply touch_world_edit_history|].
  split; [apply touch_world_tasks | reflexivity].
Qed.

Lemma X3_unrecognised_type_is_ignored_witness :
  let E := Deployment.env [] true true in
  let w := Scenario.two_members in
  let r := handle_frame E 1 "p1" "u1" (Scenario.info "u1") "untyped" w in
  fst r = Ret tt
  /\ new_events w (snd r) = []
  /\ active_connections (snd r) = active_connections w
  /\ erase (user_sessions (snd r)) = erase (user_sessions w)
  /\ edit_history (snd r) = edit_history w
  /\ tasks (snd r) = tasks w
  /\ receive_loop E 1 "p1" "u1" (Scenario.info "u1")
       [Frame "untyped"; Frame "ping"] w
     = receive_loop E 1 "p1" "u1" (Scenario.info "u1") [Frame "ping"] (snd r).
Proof.
  apply (X3_unrecognised_type_is_ignored (Deployment.env [] true true)
           1 "p1" "u1" (Scenario.info "u1") "untyped" [("x", JNum 1)]
           [Frame "ping"] Scenario.two_members).
  - reflexivity.
  - reflexivity.
  - reflexivity.
  - reflexivity.
Defined.

(** X4. A frame that is valid JSON but not an object (an array, a number,
    a string, [null]) makes [message.get] raise: the sender gets no
    [error] envelope, the remaining frames are not read, the loop is left
    by [AttributeError] and the member is deregistered as by
    [disconnect]. *)
Theorem X4_non_object_frame_ends_the_session
    (E : Env) (ws : websocket) (p u : string) (info : dict json)
    (data : string) (j : json) (rest : list inbound) (w : world) :
  json_loads E data = Some j ->
  is_object j = false ->
  let r := joined E ws p u info (Frame data :: rest) w in
  fst r = Raise AttributeError
  /\ snd r = snd (disconnect E p u w)
  /\ new_events w (snd r) = [].
Proof.
  intros HL HO r. subst r.
  assert (Hf := handle_frame_not_object E ws p u info data j w HL HO).
  assert (Hl : receive_loop E ws p u info (Frame data :: rest) w
               = (Raise AttributeError, w)).
  { rewrite (receive_loop_raise E ws p u info data rest w AttributeError)
      by (now rewrite Hf). now rewrite Hf. }
  rewrite (joined_exit_live E ws p u info _ w AttributeError)
    by (now rewrite Hl).
  rewrite Hl, disconnect_eq. simpl.
  repeat split. apply new_events_app. simpl. now rewrite app_nil_r.
Qed.

Lemma X4_non_object_frame_ends_the_session_witness :
  let E := Scenario.env [] true in
  let w := Scenario.two_members in
  let r := joined E 1 "p1" "u1" (Scenario.info "u1")
                  [Frame "[1]"; Frame "ping"] w in
  fst r = Raise AttributeError
  /\ snd r = snd (disconnect E "p1" "u1" w)
  /\ new_events w (snd r) = [].
Proof.
  apply (X4_non_object_frame_ends_the_session (Scenario.env [] true) 1
           "p1" "u1" (Scenario.info "u1") "[1]" (JList [JNum 1])
           [Frame "ping"] Scenario.two_members).
  - reflexivity.
  - reflexivity.
Defined.

(** X5. A [cursor] envelope is never persisted: no row is appended and
    the database is not touched; the stamped envelope is written once to
    the socket of every member other than the sender, in registry order,
    and the loop goes on. *)
Theorem X5_cursor_is_broadcast_only
    (E : Env) (ws : websocket) (p u : string) (info : dict json)
    (data : string) (message : dict json) (rest : list inbound) (w : world) :
  u <> "" ->
  json_loads E data = Some (JDict message) ->
  get_or "type" JNull message = JStr "cursor" ->
  let r := handle_frame E ws p u info data w in
  fst r = Ret tt
  /\ edit_history (snd r) = edit_history w
  /\ (exists n,
        clock w <= n < clock (snd r)
        /\ new_events w (snd r)
           = map (fun m => Sent (snd m)
                             (stamped message u info (utcnow E n))
                             (send_ok E (snd m)))
                 (filter (fun m => negb (String.eqb (fst m) u))
                         (dict_get_default p (active_connections w))))
  /\ receive_loop E ws p u info (Frame data :: rest) w
     = receive_loop E ws p u info rest (snd r).
Proof.
  intros Hu HL HT r. subst r.
  assert (Hf := handle_frame_cursor E ws p u info data message w HL).
  rewrite HT in Hf. specialize (Hf eq_refl eq_refl).
  rewrite receive_loop_step by (now rewrite Hf).
  rewrite Hf. simpl.
  pose proof (touch_world_clock E p u w) as Hck.
  split; [reflexivity|]. split.
  { unfold fan_out. rewrite broadcast_world_edit_history. simpl.
    apply touch_world_edit_history. }
  split; [|reflexivity].
  exists (clock (touch_world E p u w)). split.
  - pose proof (broadcast_world_clock E p
      (stamped message u info (utcnow E (clock (touch_world E p u w))))
      (Some u) (tick (touch_world E p u w))).
    unfold fan_out. simpl in *. lia.
  - apply new_events_app. rewrite fan_out_trace, touch_world_trace.
    unfold sends_of. rewrite recipients_some by assumption.
    now rewrite touch_world_connections.
Qed.

Lemma X5_cursor_is_broadcast_only_witness :
  let E := Scenario.env [] true in
  let w := Scenario.three_members in
  let r := handle_frame E 1 "p1" "u1" (Scenario.info "u1") "cursor" w in
  fst r = Ret tt
  /\ edit_history (snd r) = edit_history w
  /\ (exists n,
        clock w <= n < clock (snd r)
        /\ new_events w (snd r)
           = map (fun m => Sent (snd m)
                             (stamped Scenario.cursor_move "u1"
                                (Scenario.info "u1") (utcnow E n))
                             (send_ok E (snd m)))
                 (filter (fun m => negb (String.eqb (fst m) "u1"))
                         (dict_get_default "p1" (active_connections w))))
  /\ receive_loop E 1 "p1" "u1" (Scenario.info "u1")
       [Frame "cursor"; Frame "ping"] w
     = receive_loop E 1 "p1" "u1" (Scenario.info "u1") [Frame "ping"] (snd r).
Proof.
  apply (X5_cursor_is_broadcast_only (Scenario.env [] true) 1 "p1" "u1"
           (Scenario.info "u1") "cursor" Scenario.cursor_move
           [Frame "ping"] Scenario.three_members).
  - discriminate.
  - reflexivity.
  - reflexivity.
Defined.

(** X6. The activity update touches one field of one session: for a
    registered member it sets [last_activity] to the clock reading and
    keeps [user_info] and [connected_at]; every other session, the
    connections, the log and the tasks are as before; for a member that
    is not registered it does nothing at all, not even read the clock. *)
Theorem X6_touch_refreshes_last_activity_only
    (E : Env) (p u : string) (w : world) :
  let r := touch E p u w in
  fst r = Ret tt
  /\ match PyDict.get u (dict_get_default p (user_sessions w)) with
     | Some s =>
         PyDict.get u (dict_get_default p (user_sessions (snd r)))
         = Some (mkSession (s_user_info s) (s_connected_at s)
                           (utcnow E (clock w)))
         /\ (forall q v, q <> p \/ v <> u ->
               PyDict.get v (dict_get_default q (user_sessions (snd r)))
               = PyDict.get v (dict_get_default q (user_sessions w)))
         /\ active_connections (snd r) = active_connections w
         /\ trace (snd r) = trace w
         /\ tasks (snd r) = tasks w
     | None => snd r = w
     end.
Proof.
  intros r. subst r. rewrite touch_eq. simpl. split; [reflexivity|].
  unfold touch_world, dict_get_default.
  destruct (PyDict.get p (user_sessions w)) as [ss|] eqn:Gp; simpl;
    [|reflexivity].
  destruct (PyDict.get u ss) as [s|] eqn:Gu; [|reflexivity]. simpl.
  rewrite PyDictFacts.get_set_eq.
  split; [apply PyDictFacts.get_set_eq|].
  split; [|repeat split].
  intros q v Hqv.
  destruct (String.eqb_spec q p) as [->|Hq].
  - rewrite PyDictFacts.get_set_eq, Gp.
    destruct Hqv as [Hqv|Hqv]; [congruence|].
    apply PyDictFacts.get_set_neq. congruence.
  - rewrite PyDictFacts.get_set_neq by congruence. reflexivity.
Qed.

(** X7. An [edit] whose commit fails is fatal to the connection,
    whether the rollback goes through or fails too: an exception leaves
    the loop, nothing is broadcast, no row is appended, the remaining
    frames are not read; and since the rollback has expired [user], the
    [finally] clause raises at [str(user.id)] before it calls
    [disconnect]: the member stays registered (only its last activity has
    changed) and no [user_left] is scheduled. *)
Theorem X7_refused_edit_ends_the_session_uncleaned
    (E : Env) (ws : websocket) (p u : string) (info : dict json)
    (data : string) (message : dict json) (rest : list inbound) (w : world) :
  json_loads E data = Some (JDict message) ->
  get_or "type" JNull message = JStr "edit" ->
  commit_ok E (edit_row p u message) = false ->
  let l := receive_loop E ws p u info (Frame data :: rest) w in
  let r := joined E ws p u info (Frame data :: rest) w in
  fst l = Raise (if rollback_ok E then MissingGreenlet else DatabaseError)
  /\ fst r = Raise MissingGreenlet
  /\ new_events w (snd r) = (if rollback_ok E then [RolledBack] else [])
  /\ edit_history (snd r) = edit_history w
  /\ active_connections (snd r) = active_connections w
  /\ user_sessions (snd r) = user_sessions (snd (touch E p u w))
  /\ tasks (snd r) = tasks w.
Proof.
  intros HL HT HC l r. subst l r.
  assert (Hf := handle_frame_edit_refused E ws p u info data message w HL).
  rewrite HT in Hf. specialize (Hf eq_refl HC).
  assert (Hl : receive_loop E ws p u info (Frame data :: rest) w
               = (Raise (if rollback_ok E then MissingGreenlet
                         else DatabaseError),
                  add_trace (if rollback_ok E then [RolledBack] else [])
                            (refused_world (touch_world E p u w)))).
  { rewrite (receive_loop_raise E ws p u info data rest w
               (if rollback_ok E then MissingGreenlet else DatabaseError))
      by (now rewrite Hf). now rewrite Hf. }
  rewrite (joined_exit_expired E ws p u info _ w
             (if rollback_ok E then MissingGreenlet else DatabaseError))
    by (rewrite Hl; simpl; rewrite ?touch_world_rollbacks; trivial; lia).
  rewrite Hl, touch_eq. simpl.
  split; [reflexivity|]. split; [reflexivity|]. split.
  { apply new_events_app. simpl. now rewrite touch_world_trace. }
  split; [apply touch_world_edit_history|].
  split; [apply touch_world_connections|].
  split; [reflexivity | apply touch_world_tasks].
Qed.

(** The database refuses the row and the rollback fails too. *)
Lemma X7_refused_edit_ends_the_session_uncleaned_witness :
  let E := Deployment.env [] true false in
  let w := Scenario.two_members in
  let script := [Frame "null-action-edit"; Frame "ping"] in
  let l := receive_loop E 1 "p1" "u1" (Scenario.info "u1") script w in
  let r := joined E 1 "p1" "u1" (Scenario.info "u1") script w in
  members_of "p1" (snd r) = ["u1"; "u2"]
  /\ fst l = Raise (if rollback_ok E then MissingGreenlet else DatabaseError)
  /\ fst r = Raise MissingGreenlet
  /\ new_events w (snd r) = (if rollback_ok E then [RolledBack] else [])
  /\ edit_history (snd r) = edit_history w
  /\ active_connections (snd r) = active_connections w
  /\ user_sessions (snd r) = user_sessions (snd (touch E "p1" "u1" w))
  /\ tasks (snd r) = tasks w.
Proof.
  split; [vm_compute; reflexivity|].
  apply (X7_refused_edit_ends_the_session_uncleaned
           (Deployment.env [] true false)
           1 "p1" "u1" (Scenario.info "u1") "null-action-edit"
           Deployment.null_action_edit [Frame "ping"] Scenario.two_members).
  - reflexivity.
  - reflexivity.
  - reflexivity.
Defined.

(* ===================================================================== *)
(** * Tokens and authentication *)
(* ===================================================================== *)

Lemma verify_token_decoded E token token_type payload w :
  jwt_decode E token = Some payload ->
  verify_token E token token_type w
  = match get_or "sub" JNull payload with
    | JNull => (Raise (HTTPException 401 "Invalid token"), w)
    | subject =>
        if json_is_str token_type (get_or "type" JNull payload)
        then (Ret subject, w)
        else (Raise (HTTPException 401 "Invalid token"), w)
    end.
Proof.
  intros H. unfold verify_token. rewrite H.
  destruct (get_or "sub" JNull payload); try reflexivity;
    destruct (json_is_str _ _); reflexivity.
Qed.



(** X9. [get_websocket_user] returns a user only when the token decodes
    to an access token whose subject parses as the id of a stored, active
    user, and then returns that user; in every other case it raises the
    same [HTTPException 401] "Authentication failed", whatever the cause;
    it never changes the world. *)
Theorem X9_websocket_user_is_authenticated_and_active
    (E : Env) (token : string) (w : world) :
  match get_websocket_user E token w with
  | (Ret user, w') =>
      w' = w
      /\ is_active user = true
      /\ exists payload subject uid,
           jwt_decode E token = Some payload
           /\ PyDict.get "sub" payload = Some (JStr subject)
           /\ PyDict.get "type" payload = Some (JStr "access")
           /\ uuid_parse E subject = Some uid
           /\ find_user E uid = Some user
  | (Raise e, w') =>
      w' = w /\ e = HTTPException 401 "Authentication failed"
  | (Suspended, _) => False
  end.
Proof.
  unfold get_websocket_user, try_except. unfold bind at 1.
  destruct (jwt_decode E token) as [payload|] eqn:HD;
    [|unfold verify_token; rewrite HD; simpl; now split].
  rewrite (verify_token_decoded E token "access" payload w HD).
  unfold get_or.
  destruct (PyDict.get "sub" payload) as [sub|] eqn:Hs; [|simpl; now split].
  destruct (json_is_str "access"
              match PyDict.get "type" payload with
              | Some v => v
              | None => JNull
              end) eqn:Hty;
    [|destruct sub; simpl; now split].
  assert (Ht : PyDict.get "type" payload = Some (JStr "access")).
  { destruct (PyDict.get "type" payload) as [[| | |t| |]|];
      try discriminate Hty.
    unfold json_is_str in Hty. apply String.eqb_eq in Hty. now subst. }
  clear Hty.
  destruct sub as [| | |s| |]; try (simpl; now split).
  unfold bind at 1, uuid_UUID.
  destruct (uuid_parse E s) as [uid|] eqn:Hu; [|simpl; now split].
  unfold ret at 1.
  destruct (find_user E uid) as [user|] eqn:Hf; [|simpl; now split].
  destruct (is_active user) eqn:Ha; [|simpl; now split].
  simpl. split; [reflexivity|]. split; [assumption|].
  exists payload, s, uid. repeat split; assumption.
Qed.

(* ===================================================================== *)
(** * Relations kept by a whole session *)
(* ===================================================================== *)

(** A reflexive and transitive relation that the elementary effects of a
    session of member [u] in project [p] respect is respected by the
    whole receive loop and its cleanup. *)
Section Stepwise.
Variable E : Env.
Variables p u : string.
Variable R : world -> world -> Prop.
Hypothesis R_refl : forall w, R w w.
Hypothesis R_trans : forall a b c, R a b -> R b c -> R a c.
Hypothesis R_tick : forall w, R w (tick w).
Hypothesis R_sent : forall ws m d w, R w (add_trace [Sent ws m d] w).
Hypothesis R_disconnect : forall v w, R w (disconnect_world E p v w).
Hypothesis R_touch : forall w, R w (touch_world E p u w).
Hypothesis R_commit :
  forall message w,
    commit_ok E (edit_row p u message) = true ->
    R w (committed_world (edit_row p u message) w).
Hypothesis R_rollback : forall w, R w (add_trace [RolledBack] w).
Hypothesis R_refused : forall w, R w (refused_world w).

Lemma respects_ret {A} (a : A) : respects R (ret a).
Proof. intros w. apply R_refl. Qed.

Lemma respects_raise {A} e : respects R (@raise A e).
Proof. intros w. apply R_refl. Qed.

Lemma respects_bind {A B} (m : M A) (k : A -> M B) :
  respects R m -> (forall a, respects R (k a)) -> respects R (bind m k).
Proof.
  intros Hm Hk w. unfold bind. specialize (Hm w).
  destruct (m w) as [[a|e|] w']; simpl in *; try assumption.
  eapply R_trans; [exact Hm | apply Hk].
Qed.

Lemma respects_try_except_only {A} c (m h : M A) :
  respects R m -> respects R h -> respects R (try_except_only c m h).
Proof.
  intros Hm Hh w. unfold try_except_only. specialize (Hm w).
  destruct (m w) as [[a|e|] w']; simpl in *; try assumption.
  destruct (c e); simpl; [|assumption].
  eapply R_trans; [exact Hm | apply Hh].
Qed.

Lemma respects_try_finally {A} (m : M A) c :
  respects R m -> respects R c -> respects R (try_finally m c).
Proof.
  intros Hm Hc w. unfold try_finally. specialize (Hm w).
  destruct (m w) as [[a|e|] w']; simpl in *; try assumption;
    (eapply R_trans; [exact Hm|]);
    apply respects_bind; auto using respects_ret, respects_raise.
Qed.

Lemma respects_utcnow : respects R (utcnow_isoformat E).
Proof. intros w. apply R_tick. Qed.

Lemma R_sends message (items : dict websocket) :
  forall w,
    R w (add_trace (map (fun m => Sent (snd m) message (send_ok E (snd m)))
                        items) w).
Proof.
  induction items as [|m items IH]; intros w; simpl.
  - rewrite add_trace_nil. apply R_refl.
  - change (Sent (snd m) message (send_ok E (snd m)) :: ?l)
      with ([Sent (snd m) message (send_ok E (snd m))] ++ l).
    rewrite <- add_trace_app. eapply R_trans; [apply R_sent | apply IH].
Qed.

Lemma R_cleanup failed :
  forall w, R w (fold_left (fun w v => disconnect_world E p v w) failed w).
Proof.
  induction failed as [|v failed IH]; intros w; simpl; [apply R_refl|].
  eapply R_trans; [apply R_disconnect | apply IH].
Qed.

Lemma R_broadcast_world message ex w :
  R w (broadcast_world E p message ex w).
Proof.
  unfold broadcast_world.
  destruct (PyDict.get p (active_connections w)); [|apply R_refl].
  eapply R_trans; [apply R_sends | apply R_cleanup].
Qed.

Lemma respects_broadcast message ex :
  respects R (broadcast_to_project E p message ex).
Proof. intros w. rewrite broadcast_eq. apply R_broadcast_world. Qed.

Lemma respects_send_personal_message ws message :
  respects R (send_personal_message E ws message).
Proof. intros w. rewrite send_personal_message_eq. apply R_sent. Qed.

Lemma respects_disconnect v : respects R (disconnect E p v).
Proof. intros w. rewrite disconnect_eq. apply R_disconnect. Qed.

Lemma respects_touch : respects R (touch E p u).
Proof. intros w. rewrite touch_eq. apply R_touch. Qed.

Lemma respects_handle_edit_message message :
  respects R (handle_edit_message E p u message).
Proof.
  intros w. rewrite handle_edit_message_eq.
  destruct (commit_ok E _) eqn:HC; [now apply R_commit|].
  destruct (rollback_ok E); simpl; [|apply R_refused].
  eapply R_trans; [apply R_refused | apply R_rollback].
Qed.

Lemma respects_gets {A} (f : world -> A) : respects R (gets f).
Proof. intros w. apply R_refl. Qed.

Lemma respects_str_user_id loaded v : respects R (str_user_id loaded v).
Proof.
  unfold str_user_id. apply respects_bind; [apply respects_gets|].
  intros n. destruct (Nat.eqb n loaded);
    auto using respects_ret, respects_raise.
Qed.

(** In a turn [str(user.id)] evaluates to the member's id or raises. *)
Lemma respects_with_user_id {A} loaded (k : string -> M A) :
  respects R (k u) -> respects R (bind (str_user_id loaded u) k).
Proof.
  intros Hk w. unfold bind at 1.
  destruct (Nat.eq_dec (rollbacks w) loaded) as [Hn|Hn].
  - rewrite str_user_id_live by assumption. apply Hk.
  - rewrite str_user_id_expired by assumption. apply R_refl.
Qed.

Lemma respects_handle_frame ws info data :
  respects R (handle_frame E ws p u info data).
Proof.
  unfold handle_frame. apply respects_bind; [apply respects_gets|].
  intros loaded. apply respects_try_except_only.
  - apply respects_bind.
    { unfold json_loads_or_raise.
      destruct (json_loads E data); auto using respects_ret, respects_raise. }
    intros message. apply respects_bind.
    { destruct message; auto using respects_ret, respects_raise. }
    intros fields. apply respects_bind; [apply respects_touch|].
    intros _.
    repeat match goal with
           | |- respects R (if ?b then _ else _) => destruct b
           | |- respects R (bind (str_user_id _ _) _) =>
               apply respects_with_user_id
           | |- respects R (bind _ _) => apply respects_bind; intros
           end;
      auto using respects_handle_edit_message, respects_utcnow,
                 respects_broadcast, respects_ret,
                 respects_send_personal_message.
  - repeat match goal with
           | |- respects R (bind (str_user_id _ _) _) =>
               apply respects_with_user_id
           | |- respects R (bind _ _) => apply respects_bind; intros
           end;
      auto using respects_utcnow, respects_send_personal_message.
Qed.

Lemma respects_receive_loop ws info script :
  respects R (receive_loop E ws p u info script).
Proof.
  induction script as [|i rest IH]; simpl; [intros w; apply R_refl|].
  apply respects_bind.
  { destruct i; simpl; auto using respects_ret, respects_raise. }
  intros data. apply respects_bind; [apply respects_handle_frame|].
  intros _. exact IH.
Qed.

Lemma respects_joined ws info script :
  respects R (joined E ws p u info script).
Proof.
  unfold joined. apply respects_bind; [apply respects_gets|].
  intros loaded. apply respects_try_finally.
  - apply respects_try_except_only; [apply respects_receive_loop|].
    apply respects_with_user_id, respects_ret.
  - apply respects_with_user_id, respects_disconnect.
Qed.

(** With the registration in [p] respected too, so is [connect]. *)
Hypothesis R_register :
  forall ws info w, R w (register_world E ws p u info w).

Lemma R_connect_world ws info w : R w (connect_world E ws p u info w).
Proof.
  unfold connect_world, announced_world.
  eapply R_trans; [apply R_register|].
  eapply R_trans; [apply R_tick|].
  eapply R_trans; [apply R_broadcast_world|].
  eapply R_trans; [apply R_tick | apply R_sent].
Qed.

Lemma respects_connect ws info : respects R (connect E ws p u info).
Proof. intros w. rewrite connect_eq. apply R_connect_world. Qed.

End Stepwise.

(** ** Instances *)

Lemma same_elsewhere_refl p w : same_elsewhere p w w.
Proof. intros q _. split; reflexivity. Qed.

Lemma same_elsewhere_trans p a b c :
  same_elsewhere p a b -> same_elsewhere p b c -> same_elsewhere p a c.
Proof.
  intros H1 H2 q Hq. destruct (H1 q Hq) as [A1 B1].
  destruct (H2 q Hq) as [A2 B2]. split; congruence.
Qed.

Lemma same_elsewhere_tables p w w' :
  active_connections w' = active_connections w ->
  user_sessions w' = user_sessions w ->
  same_elsewhere p w w'.
Proof. intros H1 H2 q _. now rewrite H1, H2. Qed.

Lemma get_drop_other {V} p q u (reg : dict (dict V)) :
  q <> p -> PyDict.get q (drop p u reg) = PyDict.get q reg.
Proof.
  intros Hq. unfold drop.
  destruct (PyDict.get p reg) as [m|]; [|reflexivity].
  destruct (PyDict.is_empty _).
  - apply PyDictFacts.get_pop_neq. congruence.
  - apply PyDictFacts.get_set_neq. congruence.
Qed.

Lemma get_add_other {V} p q u (v : V) (reg : dict (dict V)) :
  q <> p -> PyDict.get q (add p u v reg) = PyDict.get q reg.
Proof. intros Hq. unfold add. apply PyDictFacts.get_set_neq. congruence. Qed.

Lemma same_elsewhere_disconnect E p v w :
  same_elsewhere p w (disconnect_world E p v w).
Proof. intros q Hq. simpl. now rewrite !get_drop_other. Qed.

Lemma same_elsewhere_touch E p u w :
  same_elsewhere p w (touch_world E p u w).
Proof.
  intros q Hq. rewrite touch_world_connections. split; [reflexivity|].
  unfold touch_world.
  destruct (PyDict.get p (user_sessions w)) as [ss|]; [|reflexivity].
  destruct (PyDict.get u ss); [|reflexivity]. simpl.
  apply PyDictFacts.get_set_neq. congruence.
Qed.

Lemma same_elsewhere_register E ws p u info w :
  same_elsewhere p w (register_world E ws p u info w).
Proof. intros q Hq. simpl. now rewrite !get_add_other. Qed.

Section Logged.
Variable P : event -> Prop.

Lemma logged_refl w : logged P w w.
Proof. exists []. split; [now rewrite app_nil_r | constructor]. Qed.

Lemma logged_trans a b c : logged P a b -> logged P b c -> logged P a c.
Proof.
  intros [e1 [H1 F1]] [e2 [H2 F2]]. exists (e1 ++ e2). split.
  - now rewrite H2, H1, app_assoc.
  - apply Forall_app. now split.
Qed.

Lemma logged_same_trace w w' : trace w' = trace w -> logged P w w'.
Proof. intros H. exists []. split; [now rewrite H, app_nil_r | constructor]. Qed.

Lemma logged_event e w : P e -> logged P w (add_trace [e] w).
Proof. intros H. exists [e]. split; [reflexivity | now constructor]. Qed.

End Logged.

(** A joined session only writes to sockets and to the database. *)
Lemma joined_logged E ws p u info script w :
  logged session_event w (snd (joined E ws p u info script w)).
Proof.
  apply (respects_joined E p u (logged session_event)).
  - apply logged_refl.
  - apply logged_trans.
  - intros w0. now apply logged_same_trace.
  - intros ws0 m d w0. now apply logged_event.
  - intros v w0. now apply logged_same_trace.
  - intros w0. apply logged_same_trace, touch_world_trace.
  - intros message w0 _. exists [Committed (edit_row p u message)].
    split; [reflexivity | now repeat constructor].
  - intros w0. now apply logged_event.
  - intros w0. now apply logged_same_trace.
Qed.

Lemma receive_loop_logged E ws p u info script w :
  logged session_event w (snd (receive_loop E ws p u info script w)).
Proof.
  apply (respects_receive_loop E p u (logged session_event)).
  - apply logged_refl.
  - apply logged_trans.
  - intros w0. now apply logged_same_trace.
  - intros ws0 m d w0. now apply logged_event.
  - intros v w0. now apply logged_same_trace.
  - intros w0. apply logged_same_trace, touch_world_trace.
  - intros message w0 _. exists [Committed (edit_row p u message)].
    split; [reflexivity | now repeat constructor].
  - intros w0. now apply logged_event.
  - intros w0. now apply logged_same_trace.
Qed.

Section History.
Variable E : Env.

Lemma fan_out_edit_history p u info message w :
  edit_history (fan_out E p u info message w) = edit_history w.
Proof. unfold fan_out. now rewrite broadcast_world_edit_history. Qed.

(** What one turn of the loop does to the table, however it ends. *)
Lemma handle_frame_edit_history ws p u info data w :
  edit_history (snd (handle_frame E ws p u info data w))
  = edit_history w ++ accepted_edit E p u (Frame data).
Proof.
  unfold accepted_edit.
  destruct (json_loads E data) as [j|] eqn:HL.
  2: { destruct (is_JSONDecodeError (json_error E data)) eqn:HE.
       - assert (HE' : json_error E data = JSONDecodeError)
           by (destruct (json_error E data); try discriminate; reflexivity).
         rewrite handle_frame_malformed by assumption. simpl.
         now rewrite app_nil_r.
       - rewrite handle_frame_undecodable by assumption. simpl.
         now rewrite app_nil_r. }
  destruct (is_object j) eqn:HO.
  2: { rewrite (handle_frame_not_object E ws p u info data j w HL HO).
       destruct j; try discriminate; simpl; now rewrite app_nil_r. }
  destruct j as [| | | | |message]; try discriminate.
  destruct (json_is_str "edit" (get_or "type" JNull message)) eqn:H1; simpl.
  - destruct (commit_ok E (edit_row p u message)) eqn:HC.
    + rewrite (handle_frame_edit_committed E ws p u info data message w
                 HL H1 HC). simpl.
      rewrite fan_out_edit_history. simpl.
      now rewrite touch_world_edit_history.
    + rewrite (handle_frame_edit_refused E ws p u info data message w
                 HL H1 HC). simpl.
      now rewrite touch_world_edit_history, app_nil_r.
  - rewrite app_nil_r.
    destruct (json_is_str "cursor" (get_or "type" JNull message)) eqn:H2.
    + rewrite (handle_frame_cursor E ws p u info data message w HL H1 H2).
      simpl. rewrite fan_out_edit_history.
      apply touch_world_edit_history.
    + destruct (json_is_str "ping" (get_or "type" JNull message)) eqn:H3.
      * rewrite (handle_frame_ping E ws p u info data message w HL H1 H2 H3).
        simpl. apply touch_world_edit_history.
      * rewrite (handle_frame_other E ws p u info data message w HL H1 H2 H3).
        simpl. apply touch_world_edit_history.
Qed.

Lemma receive_loop_edit_history ws p u info script :
  forall w,
    exists k,
      k <= length script
      /\ edit_history (snd (receive_loop E ws p u info script w))
         = edit_history w ++ flat_map (accepted_edit E p u) (firstn k script).
Proof.
  induction script as [|i rest IH]; intros w.
  - exists 0. simpl. split; [lia | now rewrite app_nil_r].
  - destruct i as [data|e].
    + pose proof (handle_frame_edit_history ws p u info data w) as Hh.
      simpl. unfold bind at 1. simpl. unfold bind at 1.
      destruct (handle_frame E ws p u info data w) as [[[]|e|] w'] eqn:Hf;
        simpl in Hh.
      * destruct (IH w') as [k [Hk Heq]]. exists (S k).
        split; [simpl; lia|]. rewrite Heq, Hh. simpl.
        now rewrite <- app_assoc.
      * exists 1. split; [simpl; lia|]. simpl. now rewrite app_nil_r.
      * exists 1. split; [simpl; lia|]. simpl. now rewrite app_nil_r.
    + exists 0. split; [simpl; lia|]. simpl. now rewrite app_nil_r.
Qed.

Lemma joined_edit_history ws p u info script w :
  edit_history (snd (joined E ws p u info script w))
  = edit_history (snd (receive_loop E ws p u info script w)).
Proof.
  destruct (fst (receive_loop E ws p u info script w)) as [a|e|] eqn:Hl.
  - now apply receive_loop_never_returns in Hl.
  - destruct (Nat.eq_dec
                (rollbacks (snd (receive_loop E ws p u info script w)))
                (rollbacks w)) as [Hlive|Hexp].
    + now rewrite (joined_exit_live E ws p u info script w e Hl Hlive).
    + now rewrite (joined_exit_expired E ws p u info script w e Hl Hexp).
  - unfold joined. unfold bind at 1, gets at 1.
    unfold try_finally, try_except_only.
    destruct (receive_loop E ws p u info script w) as [[a|e|] w'];
      simpl in Hl; try discriminate. reflexivity.
Qed.

End History.

(** X10. The table of edits is append-only, in arrival order: whatever
    the frames and however the session ends, the table afterwards is the
    table before followed by one row per [edit] frame that the database
    accepted, among the frames read (a prefix of the input), in the order
    they came; each such row is authored by the session's member in the
    session's project. Nothing is changed or removed. *)
Theorem X10_edit_history_is_append_only
    (E : Env) (ws : websocket) (p u : string) (info : dict json)
    (script : list inbound) (w : world) :
  exists k,
    k <= length script
    /\ edit_history (snd (joined E ws p u info script w))
       = edit_history w ++ flat_map (accepted_edit E p u) (firstn k script)
    /\ Forall (fun row => eh_project_id row = p /\ eh_user_id row = u
                          /\ commit_ok E row = true)
              (flat_map (accepted_edit E p u) (firstn k script)).
Proof.
  destruct (receive_loop_edit_history E ws p u info script w) as [k [Hk Heq]].
  exists k. split; [exact Hk|]. split.
  - now rewrite joined_edit_history.
  - apply Forall_forall. intros row Hin.
    apply in_flat_map in Hin as [i [_ Hrow]].
    unfold accepted_edit in Hrow.
    destruct i as [data|e]; [|contradiction].
    destruct (json_loads E data) as [[| | | | |message]|]; try contradiction.
    destruct (json_is_str "edit" _); simpl in Hrow; [|contradiction].
    destruct (commit_ok E (edit_row p u message)) eqn:HC; [|contradiction].
    destruct Hrow as [<-|[]]. repeat split. exact HC.
Qed.

(* ===================================================================== *)
(** * The endpoint as a whole *)
(* ===================================================================== *)

Section EndpointFacts.
Variable E : Env.

Lemma get_websocket_user_ret token w user :
  fst (get_websocket_user E token w) = Ret user ->
  get_websocket_user E token w = (Ret user, w) /\ is_active user = true.
Proof.
  intros H.
  destruct (get_websocket_user_cases E token w) as [[user' [Hu Ha]]|Hr].
  - rewrite Hu in H. simpl in H. inversion H; subst. now split.
  - rewrite Hr in H. discriminate.
Qed.

Lemma connect_same_elsewhere ws p u info w :
  same_elsewhere p w (snd (connect E ws p u info w)).
Proof.
  apply (respects_connect E p u (same_elsewhere p)).
  - apply same_elsewhere_refl.
  - apply same_elsewhere_trans.
  - intros w0. now apply same_elsewhere_tables.
  - intros ws0 m d w0. now apply same_elsewhere_tables.
  - intros v w0. apply same_elsewhere_disconnect.
  - intros ws0 info0 w0. apply same_elsewhere_register.
Qed.

Lemma joined_same_elsewhere ws p u info script w :
  same_elsewhere p w (snd (joined E ws p u info script w)).
Proof.
  apply (respects_joined E p u (same_elsewhere p)).
  - apply same_elsewhere_refl.
  - apply same_elsewhere_trans.
  - intros w0. now apply same_elsewhere_tables.
  - intros ws0 m d w0. now apply same_elsewhere_tables.
  - intros v w0. apply same_elsewhere_disconnect.
  - intros w0. apply same_elsewhere_touch.
  - intros message w0 _. now apply same_elsewhere_tables.
  - intros w0. now apply same_elsewhere_tables.
  - intros w0. now apply same_elsewhere_tables.
Qed.

Lemma connect_logged ws p u info w :
  exists evs,
    trace (snd (connect E ws p u info w)) = trace w ++ Accepted ws :: evs
    /\ Forall session_event evs.
Proof.
  rewrite connect_eq. simpl. unfold announced_world.
  rewrite broadcast_world_trace. simpl.
  eexists. rewrite <- !app_assoc. simpl. split; [reflexivity|].
  apply Forall_app. split; [|now repeat constructor].
  unfold sends_of. apply Forall_forall. intros e He.
  apply in_map_iff in He as [m [<- _]]. exact I.
Qed.

(** The three ways the endpoint goes once the user is authenticated. *)
Lemma project_websocket_not_found ws p token script w user :
  fst (get_websocket_user E token w) = Ret user ->
  find_project E p = None ->
  project_websocket E ws p token script w
  = (Ret tt, add_trace [Closed ws 4404 "Project not found"] w).
Proof.
  intros Hu Hp. apply get_websocket_user_ret in Hu as [Hu _].
  unfold project_websocket, try_except at 1, bind at 1.
  rewrite Hu, Hp. reflexivity.
Qed.

Lemma project_websocket_forbidden ws p token script w user project :
  fst (get_websocket_user E token w) = Ret user ->
  find_project E p = Some project ->
  is_public project = false ->
  owner_id project <> u_id user ->
  project_websocket E ws p token script w
  = (Ret tt, add_trace [Closed ws 4403 "Project access denied"] w).
Proof.
  intros Hu Hp Hpub Hown. apply get_websocket_user_ret in Hu as [Hu _].
  unfold project_websocket, try_except at 1, bind at 1.
  rewrite Hu, Hp, Hpub.
  destruct (String.eqb_spec (owner_id project) (u_id user)); [contradiction|].
  reflexivity.
Qed.

Lemma project_websocket_authorized ws p token script w user project :
  fst (get_websocket_user E token w) = Ret user ->
  find_project E p = Some project ->
  is_public project = true \/ owner_id project = u_id user ->
  project_websocket E ws p token script w
  = match joined E ws p (u_id user) (user_info_of user) script
            (snd (connect E ws p (u_id user) (user_info_of user) w)) with
    | (Raise e, w') =>
        (Ret tt, add_trace [Closed ws 4500 "Internal server error"] w')
    | r => r
    end.
Proof.
  intros Hu Hp Hgate. apply get_websocket_user_ret in Hu as [Hu _].
  unfold project_websocket, try_except at 1, bind at 1.
  rewrite Hu, Hp.
  assert (Hg : negb (is_public project)
               && negb (String.eqb (owner_id project) (u_id user)) = false).
  { destruct Hgate as [Hg|Hg]; rewrite Hg; [reflexivity|].
    rewrite String.eqb_refl. apply andb_false_r. }
  rewrite Hg. unfold bind at 1. rewrite connect_eq. simpl.
  destruct (joined E ws p (u_id user) (user_info_of user) script _)
    as [[[]|e|] w']; reflexivity.
Qed.

End EndpointFacts.

(** X11. Projects are isolated from one another: a whole endpoint call
    for project [p] -- authentication, join, every frame of the session,
    the cleanup of members whose sends fail, the final deregistration --
    leaves the connections and the sessions registered under every other
    project exactly as they were. *)
Theorem X11_other_projects_are_untouched
    (E : Env) (ws : websocket) (p token : string) (script : list inbound)
    (w : world) (q : string) :
  q <> p ->
  let w' := snd (project_websocket E ws p token script w) in
  PyDict.get q (active_connections w') = PyDict.get q (active_connections w)
  /\ PyDict.get q (user_sessions w') = PyDict.get q (user_sessions w).
Proof.
  intros Hq w'. subst w'. revert q Hq.
  change (same_elsewhere p w (snd (project_websocket E ws p token script w))).
  destruct (get_websocket_user_cases E token w) as [[user [Hu Ha]]|Hr].
  - assert (Hu' : fst (get_websocket_user E token w) = Ret user)
      by now rewrite Hu.
    destruct (find_project E p) as [project|] eqn:Hp.
    + destruct (is_public project) eqn:Hpub;
        [|destruct (String.eqb_spec (owner_id project) (u_id user))
            as [Hown|Hown]].
      3: { rewrite (project_websocket_forbidden E ws p token script w user
                      project Hu' Hp Hpub Hown).
           now apply same_elsewhere_tables. }
      all: rewrite (project_websocket_authorized E ws p token script w user
                      project Hu' Hp) by auto.
      all: pose proof (joined_same_elsewhere E ws p (u_id user)
             (user_info_of user) script
             (snd (connect E ws p (u_id user) (user_info_of user) w))) as Hj.
      all: pose proof (connect_same_elsewhere E ws p (u_id user)
             (user_info_of user) w) as Hc.
      all: destruct (joined E ws p (u_id user) (user_info_of user) script _)
             as [[[]|e|] wj]; simpl in *.
      all: try (eapply same_elsewhere_trans; [exact Hc | exact Hj]).
      all: eapply same_elsewhere_trans;
             [exact Hc | eapply same_elsewhere_trans; [exact Hj|]];
             now apply same_elsewhere_tables.
    + rewrite (project_websocket_not_found E ws p token script w user Hu' Hp).
      now apply same_elsewhere_tables.
  - rewrite (project_websocket_auth_failure E ws p token script w
               (HTTPException 401 "Authentication failed"))
      by now rewrite Hr.
    now apply same_elsewhere_tables.
Qed.

Lemma X11_other_projects_are_untouched_witness :
  let E := Scenario.env [2] true in
  let w := two_projects in
  let w' := snd (project_websocket E 7 "p1" "token-u3"
                   [Frame "cursor"; Frame "[1]"] w) in
  PyDict.get "p2" (active_connections w) = Some [("u1", 5)]
  /\ members_of "p1" w = ["u1"; "u2"]
  /\ members_of "p1" w' = ["u1"]
  /\ PyDict.get "p2" (active_connections w')
     = PyDict.get "p2" (active_connections w)
  /\ PyDict.get "p2" (user_sessions w') = PyDict.get "p2" (user_sessions w).
Proof.
  split; [reflexivity|]. split; [reflexivity|].
  split; [vm_compute; reflexivity|].
  apply (X11_other_projects_are_untouched (Scenario.env [2] true) 7 "p1"
           "token-u3" [Frame "cursor"; Frame "[1]"] two_projects "p2").
  discriminate.
Defined.

Section EndpointEvents.
Variable E : Env.

(** What an authorized attempt adds to the log. *)
Lemma project_websocket_authorized_events ws p token script w user project :
  fst (get_websocket_user E token w) = Ret user ->
  find_project E p = Some project ->
  is_public project = true \/ owner_id project = u_id user ->
  let j := joined E ws p (u_id user) (user_info_of user) script
             (snd (connect E ws p (u_id user) (user_info_of user) w)) in
  exists evs,
    new_events w (snd (project_websocket E ws p token script w))
    = Accepted ws
      :: evs ++ match fst j with
                | Raise _ => [Closed ws 4500 "Internal server error"]
                | _ => []
                end
    /\ Forall session_event evs.
Proof.
  intros Hu Hp Hgate. cbv zeta.
  rewrite (project_websocket_authorized E ws p token script w user project
             Hu Hp Hgate).
  destruct (connect_logged E ws p (u_id user) (user_info_of user) w)
    as [evs1 [Hc F1]].
  destruct (joined_logged E ws p (u_id user) (user_info_of user) script
              (snd (connect E ws p (u_id user) (user_info_of user) w)))
    as [evs2 [Hj F2]].
  remember (joined E ws p (u_id user) (user_info_of user) script
              (snd (connect E ws p (u_id user) (user_info_of user) w)))
    as j eqn:Hjd.
  exists (evs1 ++ evs2).
  split; [|apply Forall_app; now split].
  apply new_events_app.
  destruct j as [[[]|e|] wj]; simpl in *; rewrite Hj, Hc;
    rewrite <- ?app_assoc; simpl; rewrite <- ?app_assoc;
    rewrite ?app_nil_r; reflexivity.
Qed.

End EndpointEvents.

(** X12. Nobody is accepted without being authorized: if an endpoint call
    logs the acceptance of a connection, it is the caller's connection,
    the token authenticated an active user, the project exists, and it
    is public or owned by that user. *)
Theorem X12_accepted_only_if_authorized
    (E : Env) (ws : websocket) (p token : string) (script : list inbound)
    (w : world) (ws' : websocket) :
  In (Accepted ws')
     (new_events w (snd (project_websocket E ws p token script w))) ->
  ws' = ws
  /\ exists user project,
       fst (get_websocket_user E token w) = Ret user
       /\ is_active user = true
       /\ find_project E p = Some project
       /\ (is_public project = true \/ owner_id project = u_id user).
Proof.
  intros Hin.
  destruct (get_websocket_user_cases E token w) as [[user [Hu Ha]]|Hr].
  - assert (Hu' : fst (get_websocket_user E token w) = Ret user)
      by now rewrite Hu.
    destruct (find_project E p) as [project|] eqn:Hp.
    + assert (Hcase : is_public project = true
                      \/ owner_id project = u_id user
                      \/ (is_public project = false
                          /\ owner_id project <> u_id user)).
      { destruct (is_public project); [now left|].
        destruct (String.eqb_spec (owner_id project) (u_id user)); auto. }
      destruct Hcase as [Hc|[Hc|[Hpub Hown]]].
      3: { rewrite (project_websocket_forbidden E ws p token script w user
                      project Hu' Hp Hpub Hown) in Hin.
           rewrite (new_events_app w _ [Closed ws 4403 "Project access denied"])
             in Hin by reflexivity.
           destruct Hin as [H|[]]. discriminate. }
      all: destruct (project_websocket_authorized_events E ws p token script
                       w user project Hu' Hp) as [evs [Hev F]]; [auto|].
      all: rewrite Hev in Hin.
      all: destruct Hin as [Heq|Hin];
             [inversion Heq; split; [reflexivity|];
              exists user, project; auto|].
      all: apply in_app_or in Hin as [Hin|Hin];
             [rewrite Forall_forall in F; destruct (F _ Hin)|].
      all: destruct (fst (joined _ _ _ _ _ _ _)); simpl in Hin;
             try contradiction; destruct Hin as [H|[]]; discriminate.
    + rewrite (project_websocket_not_found E ws p token script w user Hu' Hp)
        in Hin.
      rewrite (new_events_app w _ [Closed ws 4404 "Project not found"])
        in Hin by reflexivity.
      destruct Hin as [H|[]]. discriminate.
  - rewrite (project_websocket_auth_failure E ws p token script w
               (HTTPException 401 "Authentication failed")) in Hin
      by now rewrite Hr.
    rewrite (new_events_app w _ [Closed ws 4500 "Internal server error"])
      in Hin by reflexivity.
    destruct Hin as [H|[]]. discriminate.
Qed.

Lemma X12_accepted_only_if_authorized_witness :
  let E := Scenario.env [] true in
  let w := Scenario.two_members in
  In (Accepted 7)
     (new_events w (snd (project_websocket E 7 "p1" "token-u3"
                           [Frame "ping"] w)))
  /\ exists user project,
       fst (get_websocket_user E "token-u3" w) = Ret user
       /\ is_active user = true
       /\ find_project E "p1" = Some project
       /\ (is_public project = true \/ owner_id project = u_id user).
Proof.
  assert (H : In (Accepted 7)
     (new_events Scenario.two_members
        (snd (project_websocket (Scenario.env [] true) 7 "p1" "token-u3"
                [Frame "ping"] Scenario.two_members))))
    by (vm_compute; auto).
  split; [exact H|].
  exact (proj2 (X12_accepted_only_if_authorized (Scenario.env [] true) 7
                  "p1" "token-u3" [Frame "ping"] Scenario.two_members 7 H)).
Defined.

(** X13. An authenticated user asking for a project that does not exist
    is closed with 4404, and one asking for a private project of somebody
    else with 4403; in both cases the close is the only effect: nothing
    is accepted or registered, no frame is read, no row, no task. *)
Theorem X13_unauthorized_attempt_is_only_closed
    (E : Env) (ws : websocket) (p token : string) (script : list inbound)
    (w : world) (user : User) :
  fst (get_websocket_user E token w) = Ret user ->
  match find_project E p with
  | None =>
      project_websocket E ws p token script w
      = (Ret tt, add_trace [Closed ws 4404 "Project not found"] w)
  | Some project =>
      is_public project = false -> owner_id project <> u_id user ->
      project_websocket E ws p token script w
      = (Ret tt, add_trace [Closed ws 4403 "Project access denied"] w)
  end.
Proof.
  intros Hu. destruct (find_project E p) as [project|] eqn:Hp.
  - intros Hpub Hown. now apply (project_websocket_forbidden E) with user project.
  - now apply (project_websocket_not_found E) with user.
Qed.

Lemma X13_unauthorized_attempt_is_only_closed_witness :
  let E := Scenario.env [] true in
  let w := Scenario.two_members in
  project_websocket E 7 "p0" "token-u2" [Frame "ping"] w
  = (Ret tt, add_trace [Closed 7 4404 "Project not found"] w)
  /\ project_websocket E 7 "p2" "token-u2" [Frame "ping"] w
     = (Ret tt, add_trace [Closed 7 4403 "Project access denied"] w).
Proof.
  split.
  - apply (X13_unauthorized_attempt_is_only_closed (Scenario.env [] true) 7
             "p0" "token-u2" [Frame "ping"] Scenario.two_members
             (Scenario.user "u2")).
    reflexivity.
  - apply (X13_unauthorized_attempt_is_only_closed (Scenario.env [] true) 7
             "p2" "token-u2" [Frame "ping"] Scenario.two_members
             (Scenario.user "u2")); [reflexivity | reflexivity |].
    discriminate.
Defined.

(** X14. How an authorized session ends. Once the input makes
    [receive_text] raise, the call returns normally. The log of the call
    is the acceptance, then writes and database events only, then:
    nothing more when the loop was left by [WebSocketDisconnect] (the
    server sends no close of its own), and one close with code 4500 when
    it was left by any other exception. If the database session was not
    rolled back meanwhile, the member is deregistered at the end; if it
    was, the loop was left by an exception of the database layer and the
    registry and the pending tasks are still those the loop left. *)
Theorem X14_close_on_session_end
    (E : Env) (ws : websocket) (p token : string) (script : list inbound)
    (w : world) (user : User) (project : Project) :
  world_ok w ->
  fst (get_websocket_user E token w) = Ret user ->
  find_project E p = Some project ->
  is_public project = true \/ owner_id project = u_id user ->
  (exists e, In (RecvRaises e) script) ->
  let u := u_id user in
  let info := user_info_of user in
  let l := receive_loop E ws p u info script (snd (connect E ws p u info w)) in
  let r := project_websocket E ws p token script w in
  exists e evs,
    fst l = Raise e
    /\ fst r = Ret tt
    /\ new_events w (snd r)
       = Accepted ws
         :: evs ++ (if is_WebSocketDisconnect e then []
                    else [Closed ws 4500 "Internal server error"])
    /\ Forall session_event evs
    /\ (rollbacks (snd r) = rollbacks w -> ~ In u (members_of p (snd r)))
    /\ (rollbacks (snd r) <> rollbacks w ->
        (e = MissingGreenlet \/ e = DatabaseError)
        /\ active_connections (snd r) = active_connections (snd l)
        /\ user_sessions (snd r) = user_sessions (snd l)
        /\ tasks (snd r) = tasks (snd l)).
Proof.
  intros Hw Hu Hp Hgate Hexit u info l r. subst u info l r.
  set (u := u_id user). set (info := user_info_of user).
  set (w1 := snd (connect E ws p u info w)).
  assert (Hr1 : rollbacks w1 = rollbacks w).
  { subst w1. rewrite connect_eq. simpl. unfold announced_world.
    now rewrite broadcast_world_rollbacks. }
  destruct (receive_loop_exits E ws p u info script Hexit w1) as [e He].
  destruct (project_websocket_authorized_events E ws p token script w user
              project Hu Hp Hgate) as [evs [Hev F]].
  fold u info w1 in Hev.
  rewrite (project_websocket_authorized E ws p token script w user project
             Hu Hp Hgate) in *.
  fold u info w1 in Hev |- *.
  assert (Hw1 : world_ok w1) by (now apply preserves_connect).
  pose proof (preserves_receive_loop E ws p u info script w1 Hw1) as Hl.
  exists e, evs. split; [exact He|].
  destruct (receive_loop_exit_live E ws p u info script w1 e He)
    as [Hlive|[Hexp Hdb]].
  - rewrite (joined_exit_live E ws p u info script w1 e He Hlive) in *.
    set (wl := snd (receive_loop E ws p u info script w1)) in *.
    destruct (disconnect_world_gone E p u wl Hl) as [Hgone _].
    destruct (is_WebSocketDisconnect e); simpl in *;
      (split; [reflexivity|]; split; [exact Hev|]; split; [exact F|];
       split; [intros _; exact Hgone | intros Hne; congruence]).
  - rewrite (joined_exit_expired E ws p u info script w1 e He Hexp) in *.
    set (wl := snd (receive_loop E ws p u info script w1)) in *.
    assert (Hnot : is_WebSocketDisconnect e = false)
      by (destruct Hdb; subst; reflexivity).
    rewrite Hnot. simpl in *.
    split; [reflexivity|]. split; [exact Hev|]. split; [exact F|]. split.
    + intros Heq. congruence.
    + intros _. repeat split. exact Hdb.
Qed.

(** [u3] joins, moves its cursor and goes away. *)
Lemma X14_close_on_session_end_witness :
  let E := Scenario.env [] true in
  let w := Scenario.two_members in
  let user := Scenario.user "u3" in
  let script := [Frame "cursor"; RecvRaises WebSocketDisconnect] in
  let u := u_id user in
  let info := user_info_of user in
  let l := receive_loop E 7 "p1" u info script
             (snd (connect E 7 "p1" u info w)) in
  let r := project_websocket E 7 "p1" "token-u3" script w in
  exists e evs,
    fst l = Raise e
    /\ fst r = Ret tt
    /\ new_events w (snd r)
       = Accepted 7
         :: evs ++ (if is_WebSocketDisconnect e then []
                    else [Closed 7 4500 "Internal server error"])
    /\ Forall session_event evs
    /\ (rollbacks (snd r) = rollbacks w -> ~ In u (members_of "p1" (snd r)))
    /\ (rollbacks (snd r) <> rollbacks w ->
        (e = MissingGreenlet \/ e = DatabaseError)
        /\ active_connections (snd r) = active_connections (snd l)
        /\ user_sessions (snd r) = user_sessions (snd l)
        /\ tasks (snd r) = tasks (snd l)).
Proof.
  apply (X14_close_on_session_end (Scenario.env [] true) 7 "p1" "token-u3"
           [Frame "cursor"; RecvRaises WebSocketDisconnect]
           Scenario.two_members (Scenario.user "u3") (mkProject "u1" true)).
  - apply Scenario_two_members_ok.
  - reflexivity.
  - reflexivity.
  - left. reflexivity.
  - exists WebSocketDisconnect. simpl. auto.
Defined.

(* ===================================================================== *)
(** * Further properties of the connection manager *)
(* ===================================================================== *)

Section MoreManager.
Variable E : Env.
Import PyDictFacts.

Lemma broadcast_world_connections p message ex w :
  world_ok w ->
  dict_get_default p (active_connections (broadcast_world E p message ex w))
  = fold_left (fun m v => PyDict.pop v m)
      (failed_of E ex (dict_get_default p (active_connections w)))
      (dict_get_default p (active_connections w)).
Proof.
  intros Hw. unfold broadcast_world.
  destruct (PyDict.get p (active_connections w)) as [m|] eqn:G.
  - rewrite cleanup_connections. simpl.
    rewrite default_fold_drop by apply Hw.
    unfold dict_get_default. now rewrite G.
  - unfold dict_get_default. now rewrite G.
Qed.

Lemma get_fold_pop_other {V} u (l : list string) :
  forall d : dict V,
    ~ In u l ->
    PyDict.get u (fold_left (fun m v => PyDict.pop v m) l d) = PyDict.get u d.
Proof.
  induction l as [|k l IH]; intros d Hnin; simpl; [reflexivity|].
  rewrite IH by (intros H; apply Hnin; now right).
  apply get_pop_neq. intros ->. apply Hnin. now left.
Qed.

Lemma excluded_not_failed u members :
  u <> "" -> ~ In u (failed_of E (Some u) members).
Proof.
  intros Hu Hin. unfold failed_of in Hin.
  apply in_map_iff in Hin as [[k ws] [Hk Hin]]. simpl in Hk. subst k.
  apply filter_In in Hin as [Hin _].
  rewrite recipients_some in Hin by assumption.
  apply filter_In in Hin as [_ Hne]. simpl in Hne.
  now rewrite String.eqb_refl in Hne.
Qed.

Lemma filter_set_other {V} u (v : V) (d : dict V) :
  filter (fun m => negb (String.eqb (fst m) u)) (PyDict.set u v d)
  = filter (fun m => negb (String.eqb (fst m) u)) d.
Proof.
  induction d as [|[k v'] r IH]; simpl.
  - now rewrite String.eqb_refl.
  - destruct (String.eqb_spec u k) as [->|Hne]; simpl.
    + now rewrite String.eqb_refl.
    + destruct (String.eqb_spec k u); [congruence|]. simpl. now rewrite IH.
Qed.

Lemma set_same {V} k (v : V) (d : dict V) :
  PyDict.get k d = Some v -> PyDict.set k v d = d.
Proof.
  induction d as [|[k' v'] r IH]; simpl; [discriminate|].
  destruct (String.eqb_spec k k') as [->|Hne]; intros H.
  - now inversion H.
  - now rewrite IH.
Qed.

Lemma closes_sends (f : string * websocket -> dict json)
    (l : dict websocket) :
  flat_map (fun e => match e with
                     | Closed _ code reason => [(code, reason)]
                     | _ => []
                     end)
           (map (fun m => Sent (snd m) (f m) (send_ok E (snd m))) l)
  = [].
Proof. induction l as [|m l IH]; simpl; [reflexivity | exact IH]. Qed.

End MoreManager.

(** X15. [connect] always leaves the connecting member registered, with
    the socket it came on and a fresh session holding the identity info
    it was given, whether it was already registered or not and whichever
    sends of the join announcement fail. *)
Theorem X15_connect_registers_the_member
    (E : Env) (ws : websocket) (p u : string) (info : dict json)
    (w : world) :
  world_ok w -> u <> "" ->
  let r := connect E ws p u info w in
  fst r = Ret tt
  /\ PyDict.get u (dict_get_default p (active_connections (snd r))) = Some ws
  /\ PyDict.get u (dict_get_default p (user_sessions (snd r)))
     = Some (mkSession info (utcnow E (clock w)) (utcnow E (S (clock w))))
  /\ entry_count p u (active_connections (snd r)) <= 1.
Proof.
  intros Hw Hu r. subst r. rewrite connect_eq. simpl.
  unfold announced_world.
  set (w1 := register_world E ws p u info w).
  assert (Hw1 : world_ok (tick w1)).
  { eapply world_ok_tables; [reflexivity | reflexivity |].
    now apply world_ok_register_world. }
  split; [reflexivity|]. split; [|split].
  - rewrite broadcast_world_connections by assumption.
    rewrite get_fold_pop_other by now apply excluded_not_failed.
    simpl. rewrite default_add. apply PyDictFacts.get_set_eq.
  - rewrite broadcast_world_sessions by assumption.
    rewrite get_fold_pop_other by now apply excluded_not_failed.
    simpl. rewrite default_add. apply PyDictFacts.get_set_eq.
  - apply entry_count_le_1.
    apply (world_ok_broadcast_world E p _ (Some u) (tick w1) Hw1).
Qed.

Lemma X15_connect_registers_the_member_witness :
  let E := Scenario.env [1; 2] true in
  let w := Scenario.two_members in
  let r := connect E 9 "p1" "u2" (Scenario.info "u2") w in
  fst r = Ret tt
  /\ PyDict.get "u2" (dict_get_default "p1" (active_connections (snd r)))
     = Some 9
  /\ PyDict.get "u2" (dict_get_default "p1" (user_sessions (snd r)))
     = Some (mkSession (Scenario.info "u2") (utcnow E (clock w))
                       (utcnow E (S (clock w))))
  /\ entry_count "p1" "u2" (active_connections (snd r)) <= 1.
Proof.
  apply (X15_connect_registers_the_member (Scenario.env [1; 2] true) 9 "p1"
           "u2" (Scenario.info "u2") Scenario.two_members).
  - apply Scenario_two_members_ok.
  - discriminate.
Defined.

(** X16. A second connection of a member already registered replaces the
    slot in place: the join announcement goes to the other members only
    (the superseded socket is neither written to nor closed), the new
    socket gets the [active_users] envelope, and the member list keeps
    its order, less the members whose send failed. *)
Theorem X16_reconnection_replaces_in_place
    (E : Env) (ws : websocket) (p u : string) (info : dict json)
    (w : world) :
  world_ok w -> u <> "" -> In u (members_of p w) ->
  let others :=
    filter (fun m => negb (String.eqb (fst m) u))
           (dict_get_default p (active_connections w)) in
  let failed :=
    map fst (filter (fun m => negb (send_ok E (snd m))) others) in
  let r := connect E ws p u info w in
  (exists now snapshot,
     new_events w (snd r)
     = Accepted ws
       :: map (fun m => Sent (snd m) (user_joined_message u info now)
                             (send_ok E (snd m)))
              others
       ++ [Sent ws snapshot (send_ok E ws)])
  /\ members_of p (snd r)
     = filter (fun x => negb (existsb (String.eqb x) failed))
              (members_of p w)
  /\ closes (new_events w (snd r)) = [].
Proof.
  intros Hw Hu Hin others failed r. subst r.
  rewrite connect_eq.
  set (w1 := register_world E ws p u info w).
  assert (Hw1 : world_ok (tick w1)).
  { eapply world_ok_tables; [reflexivity | reflexivity |].
    now apply world_ok_register_world. }
  assert (Hrec : recipients (Some u)
                   (dict_get_default p (active_connections (tick w1)))
                 = others).
  { simpl. rewrite default_add, recipients_some by assumption.
    apply filter_set_other. }
  assert (Htrace : new_events w (connect_world E ws p u info w)
    = Accepted ws
      :: map (fun m => Sent (snd m)
                (user_joined_message u info (utcnow E (clock w1)))
                (send_ok E (snd m))) others
      ++ [Sent ws (snapshot_message E ws p u info w) (send_ok E ws)]).
  { apply new_events_app. unfold connect_world, announced_world. simpl.
    fold w1. rewrite broadcast_world_trace. unfold sends_of.
    rewrite Hrec. simpl. rewrite <- !app_assoc. reflexivity. }
  simpl. split; [eauto|]. split.
  - change (members_of p (connect_world E ws p u info w))
      with (members_of p (announced_world E ws p u info w)).
    unfold announced_world. fold w1.
    rewrite broadcast_world_members by assumption.
    unfold failed_of. rewrite Hrec. fold failed.
    unfold members_of. simpl. rewrite default_add.
    rewrite PyDictFacts.keys_set.
    apply PyDictFacts.contains_in_keys in Hin. now rewrite Hin.
  - rewrite Htrace. simpl. unfold closes.
    rewrite flat_map_app. simpl. rewrite app_nil_r.
    apply closes_sends.
Qed.

Lemma X16_reconnection_replaces_in_place_witness :
  let E := Scenario.env [3] true in
  let w := Scenario.three_members in
  let others :=
    filter (fun m => negb (String.eqb (fst m) "u2"))
           (dict_get_default "p1" (active_connections w)) in
  let failed :=
    map fst (filter (fun m => negb (send_ok E (snd m))) others) in
  let r := connect E 9 "p1" "u2" (Scenario.info "u2") w in
  members_of "p1" w = ["u1"; "u2"; "u3"]
  /\ members_of "p1" (snd r) = ["u1"; "u2"]
  /\ sends_to 2 (new_events w (snd r)) = []
  /\ (exists now snapshot,
        new_events w (snd r)
        = Accepted 9
          :: map (fun m => Sent (snd m)
                    (user_joined_message "u2" (Scenario.info "u2") now)
                    (send_ok E (snd m)))
                 others
          ++ [Sent 9 snapshot (send_ok E 9)])
  /\ members_of "p1" (snd r)
     = filter (fun x => negb (existsb (String.eqb x) failed))
              (members_of "p1" w)
  /\ closes (new_events w (snd r)) = [].
Proof.
  split; [reflexivity|]. split; [vm_compute; reflexivity|].
  split; [vm_compute; reflexivity|].
  apply (X16_reconnection_replaces_in_place (Scenario.env [3] true) 9 "p1"
           "u2" (Scenario.info "u2") Scenario.three_members).
  - apply Scenario_three_members_ok.
  - discriminate.
  - vm_compute. auto.
Defined.

Section RoundTrip.
Import PyDictFacts.

Lemma drop_absent {V} p u (reg : dict (dict V)) :
  registry_ok reg ->
  PyDict.get u (dict_get_default p reg) = None ->
  drop p u reg = reg.
Proof.
  intros Hreg Hget. unfold drop, dict_get_default in *.
  destruct (PyDict.get p reg) as [m|] eqn:G; [|reflexivity].
  rewrite pop_absent by assumption.
  destruct (registry_ok_members _ _ _ Hreg G) as [Hne _].
  destruct m as [|x m]; [congruence|]. simpl.
  now apply set_same.
Qed.

Lemma drop_add {V} p u (v : V) (reg : dict (dict V)) :
  registry_ok reg ->
  PyDict.get u (dict_get_default p reg) = None ->
  drop p u (add p u v reg) = reg.
Proof.
  intros Hreg Hget. unfold drop, add.
  rewrite get_set_eq, pop_set, pop_absent by assumption.
  unfold dict_get_default in *.
  destruct (PyDict.get p reg) as [m|] eqn:G.
  - destruct (registry_ok_members _ _ _ Hreg G) as [Hne _].
    destruct m as [|x m]; [congruence|]. simpl.
    rewrite set_set. now apply set_same.
  - simpl. rewrite pop_set. now apply pop_absent.
Qed.

End RoundTrip.

(** X17. Disconnecting a member that is not registered in the project
    (unknown project or unknown member) changes nothing: no table, no
    task, no log entry, and the clock is not read. *)
Theorem X17_disconnect_of_a_stranger_is_a_no_op
    (E : Env) (p u : string) (w : world) :
  world_ok w ->
  ~ In u (members_of p w) ->
  disconnect E p u w = (Ret tt, w).
Proof.
  intros Hw Hnin. rewrite disconnect_eq. f_equal.
  assert (Hs : PyDict.get u (dict_get_default p (user_sessions w)) = None).
  { apply PyDictFacts.get_none_not_in.
    now rewrite world_ok_same_keys. }
  assert (Ha : PyDict.get u (dict_get_default p (active_connections w))
               = None) by now apply PyDictFacts.get_none_not_in.
  unfold disconnect_world, leave_task. rewrite Hs.
  rewrite !drop_absent; trivial.
  - rewrite app_nil_r. simpl. now destruct w.
  - now apply world_ok_sessions.
  - apply Hw.
Qed.

Lemma X17_disconnect_of_a_stranger_is_a_no_op_witness :
  let E := Scenario.env [] true in
  disconnect E "p1" "u9" Scenario.two_members
  = (Ret tt, Scenario.two_members)
  /\ disconnect E "p9" "u1" Scenario.two_members
     = (Ret tt, Scenario.two_members).
Proof.
  split.
  - apply (X17_disconnect_of_a_stranger_is_a_no_op (Scenario.env [] true)
             "p1" "u9" Scenario.two_members).
    + apply Scenario_two_members_ok.
    + vm_compute. intros [H|[H|[]]]; discriminate.
  - apply (X17_disconnect_of_a_stranger_is_a_no_op (Scenario.env [] true)
             "p9" "u1" Scenario.two_members).
    + apply Scenario_two_members_ok.
    + vm_compute. intros [].
Defined.

(** X18. Joining and leaving is a round trip on the registry: when a new
    member connects, every send of the announcement succeeding, and is
    then disconnected, both tables are again exactly what they were,
    order included (a project created for the member is removed again),
    and the table of edits is untouched. *)
Theorem X18_connect_then_disconnect_restores_the_registry
    (E : Env) (ws : websocket) (p u : string) (info : dict json)
    (w : world) :
  world_ok w -> u <> "" -> ~ In u (members_of p w) ->
  (forall m, In m (dict_get_default p (active_connections w)) ->
             send_ok E (snd m) = true) ->
  let w1 := snd (connect E ws p u info w) in
  let w2 := snd (disconnect E p u w1) in
  In u (members_of p w1)
  /\ active_connections w2 = active_connections w
  /\ user_sessions w2 = user_sessions w
  /\ edit_history w2 = edit_history w.
Proof.
  intros Hw Hu Hnew Hok w1 w2. subst w1 w2.
  rewrite disconnect_eq, connect_eq. simpl.
  unfold announced_world.
  set (w1 := register_world E ws p u info w).
  assert (Hnone : failed_of E (Some u)
                    (dict_get_default p (active_connections (tick w1))) = []).
  { simpl. rewrite default_add.
    rewrite set_new by assumption.
    unfold failed_of. rewrite recipients_new by assumption.
    rewrite filter_none; [reflexivity|].
    intros m Hm. now rewrite (Hok m Hm). }
  assert (Hb : broadcast_world E p
                 (user_joined_message u info (utcnow E (clock w1)))
                 (Some u) (tick w1)
               = add_trace
                   (sends_of E (user_joined_message u info (utcnow E (clock w1)))
                      (Some u)
                      (dict_get_default p (active_connections (tick w1))))
                   (tick w1)).
  { unfold broadcast_world, dict_get_default in *.
    destruct (PyDict.get p (active_connections (tick w1))) as [m|] eqn:G.
    - now rewrite Hnone.
    - unfold sends_of. simpl. now rewrite add_trace_nil. }
  rewrite Hb. simpl.
  assert (Hs : PyDict.get u (dict_get_default p (user_sessions w)) = None).
  { apply PyDictFacts.get_none_not_in. now rewrite world_ok_same_keys. }
  assert (Ha : PyDict.get u (dict_get_default p (active_connections w))
               = None) by now apply PyDictFacts.get_none_not_in.
  split; [|split; [|split]].
  - unfold connect_world, announced_world. fold w1. rewrite Hb.
    change (In u (PyDict.keys
                    (dict_get_default p (add p u ws (active_connections w))))).
    rewrite default_add.
    eapply PyDictFacts.get_in_keys. apply PyDictFacts.get_set_eq.
  - apply drop_add; [apply Hw | assumption].
  - apply drop_add; [now apply world_ok_sessions | assumption].
  - reflexivity.
Qed.

Lemma X18_connect_then_disconnect_restores_the_registry_witness :
  let E := Scenario.env [] true in
  let w := Scenario.two_members in
  let w1 := snd (connect E 4 "p4" "u4" (Scenario.info "u4") w) in
  let w2 := snd (disconnect E "p4" "u4" w1) in
  PyDict.keys (active_connections w1) = ["p1"; "p4"]
  /\ In "u4" (members_of "p4" w1)
  /\ active_connections w2 = active_connections w
  /\ user_sessions w2 = user_sessions w
  /\ edit_history w2 = edit_history w.
Proof.
  split; [vm_compute; reflexivity|].
  apply (X18_connect_then_disconnect_restores_the_registry
           (Scenario.env [] true) 4 "p4" "u4" (Scenario.info "u4")
           Scenario.two_members).
  - apply Scenario_two_members_ok.
  - discriminate.
  - vm_compute. intros [].
  - vm_compute. intros m [].
Defined.

(* ===================================================================== *)
(** * The pending tasks *)
(* ===================================================================== *)

Section Draining.
Variable E : Env.
Import PyDictFacts.

Lemma total_set {V} p (m m' : dict V) (reg : dict (dict V)) :
  PyDict.get p reg = Some m ->
  total (PyDict.set p m' reg) + length m = total reg + length m'.
Proof.
  unfold total. induction reg as [|[k v] r IH]; simpl; [discriminate|].
  destruct (String.eqb_spec p k) as [->|Hne]; intros H; simpl.
  - inversion H; subst. lia.
  - specialize (IH H). lia.
Qed.

Lemma total_pop {V} p (m : dict V) (reg : dict (dict V)) :
  PyDict.get p reg = Some m ->
  total (PyDict.pop p reg) + length m = total reg.
Proof.
  unfold total. induction reg as [|[k v] r IH]; simpl; [discriminate|].
  destruct (String.eqb_spec p k) as [->|Hne]; intros H; simpl.
  - inversion H; subst. lia.
  - specialize (IH H). lia.
Qed.

Lemma length_pop {V} u (m : dict V) :
  length (PyDict.pop u m)
  + (match PyDict.get u m with Some _ => 1 | None => 0 end)
  = length m.
Proof.
  induction m as [|[k v] r IH]; simpl; [reflexivity|].
  destruct (String.eqb u k); simpl; lia.
Qed.

Lemma total_drop {V} p u (reg : dict (dict V)) :
  total (drop p u reg)
  + (match PyDict.get u (dict_get_default p reg) with
     | Some _ => 1 | None => 0 end)
  <= total reg.
Proof.
  unfold drop, dict_get_default.
  destruct (PyDict.get p reg) as [m|] eqn:G; [|simpl; lia].
  pose proof (length_pop u m) as Hl.
  destruct (PyDict.pop u m) as [|x l] eqn:Hp; simpl in *.
  - pose proof (total_pop p m reg G). lia.
  - pose proof (total_set p m (x :: l) reg G). simpl in *. lia.
Qed.

Lemma backlog_disconnect p u w :
  backlog (disconnect_world E p u w) <= backlog w.
Proof.
  unfold backlog, total_sessions. simpl. rewrite length_app.
  pose proof (total_drop p u (user_sessions w)) as H. unfold total in H.
  unfold leave_task.
  destruct (PyDict.get u (dict_get_default p (user_sessions w))) as [s|];
    [destruct (s_user_info s)|]; simpl; lia.
Qed.

Lemma backlog_cleanup p failed :
  forall w,
    backlog (fold_left (fun w u => disconnect_world E p u w) failed w)
    <= backlog w.
Proof.
  induction failed as [|u failed IH]; intros w; simpl; [lia|].
  etransitivity; [apply IH | apply backlog_disconnect].
Qed.

Lemma backlog_broadcast p message ex w :
  backlog (broadcast_world E p message ex w) <= backlog w.
Proof.
  unfold broadcast_world.
  destruct (PyDict.get p (active_connections w)); [|lia].
  etransitivity; [apply backlog_cleanup | reflexivity].
Qed.

Lemma run_next_task_idle w :
  tasks w = [] -> snd (run_next_task E w) = w.
Proof.
  intros H. unfold run_next_task, bind, gets. rewrite H. reflexivity.
Qed.

Lemma run_next_task_backlog w t rest :
  tasks w = t :: rest ->
  S (backlog (snd (run_next_task E w))) <= backlog w.
Proof.
  intros H. unfold run_next_task. unfold bind at 1, gets. rewrite H.
  unfold bind at 1, put_tasks. unfold bind at 1.
  rewrite broadcast_eq. simpl.
  etransitivity; [apply le_n_S, backlog_broadcast|].
  unfold backlog, total_sessions. simpl. rewrite H. simpl. lia.
Qed.

Lemma run_tasks_drains n :
  forall w, tasks w = [] \/ backlog w <= n -> tasks (run_tasks E n w) = [].
Proof.
  induction n as [|n IH]; intros w H; simpl.
  - destruct H as [H|H]; [assumption|].
    unfold backlog in H. destruct (tasks w); [reflexivity | simpl in H; lia].
  - destruct (tasks w) as [|t rest] eqn:Ht.
    + rewrite run_next_task_idle by assumption. apply IH. now left.
    + apply IH. right.
      pose proof (run_next_task_backlog w t rest Ht).
      destruct H as [H|H]; [discriminate | lia].
Qed.

End Draining.

(** X19. The cleanup cascade terminates: running the pending tasks
    oldest first -- each a broadcast that may deregister the members it
    fails to reach and so schedule further [user_left] broadcasts --
    empties the queue after at most as many runs as there are pending
    tasks and registered sessions together. *)
Theorem X19_pending_tasks_drain
    (E : Env) (w : world) :
  tasks (run_tasks E (length (tasks w) + total_sessions w) w) = [].
Proof. apply run_tasks_drains. right. unfold backlog. lia. Qed.

(** X20. The members query reports the registered connections: its
    [active_users] are the project's members in registry order and its
    [total] is their number, which is the number of connections the
    registry holds for the project (none, for a project nobody is
    connected to); the query changes neither table. *)
Theorem X20_members_query_counts_connections
    (E : Env) (p : string) (w : world) :
  world_ok w ->
  let r := get_project_active_users E p w in
  exists users,
    fst r = Ret [("project_id", JStr p);
                 ("active_users", JList users);
                 ("total", JNum (Z.of_nat (length users)));
                 ("timestamp", JStr (utcnow E (clock w)))]
    /\ user_ids users = map JStr (members_of p w)
    /\ length users = member_count p (active_connections w)
    /\ (PyDict.contains p (active_connections w) = false -> users = [])
    /\ active_connections (snd r) = active_connections w
    /\ user_sessions (snd r) = user_sessions w.
Proof.
  intros Hw r. subst r. exists (get_project_users p w).
  split; [reflexivity|].
  pose proof (user_ids_get_project_users p w Hw) as Hids.
  split; [exact Hids|]. split; [|split; [|split; reflexivity]].
  - apply (f_equal (@length json)) in Hids.
    unfold user_ids in Hids. rewrite !length_map in Hids.
    unfold member_count, members_of, PyDict.keys in *.
    now rewrite length_map in Hids.
  - intros Hc. apply (f_equal (@length json)) in Hids.
    unfold user_ids in Hids. rewrite !length_map in Hids.
    unfold members_of, dict_get_default, PyDict.contains in *.
    destruct (PyDict.get p (active_connections w)); [discriminate|].
    simpl in Hids. now destruct (get_project_users p w).
Qed.

Lemma X20_members_query_counts_connections_witness :
  let E := Scenario.env [] true in
  let w := Scenario.three_members in
  let r := get_project_active_users E "p1" w in
  PyDict.get "total" (match fst r with Ret d => d | _ => [] end)
  = Some (JNum 3)
  /\ exists users,
       fst r = Ret [("project_id", JStr "p1");
                    ("active_users", JList users);
                    ("total", JNum (Z.of_nat (length users)));
                    ("timestamp", JStr (utcnow E (clock w)))]
       /\ user_ids users = map JStr (members_of "p1" w)
       /\ length users = member_count "p1" (active_connections w)
       /\ (PyDict.contains "p1" (active_connections w) = false -> users = [])
       /\ active_connections (snd r) = active_connections w
       /\ user_sessions (snd r) = user_sessions w.
Proof.
  split; [vm_compute; reflexivity|].
  apply (X20_members_query_counts_connections (Scenario.env [] true) "p1"
           Scenario.three_members).
  apply Scenario_three_members_ok.
Defined.
